(** * Dispersy: distribution policies, the debug community and the tracker

    A shallow embedding of [distribution.py], of [DebugCommunity.check_text]
    and of [tool/tracker.py], followed by the properties proved about them.

    Conventions of the embedding.
    - Python [int]/[long] values are [Z]; Python 2 [str] values (byte
      strings) are [string], whose characters are 8-bit.
    - A raised exception is a value of [exn]; a function that may raise
      returns a [result].  In the tracker, code that may raise after it
      changed the world returns the world reached together with the
      outcome; [setup] of a distribution returns its state on success.
    - Objects that are shared by reference and mutated (a community, whose
      [global_time] moves while distributions point at it) live in a heap and
      are named by their address.
    - Code of the package that is outside the embedded files (the parent
      class [Dispersy], [Timeline], [Candidate]) is taken as an operation of
      the class [Externals] below. *)

From Stdlib Require Import Ascii String ZArith Lia.
From stdpp Require Import base option list gmap strings pretty sorting.

Local Open Scope Z_scope.

(* ===================================================================== *)
(** * Part I: the model                                                   *)
(* ===================================================================== *)

(** ** Python values, exceptions and results *)

(** The values that the embedded code attaches to an [assert]: atoms, and
    tuples and lists of atoms. *)
Inductive pyatom : Type :=
| ABool (b : bool)
| AInt (z : Z)
| AStr (s : string).

Inductive pyval : Type :=
| VAtom (a : pyatom)
| VTuple (items : list pyatom)
| VList (items : list pyatom).

Inductive exn : Type :=
| AssertionError (msg : option pyval)
| RuntimeError (msg : string)
| TypeError (msg : string)
| ValueError (msg : string)
| IndexError (msg : string)
| AttributeError (attr : string)
| IOError
| OtherError (msg : string).

Inductive result (A : Type) : Type :=
| Ok (a : A)
| Raise (e : exn).
Arguments Ok {A} a.
Arguments Raise {A} e.

#[global] Instance result_ret : MRet result := fun A a => Ok a.
#[global] Instance result_bind : MBind result := fun A B f m =>
  match m with
  | Ok a => f a
  | Raise e => Raise e
  end.

(** [assert cond, msg] *)
Definition assert_ (cond : bool) (msg : option pyval) : result unit :=
  if cond then Ok tt else Raise (AssertionError msg).

(* --------------------------------------------------------------------- *)
(** ** distribution.py                                                    *)
(* --------------------------------------------------------------------- *)

Module distribution.

(** The tables of the database that [distribution.py] touches. *)
Record sync_row : Type := {
  sync_community : Z;
  sync_member : Z;
  sync_global_time : Z;
  sync_meta_message : Z;
  sync_packet : string
}.

Record meta_message_row : Type := {
  mm_id : Z;
  mm_priority : Z;
  mm_direction : Z
}.

Record Database : Type := {
  sync : list sync_row;
  meta_message : list meta_message_row;
  changes : nat
}.

(** [UPDATE meta_message SET priority = ?, direction = ? WHERE id = ?] *)
Definition update_meta_message (priority direction id : Z) (db : Database) : Database :=
  {| sync := sync db;
     meta_message :=
       map (fun r => if bool_decide (mm_id r = id)
                     then {| mm_id := mm_id r; mm_priority := priority; mm_direction := direction |}
                     else r)
           (meta_message db);
     changes := length (filter (fun r => mm_id r = id) (meta_message db)) |}.

(** [SELECT COUNT(1) FROM sync WHERE member = ? AND meta_message = ?] *)
Definition count_sync (member meta : Z) (db : Database) : Z :=
  Z.of_nat (length (filter (fun r => sync_member r = member ∧ sync_meta_message r = meta) (sync db))).

Record cache_entry : Type := {
  cache_priority : Z;
  cache_direction : Z
}.

(** The part of a community that the distribution policies read. *)
Record Community : Type := {
  global_time : Z;
  my_member_database_id : Z;
  meta_message_cache : gmap string cache_entry;
  database : Database
}.

Definition with_database (db : Database) (c : Community) : Community :=
  {| global_time := global_time c;
     my_member_database_id := my_member_database_id c;
     meta_message_cache := meta_message_cache c;
     database := db |}.

(** Communities are shared objects: they are kept in a heap and the
    policies hold their address. *)
Abbreviation Heap := (gmap nat Community).

(** The part of a [Message] (a meta message) that [setup] reads. *)
Record Message : Type := {
  name : string;
  community : nat;
  database_id : Z
}.

(** *** Pruning *)

Inductive Pruning : Type :=
| NoPruning
| GlobalTimePruning (_inactive_threshold _prune_threshold : Z).

(** [GlobalTimePruning.__init__] *)
Definition GlobalTimePruning_init (inactive pruned : Z) : result Pruning :=
  _ ← assert_ (bool_decide (0 < inactive < pruned)) (Some (VList [AInt inactive; AInt pruned]));
  mret (GlobalTimePruning inactive pruned).

(** *** SyncDistribution *)

Inductive direction : Type := ASC | DESC | RANDOM.

Module SyncDistribution.

Record t : Type := {
  _synchronization_direction : direction;
  _priority : Z;
  _current_sequence_number : Z;
  _pruning : Pruning;
  (** unset until [setup] has run *)
  _community : option nat
}.

Definition __init__ (synchronization_direction : direction) (priority : Z)
    (pruning : Pruning) : result t :=
  _ ← assert_ (bool_decide (0 <= priority <= 255)) (Some (VAtom (AInt priority)));
  mret {| _synchronization_direction := synchronization_direction;
          _priority := priority;
          _current_sequence_number := 0;
          _pruning := pruning;
          _community := None |}.

Definition synchronization_direction_value (self : t) : Z :=
  match _synchronization_direction self with
  | ASC => 1
  | DESC => -1
  | RANDOM => 0
  end.

Definition set_community (r : nat) (self : t) : t :=
  {| _synchronization_direction := _synchronization_direction self;
     _priority := _priority self;
     _current_sequence_number := _current_sequence_number self;
     _pruning := _pruning self;
     _community := Some r |}.

Definition set_current_sequence_number (n : Z) (self : t) : t :=
  {| _synchronization_direction := _synchronization_direction self;
     _priority := _priority self;
     _current_sequence_number := n;
     _pruning := _pruning self;
     _community := _community self |}.

(** [SyncDistribution.setup].  The community of the message is looked up
    in the heap; an address outside the heap has no counterpart in
    Python and is reported like a missing attribute. *)
Definition setup (message : Message) (self : t) (heap : Heap) : result (t * Heap) :=
  let self := set_community (community message) self in
  match heap !! community message with
  | None => Raise (AttributeError "community")
  | Some c =>
      match meta_message_cache c !! name message with
      | None => Raise (AssertionError None)
      | Some cache =>
          if bool_decide (cache_priority cache = _priority self)
             && bool_decide (cache_direction cache = synchronization_direction_value self)
          then mret (self, heap)
          else
            let db := update_meta_message (_priority self) (synchronization_direction_value self)
                                          (database_id message) (database c) in
            _ ← assert_ (bool_decide (changes db = 1%nat)) None;
            mret (self, <[community message := with_database db c]> heap)
      end
  end.

Module Implementation.

Record t : Type := {
  _meta : SyncDistribution.t;
  _global_time : Z
}.

(** [Distribution.Implementation.__init__] followed by the body of
    [SyncDistribution.Implementation.__init__].  The pruning
    implementation that the latter builds points back at [self]; it
    is rebuilt from [self] by [pruning] below. *)
Definition __init__ (meta : SyncDistribution.t) (global_time : Z) : result t :=
  _ ← assert_ (bool_decide (global_time > 0)) None;
  mret {| _meta := meta; _global_time := global_time |}.

(** the [community] property *)
Definition community (self : t) (heap : Heap) : result Community :=
  match _community (_meta self) with
  | None => Raise (AttributeError "_community")
  | Some r =>
      match heap !! r with
      | None => Raise (AttributeError "_community")
      | Some c => Ok c
      end
  end.

End Implementation.

End SyncDistribution.

(** *** Pruning.Implementation and its two subclasses *)

Module Pruning_Implementation.

Record t : Type := {
  _meta : Pruning;
  _distribution : SyncDistribution.Implementation.t
}.

(** the age of the message: [community.global_time - global_time] *)
Definition age (self : t) (heap : Heap) : result Z :=
  c ← SyncDistribution.Implementation.community (_distribution self) heap;
  mret (global_time c - SyncDistribution.Implementation._global_time (_distribution self)).

Definition is_active (self : t) (heap : Heap) : result bool :=
  match _meta self with
  | NoPruning => mret true
  | GlobalTimePruning inactive_threshold _ =>
      d ← age self heap;
      mret (bool_decide (d < inactive_threshold))
  end.

Definition is_inactive (self : t) (heap : Heap) : result bool :=
  match _meta self with
  | NoPruning => mret false
  | GlobalTimePruning inactive_threshold prune_threshold =>
      d ← age self heap;
      (* a chained comparison: the second test only runs when the
         first one holds *)
      if bool_decide (inactive_threshold <= d)
      then mret (bool_decide (d < prune_threshold))
      else mret false
  end.

Definition is_pruned (self : t) (heap : Heap) : result bool :=
  match _meta self with
  | NoPruning => mret false
  | GlobalTimePruning _ prune_threshold =>
      d ← age self heap;
      mret (bool_decide (prune_threshold <= d))
  end.

(** [Pruning.Implementation.get_state] *)
Definition get_state (self : t) (heap : Heap) : result string :=
  a ← is_active self heap;
  if a : bool then mret "active"
  else
    i ← is_inactive self heap;
    if i : bool then mret "inactive"
    else
      p ← is_pruned self heap;
      if p : bool then mret "pruned"
      else Raise (RuntimeError "Unable to obtain pruning state").

End Pruning_Implementation.

(** the [pruning] property of a [SyncDistribution.Implementation] *)
Definition pruning (self : SyncDistribution.Implementation.t) : Pruning_Implementation.t :=
  {| Pruning_Implementation._meta :=
       SyncDistribution._pruning (SyncDistribution.Implementation._meta self);
     Pruning_Implementation._distribution := self |}.

(** *** FullSyncDistribution *)

Module FullSyncDistribution.

Record t : Type := {
  base : SyncDistribution.t;
  _enable_sequence_number : bool
}.

Definition __init__ (synchronization_direction : direction) (priority : Z)
    (enable_sequence_number : bool) (pruning : Pruning) : result t :=
  b ← SyncDistribution.__init__ synchronization_direction priority pruning;
  mret {| base := b; _enable_sequence_number := enable_sequence_number |}.

Definition _current_sequence_number (self : t) : Z :=
  SyncDistribution._current_sequence_number (base self).

(** [FullSyncDistribution.setup] *)
Definition setup (message : Message) (self : t) (heap : Heap) : result (t * Heap) :=
  '(b, heap) ← SyncDistribution.setup message (base self) heap;
  if _enable_sequence_number self
  then
    match heap !! community message with
    | None => Raise (AttributeError "community")
    | Some c =>
        let n := count_sync (my_member_database_id c) (database_id message) (database c) in
        mret ({| base := SyncDistribution.set_current_sequence_number n b;
                 _enable_sequence_number := _enable_sequence_number self |}, heap)
    end
  else mret ({| base := b; _enable_sequence_number := _enable_sequence_number self |}, heap).

(** [FullSyncDistribution.claim_sequence_number]: the number claimed and
    the distribution with its counter moved. *)
Definition claim_sequence_number (self : t) : result (Z * t) :=
  _ ← assert_ (_enable_sequence_number self) None;
  let n := _current_sequence_number self + 1 in
  mret (n, {| base := SyncDistribution.set_current_sequence_number n (base self);
              _enable_sequence_number := _enable_sequence_number self |}).

Module Implementation.

Record t : Type := {
  sync_part : SyncDistribution.Implementation.t;
  _meta : FullSyncDistribution.t;
  _sequence_number : Z
}.

(** [FullSyncDistribution.Implementation.__init__] *)
Definition __init__ (meta : FullSyncDistribution.t) (global_time : Z)
    (sequence_number : Z) : result t :=
  _ ← assert_ ((_enable_sequence_number meta && bool_decide (sequence_number > 0))
               || (negb (_enable_sequence_number meta) && bool_decide (sequence_number = 0)))
              (Some (VTuple [ABool (_enable_sequence_number meta); AInt sequence_number]));
  s ← SyncDistribution.Implementation.__init__ (base meta) global_time;
  mret {| sync_part := s; _meta := meta; _sequence_number := sequence_number |}.

Definition enable_sequence_number (self : t) : bool :=
  _enable_sequence_number (_meta self).

Definition sequence_number (self : t) : Z := _sequence_number self.

Definition global_time (self : t) : Z :=
  SyncDistribution.Implementation._global_time (sync_part self).

End Implementation.

End FullSyncDistribution.

(** [n] successive calls of [claim_sequence_number]: the numbers claimed,
    in the order of the calls, and the distribution afterwards. *)
Fixpoint claim_sequence_numbers (n : nat) (self : FullSyncDistribution.t)
    : result (list Z * FullSyncDistribution.t) :=
  match n with
  | O => mret ([], self)
  | S n' =>
      '(k, self) ← FullSyncDistribution.claim_sequence_number self;
      '(ks, self) ← claim_sequence_numbers n' self;
      mret (k :: ks, self)
  end.

End distribution.

(* --------------------------------------------------------------------- *)
(** ** debugcommunity.py                                                  *)
(* --------------------------------------------------------------------- *)

Module debugcommunity.

(** What a check handler yields for one message: the message itself or an
    exception object that wraps it. *)
Inductive yielded (M : Type) : Type :=
| Yield (message : M)
| DelayMessageByProof (message : M).
Arguments Yield {M} message.
Arguments DelayMessageByProof {M} message.

(** [DebugCommunity.check_text], with [self._timeline.check] as
    [timeline_check]; the generator is the list of what it yields. *)
Fixpoint check_text {M : Type} (timeline_check : M -> bool * list M)
    (messages : list M) : list (yielded M) :=
  match messages with
  | [] => []
  | message :: messages =>
      let '(allowed, proof) := timeline_check message in
      (if allowed then Yield message else DelayMessageByProof message)
        :: check_text timeline_check messages
  end.

End debugcommunity.

(* --------------------------------------------------------------------- *)
(** ** Python 2 string operations used by the tracker                     *)
(* --------------------------------------------------------------------- *)

Module pystr.

Local Open Scope N_scope.

Definition hex_digit (n : N) : ascii :=
  match n with
  | 0 => "0" | 1 => "1" | 2 => "2" | 3 => "3" | 4 => "4" | 5 => "5"
  | 6 => "6" | 7 => "7" | 8 => "8" | 9 => "9" | 10 => "a" | 11 => "b"
  | 12 => "c" | 13 => "d" | 14 => "e" | _ => "f"
  end%char.

(** [s.encode("HEX")]: two lower-case digits per byte *)
Fixpoint encode_HEX (s : string) : string :=
  match s with
  | EmptyString => EmptyString
  | String c s =>
      let n := N_of_ascii c in
      String (hex_digit (n / 16)) (String (hex_digit (n mod 16)) (encode_HEX s))
  end.

Definition hex_value (c : ascii) : option N :=
  let n := N_of_ascii c in
  if (48 <=? n) && (n <=? 57) then Some (n - 48)
  else if (97 <=? n) && (n <=? 102) then Some (n - 87)
  else if (65 <=? n) && (n <=? 70) then Some (n - 55)
  else None.

Fixpoint decode_pairs (s : string) : result string :=
  match s with
  | EmptyString => Ok EmptyString
  | String _ EmptyString => Raise (TypeError "Odd-length string")
  | String a (String b s) =>
      match hex_value a, hex_value b with
      | Some x, Some y =>
          r ← decode_pairs s;
          mret (String (ascii_of_N (16 * x + y)) r)
      | _, _ => Raise (TypeError "Non-hexadecimal digit found")
      end
  end.

(** [s.decode("HEX")]: the length is checked before any digit *)
Definition decode_HEX (s : string) : result string :=
  if Nat.odd (String.length s) then Raise (TypeError "Odd-length string")
  else decode_pairs s.

Definition isspace (c : ascii) : bool :=
  let n := N_of_ascii c in
  ((9 <=? n) && (n <=? 13)) || (n =? 32).

Definition push (cur : string) (c : ascii) : string := cur +:+ String c EmptyString.

(** [s.split()]: the maximal runs of characters that are not white space;
    [cur] is the run being read, if any. *)
Fixpoint split_from (cur : option string) (s : string) : list string :=
  match s with
  | EmptyString => match cur with Some w => [w] | None => [] end
  | String c s =>
      if isspace c
      then match cur with
           | Some w => w :: split_from None s
           | None => split_from None s
           end
      else split_from (Some (push (default EmptyString cur) c)) s
  end.

Definition split (s : string) : list string := split_from None s.

(** [s.startswith(p)] *)
Definition startswith (p s : string) : bool := String.prefix p s.

(** The lines of a file opened in mode ["r"], each with its newline. *)
Fixpoint lines_from (cur : string) (s : string) : list string :=
  match s with
  | EmptyString => match cur with EmptyString => [] | _ => [cur] end
  | String c s =>
      if Ascii.eqb c "010"%char
      then push cur c :: lines_from EmptyString s
      else lines_from (push cur c) s
  end.

Definition readlines (content : string) : list string := lines_from EmptyString content.

Definition endswith_slash (s : string) : bool :=
  match String.rev s with
  | String c _ => Ascii.eqb c "/"%char
  | EmptyString => false
  end.

(** [os.path.join(a, b)] on a POSIX system *)
Definition os_path_join (a b : string) : string :=
  if startswith "/" b then b
  else if String.eqb a EmptyString || endswith_slash a then a +:+ b
  else a +:+ "/" +:+ b.

(** [str(n)] for an integer *)
Definition str_int (n : Z) : string := pretty n.

(** [" ".join(items)] *)
Fixpoint join_space (items : list string) : string :=
  match items with
  | [] => EmptyString
  | [x] => x
  | x :: items => x +:+ " " +:+ join_space items
  end.

End pystr.

(* --------------------------------------------------------------------- *)
(** ** tool/tracker.py                                                    *)
(* --------------------------------------------------------------------- *)

Module tracker.

Import pystr.

(** *** Data *)

(** The class of a candidate, as far as [isinstance] asks for it. *)
Inductive CandidateClass : Type :=
| WalkCandidate
| BootstrapCandidate
| LoopbackCandidate.

Record Candidate : Type := {
  candidate_class : CandidateClass;
  sock_addr : string * Z
}.

Definition isinstance_BootstrapCandidate (c : Candidate) : bool :=
  match candidate_class c with
  | BootstrapCandidate => true
  | _ => false
  end.

Record Member : Type := {
  mid : string;
  public_key : string;
  member_database_id : Z
}.

Record Conversion : Type := {
  dispersy_version : ascii;
  community_version : ascii
}.

Module Message.
(** The attributes of a [Message.Implementation] that the tracker reads;
    [community_cid] is [message.community.cid]. *)
Record Implementation : Type := {
  name : string;
  community_cid : string;
  candidate : Candidate;
  authentication_member : Member;
  conversion : Conversion;
  packet : string
}.
End Message.

(** The two community classes of the tracker. *)
Inductive CommunityClass : Type :=
| TrackerCommunity
| TrackerHardKilledCommunity.

(** A loaded community.  [identity_database_id] is
    [self._meta_messages[u"dispersy-identity"].database_id]. *)
Record Community : Type := {
  community_class : CommunityClass;
  _cid : string;
  _strikes : Z;
  identity_database_id : Z
}.

Definition set_strikes (n : Z) (self : Community) : Community :=
  {| community_class := community_class self;
     _cid := _cid self;
     _strikes := n;
     identity_database_id := identity_database_id self |}.

(** [__init__] of both community classes: no strike yet. *)
Definition new_community (cls : CommunityClass) (cid : string) (identity_id : Z) : Community :=
  {| community_class := cls; _cid := cid; _strikes := 0; identity_database_id := identity_id |}.

(** A key of the batch cache: a meta message and the community it
    belongs to.  Loaded communities are told apart by their cid, the key
    of [_communities]. *)
Record Meta : Type := {
  meta_name : string;
  meta_community : string
}.

(** What [check_introduction_request] yields for one message. *)
Inductive checked : Type :=
| Accepted (message : Message.Implementation)
| DropMessage (message : Message.Implementation) (reason : string)
| DelayMessage (message : Message.Implementation).

(** The generators that [TrackerDispersy.__init__] hands to the
    callback. *)
Inductive Task : Type :=
| _load_persistent_storage_task
| _unload_communities_task
| _report_statistics_task.

(** Types that belong to code outside [tracker.py]: time stamps, the
    state of the parent class, batches and returned objects. *)
Class Opaque : Type := {
  Time : Type;
  Base : Type;
  Batch : Type;
  Value : Type
}.

(** The tracker and what it acts on: the attributes of [TrackerDispersy],
    the tasks registered with the callback, standard output, the files,
    the log of [dprint] and the state owned by the parent class. *)
Record World `{Opaque} : Type := {
  _communities : gmap string Community;
  _candidates : list Candidate;
  _bootstrap_candidates : list (string * Z);
  _batch_cache : list Meta;
  _statistics_drop : gmap string nat;
  _database : list distribution.sync_row;
  _non_autoload : gset string;
  _my_member : Member;
  _persistent_storage_filename : string;
  _silent : bool;
  registered : list Task;
  stdout : list string;
  files : gmap string string;
  dprint_log : list string;
  base : Base
}.

Section Updates.
Context `{Opaque}.

Definition set_communities (m : gmap string Community) (w : World) : World :=
  {| _communities := m; _candidates := _candidates w;
     _bootstrap_candidates := _bootstrap_candidates w; _batch_cache := _batch_cache w;
     _statistics_drop := _statistics_drop w; _database := _database w;
     _non_autoload := _non_autoload w; _my_member := _my_member w;
     _persistent_storage_filename := _persistent_storage_filename w;
     _silent := _silent w; registered := registered w; stdout := stdout w;
     files := files w; dprint_log := dprint_log w; base := base w |}.

Definition set_statistics_drop (m : gmap string nat) (w : World) : World :=
  {| _communities := _communities w; _candidates := _candidates w;
     _bootstrap_candidates := _bootstrap_candidates w; _batch_cache := _batch_cache w;
     _statistics_drop := m; _database := _database w;
     _non_autoload := _non_autoload w; _my_member := _my_member w;
     _persistent_storage_filename := _persistent_storage_filename w;
     _silent := _silent w; registered := registered w; stdout := stdout w;
     files := files w; dprint_log := dprint_log w; base := base w |}.

Definition set_stdout (out : list string) (w : World) : World :=
  {| _communities := _communities w; _candidates := _candidates w;
     _bootstrap_candidates := _bootstrap_candidates w; _batch_cache := _batch_cache w;
     _statistics_drop := _statistics_drop w; _database := _database w;
     _non_autoload := _non_autoload w; _my_member := _my_member w;
     _persistent_storage_filename := _persistent_storage_filename w;
     _silent := _silent w; registered := registered w; stdout := out;
     files := files w; dprint_log := dprint_log w; base := base w |}.

Definition set_files (fs : gmap string string) (w : World) : World :=
  {| _communities := _communities w; _candidates := _candidates w;
     _bootstrap_candidates := _bootstrap_candidates w; _batch_cache := _batch_cache w;
     _statistics_drop := _statistics_drop w; _database := _database w;
     _non_autoload := _non_autoload w; _my_member := _my_member w;
     _persistent_storage_filename := _persistent_storage_filename w;
     _silent := _silent w; registered := registered w; stdout := stdout w;
     files := fs; dprint_log := dprint_log w; base := base w |}.

Definition set_dprint_log (log : list string) (w : World) : World :=
  {| _communities := _communities w; _candidates := _candidates w;
     _bootstrap_candidates := _bootstrap_candidates w; _batch_cache := _batch_cache w;
     _statistics_drop := _statistics_drop w; _database := _database w;
     _non_autoload := _non_autoload w; _my_member := _my_member w;
     _persistent_storage_filename := _persistent_storage_filename w;
     _silent := _silent w; registered := registered w; stdout := stdout w;
     files := files w; dprint_log := log; base := base w |}.

Definition set_base (b : Base) (w : World) : World :=
  {| _communities := _communities w; _candidates := _candidates w;
     _bootstrap_candidates := _bootstrap_candidates w; _batch_cache := _batch_cache w;
     _statistics_drop := _statistics_drop w; _database := _database w;
     _non_autoload := _non_autoload w; _my_member := _my_member w;
     _persistent_storage_filename := _persistent_storage_filename w;
     _silent := _silent w; registered := registered w; stdout := stdout w;
     files := files w; dprint_log := dprint_log w; base := b |}.

(** [print a, b, ...]: one line, the items separated by a space *)
Definition print (items : list string) (w : World) : World :=
  set_stdout (stdout w ++ [join_space items]) w.

(** [dprint(...)] *)
Definition dprint (text : string) (w : World) : World :=
  set_dprint_log (dprint_log w ++ [text]) w.

(** [open(filename, "a+").write(text)] *)
Definition write (filename text : string) (w : World) : World :=
  set_files (<[filename := default EmptyString (files w !! filename) +:+ text]> (files w)) w.

(** [self._statistics.dict_inc(self._statistics.drop, key)] *)
Definition dict_inc_drop (key : string) (w : World) : World :=
  set_statistics_drop (<[key := S (default O (_statistics_drop w !! key))]> (_statistics_drop w)) w.

End Updates.

(** The operations of the package that [tracker.py] calls and that are
    defined outside it. *)
Class Externals `{Opaque} : Type := {
  (** [time()] *)
  time : World -> Time;
  (** [candidate.is_active(community, now)] *)
  Candidate_is_active : Candidate -> Community -> Time -> bool;
  (** [str(candidate)] *)
  Candidate_str : Candidate -> string;
  (** [LoopbackCandidate()] *)
  new_LoopbackCandidate : Candidate;
  (** [community._timeline.check(message)] *)
  Timeline_check : Community -> Message.Implementation -> bool * list Message.Implementation;
  (** [community.unload_community()] *)
  Community_unload_community : Community -> World -> World;
  (** [Dispersy.on_incoming_packets(packets, cache, timestamp)] *)
  Dispersy_on_incoming_packets :
    list (Candidate * string) -> bool -> Time -> World -> result unit * World;
  (** [Dispersy._convert_packets_into_batch(packets)] *)
  Dispersy__convert_packets_into_batch :
    list (Candidate * string) -> World -> list Batch * World;
  (** [Dispersy.check_introduction_request(messages)], as the list of what
      the generator yields *)
  Dispersy_check_introduction_request :
    list Message.Implementation -> World -> list checked;
  (** [Dispersy.on_introduction_request(messages)] *)
  Dispersy_on_introduction_request :
    list Message.Implementation -> World -> result Value * World;
  (** [Dispersy.on_introduction_response(messages)] *)
  Dispersy_on_introduction_response :
    list Message.Implementation -> World -> result Value * World;
  (** [HardKilledCommunity.dispersy_on_introduction_request(messages)] *)
  HardKilledCommunity_dispersy_on_introduction_request :
    Community -> list Message.Implementation -> World -> result Value * World
}.

Section Operations.
Context `{Externals}.

(** *** The strike rule *)

(** [TrackerCommunity.update_strikes] and
    [TrackerHardKilledCommunity.update_strikes]: the strike count
    returned and the community with its counter updated.  The
    candidates are [self._dispersy.candidates]. *)
Definition update_strikes (self : Community) (now : Time) (w : World) : Z * Community :=
  match community_class self with
  | TrackerHardKilledCommunity =>
      let n := _strikes self + 1 in (n, set_strikes n self)
  | TrackerCommunity =>
      if existsb (fun candidate => Candidate_is_active candidate self now) (_candidates w)
      then (0, set_strikes 0 self)
      else let n := _strikes self + 1 in (n, set_strikes n self)
  end.

(** does a key of the batch cache belong to the community *)
Definition has_cached_messages (community : Community) (w : World) : bool :=
  existsb (fun meta => bool_decide (meta_community meta = _cid community)) (_batch_cache w).

(** [is_active], the local function of [_unload_communities] *)
Definition is_active (community : Community) (now : Time) (w : World) : bool * Community :=
  let '(strikes, community) := update_strikes community now w in
  if bool_decide (strikes < 3) then (true, community)
  else if has_cached_messages community w then (true, community)
  else (false, community).

(** The verdicts of [is_active] on one community over successive
    passes of the loop, each with its own time and world, and the
    community after the last pass. *)
Fixpoint verdicts (community : Community) (passes : list (Time * World))
    : list bool * Community :=
  match passes with
  | [] => ([], community)
  | (now, w) :: passes =>
      let '(verdict, community) := is_active community now w in
      let '(rest, community) := verdicts community passes in
      (verdict :: rest, community)
  end.

(** the seconds that [_unload_communities] yields before each pass *)
Definition _unload_communities_delay : Z := 180.

(** The list comprehension of [_unload_communities]: [is_active] runs
    once on every loaded community; the result is the dictionary with
    the verdict next to each community as [is_active] left it. *)
Definition check_communities (now : Time) (w : World) : gmap string (bool * Community) :=
  (fun community => is_active community now w) <$> _communities w.

Definition inactive_communities (now : Time) (w : World) : list Community :=
  (fun entry => snd (snd entry))
    <$> filter (fun entry => fst (snd entry) = false) (map_to_list (check_communities now w)).

(** One pass of the [while True] loop of [_unload_communities], after
    the task woke up. *)
Definition _unload_communities_pass (w : World) : World :=
  let now := time w in
  let inactive := inactive_communities now w in
  let total := size (_communities w) in
  let w := set_communities (snd <$> check_communities now w) w in
  let w := dprint ("cleaning " +:+ pretty (length inactive) +:+ "/" +:+ pretty total
                   +:+ " communities") w in
  fold_left (fun w community => Community_unload_community community w) inactive w.

(** [_unload_communities], the generator, resumed once: the seconds it
    yields and the world it leaves.  The first resumption runs to the
    first [yield 180.0]; every later one runs the pass that follows the
    [yield] it was suspended at and comes round to the [yield] again. *)
Definition _unload_communities (started : bool) (w : World) : Z * World :=
  (_unload_communities_delay, if started then _unload_communities_pass w else w).

(** *** Packets *)

(** [filter_non_bootstrap_nodes], the local generator of
    [_convert_packets_into_batch]: the pairs it yields and the world
    after it ran. *)
Fixpoint filter_non_bootstrap_nodes (packets : list (Candidate * string)) (w : World)
    : list (Candidate * string) * World :=
  match packets with
  | [] => ([], w)
  | (candidate, packet) :: packets =>
      let cid := substring 2 20 packet in
      if negb (bool_decide (is_Some (_communities w !! cid))) && false
      then
        let w := dprint ("drop a " +:+ pretty (String.length packet)
                         +:+ " byte packet (received from non-autoload node) from "
                         +:+ Candidate_str candidate) w in
        let w := dict_inc_drop
                   "_convert_packets_into_batch:from bootstrap node for unloaded community" w in
        filter_non_bootstrap_nodes packets w
      else
        let '(rest, w) := filter_non_bootstrap_nodes packets w in
        ((candidate, packet) :: rest, w)
  end.

(** [TrackerDispersy._convert_packets_into_batch] *)
Definition _convert_packets_into_batch (packets : list (Candidate * string)) (w : World)
    : list Batch * World :=
  let '(packets, w) := filter_non_bootstrap_nodes packets w in
  match packets with
  | _ :: _ => Dispersy__convert_packets_into_batch packets w
  | [] => ([], w)
  end.

(** *** Persistent storage *)

(** The list comprehension of [_load_persistent_storage]: every line
    that is not a comment is split, unpacked into two fields and its
    second field decoded, line after line. *)
Fixpoint read_packets (lines : list string) : result (list string) :=
  match lines with
  | [] => Ok []
  | line :: lines =>
      if startswith "#" line then read_packets lines
      else
        match split line with
        | [_; packet] =>
            p ← decode_HEX packet;
            ps ← read_packets lines;
            mret (p :: ps)
        | [] => Raise (ValueError "need more than 0 values to unpack")
        | [_] => Raise (ValueError "need more than 1 value to unpack")
        | _ => Raise (ValueError "too many values to unpack")
        end
  end.

(** The body of the [for] loop of [_load_persistent_storage]: one call
    of [on_incoming_packets] in a [try] whose [except] catches
    everything. *)
Definition load_packet (candidate : Candidate) (w : World) (packet : string) : World :=
  let '(outcome, w) := Dispersy_on_incoming_packets [(candidate, packet)] false (time w) w in
  match outcome with
  | Ok _ => w
  | Raise _ => dprint "Error while loading from persistent-destroy-community.data" w
  end.

(** [TrackerDispersy._load_persistent_storage]; a file that cannot be
    opened is one that is not in [files]. *)
Definition _load_persistent_storage (w : World) : result unit * World :=
  match files w !! _persistent_storage_filename w with
  | None => (Ok tt, w)
  | Some content =>
      match read_packets (readlines content) with
      | Raise IOError => (Ok tt, w)
      | Raise e => (Raise e, w)
      | Ok packets =>
          let candidate := new_LoopbackCandidate in
          (Ok tt, fold_left (load_packet candidate) (rev packets) w)
      end
  end.

(** *** Introduction requests *)

(** [TrackerDispersy.check_introduction_request] *)
Definition check_one (item : checked) : checked :=
  match item with
  | Accepted message =>
      if isinstance_BootstrapCandidate (Message.candidate message)
      then DropMessage message "drop dispersy-introduction-request from bootstrap peer"
      else item
  | _ => item
  end.

Definition check_introduction_request (messages : list Message.Implementation) (w : World)
    : list checked :=
  check_one <$> Dispersy_check_introduction_request messages w.

(** The line that the tracker prints for one message; [ord] of the
    two version characters and the port are printed as integers. *)
Definition report_line (tag hex_cid : string) (message : Message.Implementation)
    : list string :=
  let '(host, port) := sock_addr (Message.candidate message) in
  [tag; hex_cid;
   encode_HEX (mid (Message.authentication_member message));
   str_int (Z.of_N (N_of_ascii (dispersy_version (Message.conversion message))));
   str_int (Z.of_N (N_of_ascii (community_version (Message.conversion message))));
   host; str_int port].

Definition print_reports (tag hex_cid : string) (messages : list Message.Implementation)
    (w : World) : World :=
  fold_left (fun w message => print (report_line tag hex_cid message) w) messages w.

(** [TrackerDispersy.on_introduction_request] *)
Definition on_introduction_request (messages : list Message.Implementation) (w : World)
    : result Value * World :=
  if negb (_silent w)
  then
    match messages with
    | [] => (Raise (IndexError "list index out of range"), w)
    | first :: _ =>
        let hex_cid := encode_HEX (Message.community_cid first) in
        let w := print_reports "REQ_IN2" hex_cid messages w in
        Dispersy_on_introduction_request messages w
    end
  else Dispersy_on_introduction_request messages w.

(** [TrackerDispersy.on_introduction_response] *)
Definition on_introduction_response (messages : list Message.Implementation) (w : World)
    : result Value * World :=
  if negb (_silent w)
  then
    match messages with
    | [] => (Raise (IndexError "list index out of range"), w)
    | first :: _ =>
        let hex_cid := encode_HEX (Message.community_cid first) in
        let w := print_reports "RES_IN2" hex_cid messages w in
        Dispersy_on_introduction_response messages w
    end
  else Dispersy_on_introduction_response messages w.

(** [TrackerHardKilledCommunity.dispersy_on_introduction_request] *)
Definition dispersy_on_introduction_request (self : Community)
    (messages : list Message.Implementation) (w : World) : result Value * World :=
  match messages with
  | [] => (Raise (IndexError "list index out of range"), w)
  | first :: _ =>
      let hex_cid := encode_HEX (Message.community_cid first) in
      let w := print_reports "DESTROY_OUT" hex_cid messages w in
      HardKilledCommunity_dispersy_on_introduction_request self messages w
  end.

(** *** Destroying a community *)

(** [messages.pop()]: the last item and the list without it *)
Definition pop {A : Type} (l : list A) : option (A * list A) :=
  match rev l with
  | [] => None
  | x :: r => Some (x, rev r)
  end.

(** the first row of
    [SELECT packet FROM sync WHERE meta_message = ? AND member = ?] *)
Definition select_identity (meta member : Z) (w : World) : option string :=
  distribution.sync_packet
    <$> head (filter (fun r => distribution.sync_meta_message r = meta
                               ∧ distribution.sync_member r = member) (_database w)).

(** The [while messages] loop of [dispersy_cleanup_community].  Each
    pass takes one unit of [fuel]; the loop gives the class it returns,
    if it came to its end, and the world it reached. *)
Fixpoint store_proofs (fuel : nat) (self : Community)
    (messages : list Message.Implementation) (stored : gset string) (w : World)
    : option CommunityClass * World :=
  match fuel with
  | O => (None, w)
  | S fuel =>
      match pop messages with
      | None => (Some TrackerHardKilledCommunity, w)
      | Some (message, messages) =>
          if bool_decide (Message.packet message ∈ stored)
          then store_proofs fuel self messages stored w
          else
            let stored := stored ∪ {[Message.packet message]} in
            let filename := _persistent_storage_filename w in
            let w := write filename
                       (join_space [Message.name message;
                                    encode_HEX (Message.packet message);
                                    String "010"%char EmptyString]) w in
            let w :=
              if bool_decide (public_key (Message.authentication_member message) ∈ stored)
              then w
              else
                match select_identity (identity_database_id self)
                        (member_database_id (Message.authentication_member message)) w with
                | None => w
                | Some packet =>
                    write filename
                      (join_space ["dispersy-identity"; encode_HEX packet;
                                   String "010"%char EmptyString]) w
                end in
            let '(_, proofs) := Timeline_check self message in
            store_proofs fuel self (messages ++ proofs) stored w
      end
  end.

(** [TrackerCommunity.dispersy_cleanup_community] *)
Definition dispersy_cleanup_community (fuel : nat) (self : Community)
    (message : Message.Implementation) (w : World) : option CommunityClass * World :=
  let w := print (report_line "DESTROY_IN" (encode_HEX (_cid self)) message) w in
  let w := write (_persistent_storage_filename w)
             ("# received dispersy-destroy-community from "
              +:+ Candidate_str (Message.candidate message)
              +:+ String "010"%char EmptyString) w in
  store_proofs fuel self [message] ∅ w.

(** *** Construction *)

Definition leaseweb : list string :=
  ["95.211.105.65"; "95.211.105.67"; "95.211.105.69"; "95.211.105.71";
   "95.211.105.73"; "95.211.105.75"; "95.211.105.77"; "95.211.105.79";
   "95.211.105.81"; "85.17.81.36"].

(** [TrackerDispersy.__init__].  [w] is the world as the constructor of
    the parent class left it and [my_member] the member made from the
    freshly generated key; [callback.register] appends to
    [registered]. *)
Definition __init__ (w : World) (working_directory : string) (silent : bool)
    (my_member : Member) : World :=
  {| _communities := _communities w;
     _candidates := _candidates w;
     _bootstrap_candidates := _bootstrap_candidates w;
     _batch_cache := _batch_cache w;
     _statistics_drop := _statistics_drop w;
     _database := _database w;
     _non_autoload := list_to_set (fst <$> _bootstrap_candidates w) ∪ list_to_set leaseweb;
     _my_member := my_member;
     _persistent_storage_filename := os_path_join working_directory "persistent-storage.data";
     _silent := silent;
     registered := registered w
                   ++ [_load_persistent_storage_task; _unload_communities_task]
                   ++ (if negb silent then [_report_statistics_task] else []);
     stdout := stdout w;
     files := files w;
     dprint_log := dprint_log w;
     base := base w |}.

End Operations.

End tracker.

(* --------------------------------------------------------------------- *)
(** ** Concrete instances                                                 *)
(* --------------------------------------------------------------------- *)

(** Small concrete worlds on which the properties below are run. *)
Module demo.

Import pystr.

(** *** distribution.py *)

Definition rows : list distribution.sync_row :=
  [ {| distribution.sync_community := 1; distribution.sync_member := 1;
       distribution.sync_global_time := 2; distribution.sync_meta_message := 7;
       distribution.sync_packet := "p1" |};
    {| distribution.sync_community := 1; distribution.sync_member := 2;
       distribution.sync_global_time := 3; distribution.sync_meta_message := 7;
       distribution.sync_packet := "p2" |};
    {| distribution.sync_community := 1; distribution.sync_member := 1;
       distribution.sync_global_time := 4; distribution.sync_meta_message := 7;
       distribution.sync_packet := "p3" |} ].

Definition community0 : distribution.Community :=
  {| distribution.global_time := 10;
     distribution.my_member_database_id := 1;
     distribution.meta_message_cache :=
       {[ "sequence-text" := {| distribution.cache_priority := 128;
                                distribution.cache_direction := 1 |} ]};
     distribution.database :=
       {| distribution.sync := rows;
          distribution.meta_message :=
            [ {| distribution.mm_id := 7; distribution.mm_priority := 128;
                 distribution.mm_direction := 1 |} ];
          distribution.changes := 0 |} |}.

Definition heap0 : gmap nat distribution.Community := {[ 0%nat := community0 ]}.

Definition sequence_text : distribution.Message :=
  {| distribution.name := "sequence-text"; distribution.community := 0%nat;
     distribution.database_id := 7 |}.

Definition sync_meta (pruning : distribution.Pruning) (community : option nat)
    : distribution.SyncDistribution.t :=
  {| distribution.SyncDistribution._synchronization_direction := distribution.ASC;
     distribution.SyncDistribution._priority := 128;
     distribution.SyncDistribution._current_sequence_number := 0;
     distribution.SyncDistribution._pruning := pruning;
     distribution.SyncDistribution._community := community |}.

Definition full_sync (enable : bool) : distribution.FullSyncDistribution.t :=
  {| distribution.FullSyncDistribution.base := sync_meta distribution.NoPruning None;
     distribution.FullSyncDistribution._enable_sequence_number := enable |}.

(** [full_sync true] after [setup]: two rows of member 1 are stored. *)
Definition full_sync_ready : distribution.FullSyncDistribution.t :=
  {| distribution.FullSyncDistribution.base :=
       distribution.SyncDistribution.set_current_sequence_number 2
         (distribution.SyncDistribution.set_community 0%nat
            (sync_meta distribution.NoPruning None));
     distribution.FullSyncDistribution._enable_sequence_number := true |}.

(** a message of global time 4 under [GlobalTimePruning(3, 8)] *)
Definition pruned_message : distribution.Pruning_Implementation.t :=
  distribution.pruning
    {| distribution.SyncDistribution.Implementation._meta :=
         sync_meta (distribution.GlobalTimePruning 3 8) (Some 0%nat);
       distribution.SyncDistribution.Implementation._global_time := 4 |}.

(** *** tool/tracker.py *)

Import tracker.

Definition types : Opaque :=
  {| Time := Z; Base := list string; Batch := list (Candidate * string); Value := unit |}.

#[local] Existing Instance types.

(** the byte string of the given byte values *)
Definition bytes (values : list N) : string :=
  foldr (fun n s => String (ascii_of_N n) s) EmptyString values.

Definition byte_ff : string := bytes [255%N].

(** The parent class of this instance records every packet it is handed
    in [base] and raises on the packet that is the single byte [ff]; it
    hands the packets it converts back as one batch; it accepts every
    introduction request.  A candidate is active when it is a walk
    candidate. *)
Definition externals : @Externals types :=
  {| time := fun _ => (0 : Z);
     Candidate_is_active := fun candidate _ _ =>
       match candidate_class candidate with WalkCandidate => true | _ => false end;
     Candidate_str := fun candidate => fst (sock_addr candidate);
     new_LoopbackCandidate :=
       {| candidate_class := LoopbackCandidate; sock_addr := ("localhost", 0) |};
     Timeline_check := fun _ _ => (true, []);
     Community_unload_community := fun community w =>
       set_communities (delete (_cid community) (_communities w)) w;
     Dispersy_on_incoming_packets := fun packets _ _ w =>
       let w := set_base (base w ++ (snd <$> packets)) w in
       (if bool_decide (byte_ff ∈ (snd <$> packets))
        then Raise (OtherError "unknown packet") else Ok tt, w);
     Dispersy__convert_packets_into_batch := fun packets w => ([packets], w);
     Dispersy_check_introduction_request := fun messages _ => Accepted <$> messages;
     Dispersy_on_introduction_request := fun _ w => (Ok tt, w);
     Dispersy_on_introduction_response := fun _ w => (Ok tt, w);
     HardKilledCommunity_dispersy_on_introduction_request := fun _ _ w => (Ok tt, w) |}.

Definition newline : string := String "010"%char EmptyString.

(** A storage file: a comment and three packets, the second one the byte
    [ff]. *)
Definition storage : string :=
  "# received dispersy-destroy-community from peer" +:+ newline
  +:+ "dispersy-destroy-community 0001 " +:+ newline
  +:+ "dispersy-identity ff " +:+ newline
  +:+ "dispersy-authorize 0203 " +:+ newline.

(** the packets of [storage], in the order of the file *)
Definition packets : list string := [bytes [0; 1]%N; byte_ff; bytes [2; 3]%N].

(** The same file with a second field that is not hexadecimal. *)
Definition broken_storage : string :=
  "dispersy-destroy-community 0001 " +:+ newline
  +:+ "dispersy-identity zz " +:+ newline.

Definition walker : Candidate :=
  {| candidate_class := WalkCandidate; sock_addr := ("10.0.0.1", 6421) |}.

Definition bootstrap : Candidate :=
  {| candidate_class := BootstrapCandidate; sock_addr := ("10.0.0.2", 6421) |}.

Definition killed : Community := new_community TrackerHardKilledCommunity "killed" 3.
Definition live : Community := new_community TrackerCommunity "live" 3.

Definition world (content : string) (silent : bool) : @World types :=
  {| _communities := {[ "killed" := killed; "live" := live ]};
     _candidates := [walker];
     _bootstrap_candidates := [("10.0.0.2", 6421)];
     _batch_cache := [];
     _statistics_drop := ∅;
     _database := [];
     _non_autoload := ∅;
     _my_member := {| mid := "m"; public_key := "k"; member_database_id := 1 |};
     _persistent_storage_filename := "./persistent-storage.data";
     _silent := silent;
     registered := [];
     stdout := [];
     files := {[ "./persistent-storage.data" := content ]};
     dprint_log := [];
     base := [] |}.

Definition request (candidate : Candidate) : Message.Implementation :=
  {| Message.name := "dispersy-introduction-request";
     Message.community_cid := "live";
     Message.candidate := candidate;
     Message.authentication_member :=
       {| mid := "AB"; public_key := "key"; member_database_id := 2 |};
     Message.conversion :=
       {| dispersy_version := ascii_of_N 0; community_version := ascii_of_N 1 |};
     Message.packet := "packet" |}.

(** Three live communities: [idle] and [cached] have two strikes,
    [fresh] has none. *)
Definition idle : Community := set_strikes 2 (new_community TrackerCommunity "idle" 3).
Definition cached : Community := set_strikes 2 (new_community TrackerCommunity "cached" 3).
Definition fresh : Community := new_community TrackerCommunity "fresh" 3.

(** A tracker that has loaded the three of them, with the given
    candidates and a batch cache of which the one key belongs to
    [cached]. *)
Definition strikes_world (candidates : list Candidate) : @World types :=
  {| _communities := {[ "idle" := idle; "cached" := cached; "fresh" := fresh ]};
     _candidates := candidates;
     _bootstrap_candidates := [("10.0.0.2", 6421)];
     _batch_cache := [{| meta_name := "dispersy-identity"; meta_community := "cached" |}];
     _statistics_drop := ∅;
     _database := [];
     _non_autoload := ∅;
     _my_member := {| mid := "m"; public_key := "k"; member_database_id := 1 |};
     _persistent_storage_filename := "./persistent-storage.data";
     _silent := true;
     registered := [];
     stdout := [];
     files := ∅;
     dprint_log := [];
     base := [] |}.

End demo.

(* --------------------------------------------------------------------- *)
(** ** More exceptions                                                    *)
(* --------------------------------------------------------------------- *)

(** What the code embedded below raises: the exceptions of [exn], and the
    exceptions of the package and of the module [struct]. *)
Inductive raised : Type :=
| Builtin (e : exn)
| KeyError (key : string)
| StructError (msg : string)
| DropPacket (reason : string)
| StopIteration.

Inductive outcome (A : Type) : Type :=
| Return (a : A)
| Throw (e : raised).
Arguments Return {A} a.
Arguments Throw {A} e.

#[global] Instance outcome_ret : MRet outcome := fun A a => Return a.
#[global] Instance outcome_bind : MBind outcome := fun A B f m =>
  match m with
  | Return a => f a
  | Throw e => Throw e
  end.

(* --------------------------------------------------------------------- *)
(** ** The [struct] formats used by the conversions                       *)
(* --------------------------------------------------------------------- *)

(** Offsets and lengths are positions in a byte string: they are natural
    numbers. *)
Module pystruct.

(** [pack("!B", n)] *)
Definition pack_B (n : nat) : outcome string :=
  if bool_decide (n <= 255)%nat
  then Return (String (ascii_of_nat n) EmptyString)
  else Throw (StructError "ubyte format requires 0 <= number <= 255").

(** [unpack_from("!B", data, offset)] *)
Definition unpack_from_B (data : string) (offset : nat) : outcome nat :=
  match String.get offset data with
  | Some c => Return (nat_of_ascii c)
  | None => Throw (StructError "unpack_from requires a buffer of at least 1 bytes")
  end.

(** the byte of a signed integer in two's complement, and back *)
Definition byte_of_signed (z : Z) : ascii := ascii_of_N (Z.to_N (z mod 256)).

Definition signed_of_byte (c : ascii) : Z :=
  let n := Z.of_N (N_of_ascii c) in
  if bool_decide (n < 128) then n else n - 256.

(** [pack("!bb", a, b)] *)
Definition pack_bb (a b : Z) : outcome string :=
  if bool_decide (-128 <= a <= 127) && bool_decide (-128 <= b <= 127)
  then Return (String (byte_of_signed a) (String (byte_of_signed b) EmptyString))
  else Throw (StructError "byte format requires -128 <= number <= 127").

(** [unpack_from("!bb", data, offset)] *)
Definition unpack_from_bb (data : string) (offset : nat) : outcome (Z * Z) :=
  match String.get offset data, String.get (S offset) data with
  | Some a, Some b => Return (signed_of_byte a, signed_of_byte b)
  | _, _ => Throw (StructError "unpack_from requires a buffer of at least 2 bytes")
  end.

(** the four bytes of an unsigned 32-bit integer, most significant first *)
Definition be32 (n : N) : string :=
  String (ascii_of_N (n / 16777216 mod 256))
    (String (ascii_of_N (n / 65536 mod 256))
       (String (ascii_of_N (n / 256 mod 256))
          (String (ascii_of_N (n mod 256)) EmptyString)))%N.

Definition of_be32 (a b c d : ascii) : N :=
  (N_of_ascii a * 16777216 + N_of_ascii b * 65536 + N_of_ascii c * 256 + N_of_ascii d)%N.

(** [pack("!LL", a, b)] *)
Definition pack_LL (a b : N) : outcome string :=
  if bool_decide (a < 4294967296)%N && bool_decide (b < 4294967296)%N
  then Return (be32 a +:+ be32 b)
  else Throw (StructError "integer out of range for 'L' format code").

(** [unpack_from("!LL", data, offset)] *)
Definition unpack_from_LL (data : string) (offset : nat) : outcome (N * N) :=
  match String.get offset data, String.get (1 + offset) data,
        String.get (2 + offset) data, String.get (3 + offset) data,
        String.get (4 + offset) data, String.get (5 + offset) data,
        String.get (6 + offset) data, String.get (7 + offset) data with
  | Some a, Some b, Some c, Some d, Some e, Some f, Some g, Some h =>
      Return (of_be32 a b c d, of_be32 e f g h)
  | _, _, _, _, _, _, _, _ =>
      Throw (StructError "unpack_from requires a buffer of at least 8 bytes")
  end.

End pystruct.

(* --------------------------------------------------------------------- *)
(** ** debugcommunity.py: the conversion and the database helpers         *)
(* --------------------------------------------------------------------- *)

Module debug_conversion.

Import pystruct.

Module TextPayload.
(** [TextPayload.Implementation] *)
Record Implementation : Type := { _text : string }.
Definition text (self : Implementation) : string := _text self.
End TextPayload.

(** [DebugCommunityConversion._encode_text]: the tuple of strings that the
    caller joins; [text] is [message.payload.text]. *)
Definition _encode_text (text : string) : outcome (list string) :=
  n ← pack_B (String.length text);
  mret [n; text].

(** the strings of the tuple, joined *)
Definition joined (parts : list string) : string :=
  foldr String.append EmptyString parts.

(** [DebugCommunityConversion._decode_text]; [placeholder.meta.payload.implement]
    builds the [TextPayload.Implementation]. *)
Definition _decode_text (offset : nat) (data : string)
    : outcome (nat * TextPayload.Implementation) :=
  if bool_decide (String.length data < offset + 1)%nat
  then Throw (DropPacket "Insufficient packet size")
  else
    text_length ← unpack_from_B data offset;
    let offset := (offset + 1)%nat in
    if bool_decide (String.length data < offset + text_length)%nat
    then Throw (DropPacket "Insufficient packet size")
    else
      let text := substring offset text_length data in
      let offset := (offset + text_length)%nat in
      mret (offset, {| TextPayload._text := text |}).

(** [DebugCommunity.allow_double_signed_text], without its [dprint] *)
Definition allow_double_signed_text (text : string) : result bool :=
  _ ← assert_ (bool_decide (text = "Allow=True") || bool_decide (text = "Allow=False")) None;
  mret (bool_decide (text = "Allow=True")).

(** The [sync] table and the meta messages of the community, by name, with
    their database id. *)
Record State : Type := {
  sync : list distribution.sync_row;
  meta_messages : gmap string Z;
  changes : nat
}.

(** [self.get_meta_message(name).database_id] *)
Definition database_id (st : State) (name : string) : outcome Z :=
  match meta_messages st !! name with
  | Some id => Return id
  | None => Throw (KeyError name)
  end.

(** the list comprehension over [message_names] *)
Fixpoint database_ids (st : State) (names : list string) : outcome (list Z) :=
  match names with
  | [] => Return []
  | name :: names =>
      id ← database_id st name;
      ids ← database_ids st names;
      mret (id :: ids)
  end.

(** [ORDER BY global_time, packet]: packets are compared byte by byte *)
Definition row_le (r1 r2 : distribution.sync_row) : Prop :=
  distribution.sync_global_time r1 < distribution.sync_global_time r2
  ∨ (distribution.sync_global_time r1 = distribution.sync_global_time r2
     ∧ String.leb (distribution.sync_packet r1) (distribution.sync_packet r2) = true).

#[global] Instance row_le_dec : RelDecision row_le.
Proof. intros r1 r2. unfold row_le. apply _. Defined.

(** [WHERE meta_message IN (...)] *)
Definition selected (ids : list Z) (r : distribution.sync_row) : Prop :=
  distribution.sync_meta_message r ∈ ids.

#[global] Instance selected_dec (ids : list Z) (r : distribution.sync_row) :
  Decision (selected ids r).
Proof. unfold selected. apply _. Defined.

(** [DebugCommunity.fetch_packets] *)
Definition fetch_packets (st : State) (message_names : list string) : outcome (list string) :=
  ids ← database_ids st message_names;
  mret (distribution.sync_packet <$> merge_sort row_le (filter (selected ids) (sync st))).

(** [DebugCommunity.delete_messages]: the number of rows removed and the
    state afterwards. *)
Definition delete_messages (st : State) (message_names : list string)
    : outcome (nat * State) :=
  ids ← database_ids st message_names;
  let removed := length (filter (selected ids) (sync st)) in
  mret (removed,
        {| sync := filter (fun r => ¬ selected ids r) (sync st);
           meta_messages := meta_messages st;
           changes := removed |}).

End debug_conversion.

(* --------------------------------------------------------------------- *)
(** ** doc/tutorial-part2.py: the chat community                          *)
(* --------------------------------------------------------------------- *)

Module tutorial.

Import pystruct.

(** Unicode strings and their UTF-8 codec belong to Python: [utf8_decode]
    gives [None] where [decode("UTF-8")] raises [UnicodeError]. *)
Class Unicode : Type := {
  unicode : Type;
  utf8_encode : unicode -> string;
  utf8_decode : string -> option unicode
}.

Module TextPayload.
(** [TextPayload.Implementation] *)
Record Implementation `{Unicode} : Type := { nickname : unicode; text : unicode }.
End TextPayload.

Module BegPermissionPayload.
(** [BegPermissionPayload.Implementation] *)
Record Implementation : Type := { voice : Z; operator : Z }.
End BegPermissionPayload.

(** [ChatConversion._encode_text] *)
Definition _encode_text `{Unicode} (payload : TextPayload.Implementation)
    : outcome (list string) :=
  let nickname := utf8_encode (TextPayload.nickname payload) in
  let text := utf8_encode (TextPayload.text payload) in
  header ← pack_LL (N.of_nat (String.length nickname)) (N.of_nat (String.length text));
  mret [header; nickname; text].

(** [ChatConversion._decode_text] *)
Definition _decode_text `{Unicode} (offset : nat) (data : string)
    : outcome (nat * TextPayload.Implementation) :=
  if bool_decide (String.length data < offset + 8)%nat
  then Throw (DropPacket "Insufficient packet size")
  else
    '(nickname_length, text_length) ← unpack_from_LL data offset;
    let offset := (offset + 8)%nat in
    match utf8_decode (substring offset (N.to_nat nickname_length) data) with
    | None => Throw (DropPacket "Unable to decode UTF-8")
    | Some nickname =>
        let offset := (offset + N.to_nat nickname_length)%nat in
        match utf8_decode (substring offset (N.to_nat text_length) data) with
        | None => Throw (DropPacket "Unable to decode UTF-8")
        | Some text =>
            let offset := (offset + N.to_nat text_length)%nat in
            mret (offset, {| TextPayload.nickname := nickname; TextPayload.text := text |})
        end
    end.

(** [ChatConversion._encode_beg_permission] *)
Definition _encode_beg_permission (payload : BegPermissionPayload.Implementation)
    : outcome (list string) :=
  s ← pack_bb (BegPermissionPayload.voice payload) (BegPermissionPayload.operator payload);
  mret [s].

(** [ChatConversion._decode_beg_permission] *)
Definition _decode_beg_permission (offset : nat) (data : string)
    : outcome (nat * BegPermissionPayload.Implementation) :=
  if bool_decide (String.length data < offset + 2)%nat
  then Throw (DropPacket "Insufficient packet size")
  else
    '(voice, operator) ← unpack_from_bb data offset;
    let offset := (offset + 2)%nat in
    mret (offset, {| BegPermissionPayload.voice := voice;
                     BegPermissionPayload.operator := operator |}).

(** What a check handler of the chat community yields for one message. *)
Inductive yielded (M : Type) : Type :=
| Yield (message : M)
| DropMessage (reason : string).
Arguments Yield {M} message.
Arguments DropMessage {M} reason.

(** The truth value of a tuple of two items: a tuple is false only when it
    is empty. *)
Definition tuple_truth {A B : Type} (t : A * B) : bool := true.

(** [x and y] *)
Definition py_and {T : Type} (truth : T -> bool) (x y : T) : T :=
  if truth x then y else x.

(** [ChatCommunity.check_beg_permission]; [timeline_allowed permission] is
    [self.timeline.allowed(meta, permission=permission)], the pair of a
    verdict and its proofs that [create_text] unpacks. *)
Definition check_beg_permission {M P : Type} (timeline_allowed : string -> bool * list P)
    (messages : list M) : list (yielded M) :=
  let allowed :=
    py_and tuple_truth (timeline_allowed "authorize") (timeline_allowed "revoke") in
  (fun message =>
     if tuple_truth allowed then Yield message
     else DropMessage "Unable to grant or revoke permissions") <$> messages.

End tutorial.

(* --------------------------------------------------------------------- *)
(** ** The lines of the persistent storage                                *)
(* --------------------------------------------------------------------- *)

(** What [dispersy_cleanup_community] writes, line by line, and the
    conditions under which [_load_persistent_storage] reads it back. *)
Module storage_format.

Import pystr.

Fixpoint all_chars (P : ascii -> bool) (s : string) : bool :=
  match s with
  | EmptyString => true
  | String c s => P c && all_chars P s
  end.

(** not empty and free of white space: one field of [split] *)
Definition is_word (s : string) : bool :=
  negb (String.eqb s EmptyString) && all_chars (fun c => negb (isspace c)) s.

(** a message name that can stand first on a line *)
Definition is_name (s : string) : bool := is_word s && negb (startswith "#" s).

Definition no_newline (s : string) : bool :=
  all_chars (fun c => negb (Ascii.eqb c "010"%char)) s.

Definition newline : string := String "010"%char EmptyString.

(** [" ".join((name, packet.encode("HEX"), "\n"))] *)
Definition record_line (name packet : string) : string :=
  join_space [name; encode_HEX packet; newline].

(** ["# received dispersy-destroy-community from %s\n" % (text,)] *)
Definition comment_line (text : string) : string :=
  "# received dispersy-destroy-community from " +:+ text +:+ newline.

(** a line of the file: no newline but the one that ends it *)
Definition is_line (line : string) : Prop :=
  ∃ body, line = body +:+ newline ∧ no_newline body = true.

(** the content of a file made of the given lines *)
Definition content_of (lines : list string) : string :=
  foldr String.append EmptyString lines.

(** An entry of the file: the text of a comment line, or the name and the
    packet of a message. *)
Definition entry : Type := string + string * string.

Definition line_of (e : entry) : string :=
  match e with
  | inl text => comment_line text
  | inr (name, packet) => record_line name packet
  end.

Definition well_formed (e : entry) : Prop :=
  match e with
  | inl text => no_newline text = true
  | inr (name, packet) => is_name name = true ∧ packet ≠ EmptyString
  end.

Definition packets_of (entries : list entry) : list string :=
  omap (fun e => match e with inl _ => None | inr (_, packet) => Some packet end) entries.

End storage_format.

(* --------------------------------------------------------------------- *)
(** ** tool/tracker.py: the rest of [TrackerCommunity] and the reporter   *)
(* --------------------------------------------------------------------- *)

Module tracker_community.

Import pystr tracker.

#[global] Instance CandidateClass_eq_dec : EqDecision CandidateClass.
Proof. solve_decision. Defined.

#[global] Instance Candidate_eq_dec : EqDecision Candidate.
Proof. solve_decision. Defined.

#[global] Instance CommunityClass_eq_dec : EqDecision CommunityClass.
Proof. solve_decision. Defined.

(** *** [_initialize_meta_messages] *)

(** the names of the messages that a tracker keeps *)
Definition kept_names : list string :=
  ["dispersy-introduction-request"; "dispersy-introduction-response";
   "dispersy-puncture-request"; "dispersy-puncture"; "dispersy-identity";
   "dispersy-missing-identity"; "dispersy-authorize"; "dispersy-revoke";
   "dispersy-missing-proof"; "dispersy-destroy-community"].

(** The [for name in [...]] loop: it copies the named entries of [source]
    into [target] and stops at the first name that [source] does not
    have. *)
Fixpoint copy_meta_messages {V : Type} (source : gmap string V) (names : list string)
    (target : gmap string V) : outcome unit * gmap string V :=
  match names with
  | [] => (Return tt, target)
  | name :: names =>
      match source !! name with
      | Some meta => copy_meta_messages source names (<[name := meta]> target)
      | None => (Throw (KeyError name), target)
      end
  end.

(** [TrackerCommunity._initialize_meta_messages], after the call of the
    parent, which left [meta_messages] in [self._meta_messages]: the
    outcome and the new [self._meta_messages]. *)
Definition _initialize_meta_messages {V : Type} (meta_messages : gmap string V)
    : outcome unit * gmap string V :=
  copy_meta_messages meta_messages kept_names ∅.

(** *** [get_conversion] *)

(** [TrackerCommunity.get_conversion].  [conversions] is
    [self._conversions], whose keys are prefixes and [None];
    [new_conversion c] is [BinaryTrackerConversion(self, c)] and
    [version_lt a b] is [a.version < b.version]. *)
Definition get_conversion {C : Type} (new_conversion : ascii -> C)
    (version_lt : C -> C -> bool) (prefix : option string)
    (conversions : gmap (option string) C) : outcome C * gmap (option string) C :=
  match conversions !! prefix with
  | Some conversion => (Return conversion, conversions)
  | None =>
      match prefix with
      | None =>
          (Throw (Builtin (TypeError "'NoneType' object has no attribute '__getitem__'")),
           conversions)
      | Some p =>
          match String.get 0 p with
          | None => (Throw (Builtin (IndexError "string index out of range")), conversions)
          | Some first =>
              if Ascii.eqb first "000"%char
              then
                match String.get 1 p with
                | None =>
                    (Throw (Builtin (IndexError "string index out of range")), conversions)
                | Some second =>
                    let created := new_conversion second in
                    let conversions := <[Some p := created]> conversions in
                    let conversions :=
                      match conversions !! None with
                      | Some default_ =>
                          if version_lt default_ created
                          then <[None := created]> conversions
                          else conversions
                      | None => <[None := created]> conversions
                      end in
                    (Return created, conversions)
                end
              else (Throw (KeyError "Unknown conversion"), conversions)
          end
      end
  end.

(** *** [dispersy_yield_introduce_candidates] *)

(** The [while True] loop of the generator on the items that
    [self._walked_stumbled_candidates.next()] returns one after the other:
    what the generator yields for them. *)
Fixpoint introduce_candidates (candidate prev_result : option Candidate)
    (results : list (option Candidate)) : list (option Candidate) :=
  match results with
  | [] => []
  | result :: results =>
      if bool_decide (prev_result = result)
      then None :: introduce_candidates candidate prev_result results
      else if bool_decide (result = candidate)
           then introduce_candidates candidate result results
           else result :: introduce_candidates candidate result results
  end.

(** [TrackerCommunity.dispersy_yield_introduce_candidates]; [own] are the
    keys of [self._candidates] and [bootstrap] those of
    [self._dispersy._bootstrap_candidates]. *)
Definition dispersy_yield_introduce_candidates (own bootstrap : list (string * Z))
    (candidate : option Candidate) (results : list (option Candidate))
    : result (list (option Candidate)) :=
  _ ← assert_ (forallb (fun sock_address => negb (bool_decide (sock_address ∈ own))) bootstrap)
        (Some (VAtom (AStr "none of the bootstrap candidates may be in self._candidates")));
  mret (introduce_candidates candidate None results).

(** *** [TrackerDispersy._report_statistics] *)

(** The counters that the reporter reads from the endpoint and from the
    statistics. *)
Class Counters `{Opaque} : Type := {
  endpoint_total_up : World -> Z;
  endpoint_total_down : World -> Z;
  statistics_outgoing : World -> list (string * Z)
}.

(** [mapping[cls]] after the loop over [self._communities.itervalues()] *)
Definition count_class `{Opaque} (cls : CommunityClass) (w : World) : nat :=
  length (filter (fun entry => community_class (snd entry) = cls)
            (map_to_list (_communities w))).

(** One pass of the [while True] loop of [_report_statistics], after the
    task woke up. *)
Definition _report_statistics_pass `{Counters} (w : World) : World :=
  let up := endpoint_total_up w in
  let down := endpoint_total_down w in
  let outgoing := statistics_outgoing w in
  let w := print ["BANDWIDTH"; str_int up; str_int down] w in
  let w := print ["COMMUNITY"; str_int (Z.of_nat (count_class TrackerCommunity w));
                  str_int (Z.of_nat (count_class TrackerHardKilledCommunity w))] w in
  let w := print ["CANDIDATE"; str_int (Z.of_nat (length (_candidates w)))] w in
  fold_left (fun w item => print ["OUTGOING"; fst item; str_int (snd item)] w) outgoing w.

End tracker_community.

(* --------------------------------------------------------------------- *)
(** ** More concrete instances                                            *)
(* --------------------------------------------------------------------- *)

Module examples.

Import pystr.

(** Text restricted to ASCII, on which UTF-8 is the identity; a byte
    above 127 alone is not UTF-8. *)
Definition ascii_text : tutorial.Unicode :=
  {| tutorial.unicode := string;
     tutorial.utf8_encode := fun text => text;
     tutorial.utf8_decode := fun data =>
       if storage_format.all_chars (fun c => (N_of_ascii c <? 128)%N) data
       then Some data else None |}.

Definition chat : @tutorial.TextPayload.Implementation ascii_text :=
  {| tutorial.TextPayload.nickname := "alice" : @tutorial.unicode ascii_text;
     tutorial.TextPayload.text := "hello world" |}.

(** the entries of [demo.storage] *)
Definition entries : list storage_format.entry :=
  [ inl "peer";
    inr ("dispersy-destroy-community", demo.bytes [0; 1]%N);
    inr ("dispersy-identity", demo.byte_ff);
    inr ("dispersy-authorize", demo.bytes [2; 3]%N) ].

(** conversions that are known by their community version only *)
Definition version_lt (a b : ascii) : bool := (N_of_ascii a <? N_of_ascii b)%N.

Definition conversions : gmap (option string) ascii :=
  {[ None := "001"%char; Some "old" := "001"%char ]}.

(** the prefix of a packet of dispersy version 0 and community version 2 *)
Definition prefix : string := String "000"%char (String "002"%char "cid").

(** [demo.community0] seven ticks later *)
Definition community7 : distribution.Community :=
  {| distribution.global_time := 17;
     distribution.my_member_database_id := 1;
     distribution.meta_message_cache := distribution.meta_message_cache demo.community0;
     distribution.database := distribution.database demo.community0 |}.

(** a community whose cache holds another priority than the policy *)
Definition stale_community : distribution.Community :=
  {| distribution.global_time := 10;
     distribution.my_member_database_id := 1;
     distribution.meta_message_cache :=
       {[ "sequence-text" := {| distribution.cache_priority := 64;
                                distribution.cache_direction := 1 |} ]};
     distribution.database := distribution.database demo.community0 |}.

End examples.

(* ===================================================================== *)
(** * Part II: properties                                                 *)
(* ===================================================================== *)

Section distribution_properties.
Import distribution.
Import Pruning_Implementation.

Lemma age_eq (p : Pruning_Implementation.t) (heap : Heap) (c : Community) :
  SyncDistribution.Implementation.community (_distribution p) heap = Ok c ->
  age p heap
  = Ok (global_time c - SyncDistribution.Implementation._global_time (_distribution p)).
Proof. intros Hc. unfold age. rewrite Hc. reflexivity. Qed.

(** C2.  Under [GlobalTimePruning(inactive, pruned)] with
    [0 < inactive < pruned], with [d] the global time of the community
    minus that of the message: [is_active] holds iff [d < inactive],
    [is_inactive] iff [inactive <= d < pruned], [is_pruned] iff
    [d >= pruned]; exactly one of the three holds, and [get_state]
    returns the one name among "active", "inactive", "pruned" that goes
    with it. *)
Theorem C2_pruning_state_trichotomy
    (p : Pruning_Implementation.t) (heap : Heap) (c : Community) (inactive pruned : Z) :
  0 < inactive < pruned ->
  _meta p = GlobalTimePruning inactive pruned ->
  SyncDistribution.Implementation.community (_distribution p) heap = Ok c ->
  let d := global_time c - SyncDistribution.Implementation._global_time (_distribution p) in
  is_active p heap = Ok (bool_decide (d < inactive))
  ∧ is_inactive p heap = Ok (bool_decide (inactive <= d < pruned))
  ∧ is_pruned p heap = Ok (bool_decide (d >= pruned))
  ∧ ((d < inactive ∧ ¬ (inactive <= d < pruned) ∧ ¬ (d >= pruned))
     ∨ (¬ (d < inactive) ∧ inactive <= d < pruned ∧ ¬ (d >= pruned))
     ∨ (¬ (d < inactive) ∧ ¬ (inactive <= d < pruned) ∧ d >= pruned))
  ∧ get_state p heap
    = Ok (if bool_decide (d < inactive) then "active"
          else if bool_decide (inactive <= d < pruned) then "inactive"
          else "pruned").
Proof.
  intros Hth Hmeta Hc d.
  pose proof (age_eq p heap c Hc) as Hage. fold d in Hage.
  assert (Ha : is_active p heap = Ok (bool_decide (d < inactive))).
  { unfold is_active. rewrite Hmeta, Hage. reflexivity. }
  assert (Hi : is_inactive p heap = Ok (bool_decide (inactive <= d < pruned))).
  { unfold is_inactive. rewrite Hmeta, Hage. cbn.
    repeat case_bool_decide; try reflexivity; lia. }
  assert (Hp : is_pruned p heap = Ok (bool_decide (d >= pruned))).
  { unfold is_pruned. rewrite Hmeta, Hage. cbn.
    repeat case_bool_decide; try reflexivity; lia. }
  split_and!; try assumption.
  - lia.
  - unfold get_state. rewrite Ha. cbn.
    destruct (bool_decide_reflect (d < inactive)) as [Hlt|Hlt]; [reflexivity|].
    rewrite Hi. cbn.
    destruct (bool_decide_reflect (inactive <= d < pruned)) as [Hin|Hin]; [reflexivity|].
    rewrite Hp. cbn.
    rewrite bool_decide_eq_true_2 by lia. reflexivity.
Qed.


Lemma SyncDistribution_setup_keeps (message : Message) (b b' : SyncDistribution.t)
    (heap heap' : Heap) (c : Community) :
  heap !! community message = Some c ->
  SyncDistribution.setup message b heap = Ok (b', heap') ->
  SyncDistribution._current_sequence_number b' = SyncDistribution._current_sequence_number b
  ∧ ∃ c', heap' !! community message = Some c'
          ∧ sync (database c') = sync (database c)
          ∧ my_member_database_id c' = my_member_database_id c.
Proof.
  intros Hc. unfold SyncDistribution.setup. rewrite Hc.
  destruct (meta_message_cache c !! name message) as [cache|]; [|discriminate].
  match goal with |- context [if ?b then _ else _] => destruct b end.
  - intros [= <- <-]. split; [reflexivity|]. exists c. auto.
  - unfold assert_. cbn.
    match goal with |- context [if ?b then _ else _] => destruct b end; [|discriminate].
    cbn. intros [= <- <-]. split; [reflexivity|].
    eexists. rewrite lookup_insert_eq. split; [reflexivity|]. split; reflexivity.
Qed.

Lemma claim_sequence_numbers_from (n : nat) :
  forall self : FullSyncDistribution.t,
    FullSyncDistribution._enable_sequence_number self = true ->
    ∃ self',
      claim_sequence_numbers n self
      = Ok ((fun i => FullSyncDistribution._current_sequence_number self + Z.of_nat i)
              <$> seq 1 n, self')
      ∧ FullSyncDistribution._current_sequence_number self'
        = FullSyncDistribution._current_sequence_number self + Z.of_nat n
      ∧ FullSyncDistribution._enable_sequence_number self' = true.
Proof.
  induction n as [|n IH]; intros self Hen.
  - exists self. cbn. split; [reflexivity|]. split; [lia|assumption].
  - cbn [claim_sequence_numbers]. unfold FullSyncDistribution.claim_sequence_number.
    rewrite Hen. cbn [assert_ mbind result_bind mret result_ret].
    set (self1 := FullSyncDistribution.Build_t _ _).
    destruct (IH self1 eq_refl) as (self' & Hrun & Hcur & Hen').
    rewrite Hrun. cbn [mbind result_bind mret result_ret].
    exists self'. split; [|split; [|assumption]].
    + assert (Hl : (fun i => FullSyncDistribution._current_sequence_number self + Z.of_nat i)
                     <$> seq 1 (S n)
                   = (FullSyncDistribution._current_sequence_number self + 1)
                       :: ((fun i => FullSyncDistribution._current_sequence_number self1
                                     + Z.of_nat i) <$> seq 1 n)).
      { change (seq 1 (S n)) with (1%nat :: seq 2 n).
        rewrite fmap_cons. f_equal.
        rewrite <- (fmap_S_seq 1), <- list_fmap_compose.
        apply list_fmap_ext. intros _ i _. cbn. subst self1.
        unfold FullSyncDistribution._current_sequence_number. cbn. lia. }
      rewrite Hl. reflexivity.
    + rewrite Hcur. subst self1.
      unfold FullSyncDistribution._current_sequence_number. cbn. lia.
Qed.

(** C3.  For a [FullSyncDistribution] with sequence numbers enabled,
    [setup] sets the current sequence number to the number of rows
    stored for (my member, meta); each [claim_sequence_number] adds one
    and returns it, so the [n] calls after [setup] return
    [count + 1, ..., count + n], and from an empty store they return
    [1, 2, ..., n]. *)
Theorem C3_sequence_numbers_dense
    (message : Message) (self self' : FullSyncDistribution.t) (heap heap' : Heap)
    (c : Community) :
  FullSyncDistribution._enable_sequence_number self = true ->
  heap !! community message = Some c ->
  FullSyncDistribution.setup message self heap = Ok (self', heap') ->
  let count := count_sync (my_member_database_id c) (database_id message) (database c) in
  FullSyncDistribution._current_sequence_number self' = count
  ∧ FullSyncDistribution.claim_sequence_number self'
    = Ok (count + 1,
          {| FullSyncDistribution.base :=
               SyncDistribution.set_current_sequence_number (count + 1)
                 (FullSyncDistribution.base self');
             FullSyncDistribution._enable_sequence_number := true |})
  ∧ (forall n : nat, ∃ self'',
       claim_sequence_numbers n self' = Ok ((fun i => count + Z.of_nat i) <$> seq 1 n, self'')
       ∧ FullSyncDistribution._current_sequence_number self'' = count + Z.of_nat n)
  ∧ (sync (database c) = [] ->
     forall n : nat, ∃ self'',
       claim_sequence_numbers n self' = Ok (Z.of_nat <$> seq 1 n, self'')).
Proof.
  intros Hen Hc Hsetup count.
  unfold FullSyncDistribution.setup in Hsetup.
  destruct (SyncDistribution.setup message (FullSyncDistribution.base self) heap)
    as [[b heap1]|e] eqn:Hbase; [|discriminate].
  cbn [mbind result_bind] in Hsetup. rewrite Hen in Hsetup.
  destruct (SyncDistribution_setup_keeps _ _ _ _ _ _ Hc Hbase) as (_ & c' & Hc' & Hsync & Hmy).
  rewrite Hc' in Hsetup. cbn in Hsetup. injection Hsetup as <- <-.
  assert (Hcount : count_sync (my_member_database_id c') (database_id message) (database c')
                   = count).
  { unfold count, count_sync. rewrite Hsync, Hmy. reflexivity. }
  set (self' := FullSyncDistribution.Build_t _ _).
  assert (Hcur : FullSyncDistribution._current_sequence_number self' = count).
  { subst self'. unfold FullSyncDistribution._current_sequence_number. cbn. exact Hcount. }
  assert (Hen' : FullSyncDistribution._enable_sequence_number self' = true).
  { reflexivity. }
  assert (Hmany : forall n : nat, ∃ self'',
       claim_sequence_numbers n self' = Ok ((fun i => count + Z.of_nat i) <$> seq 1 n, self'')
       ∧ FullSyncDistribution._current_sequence_number self'' = count + Z.of_nat n).
  { intros n. destruct (claim_sequence_numbers_from n self' Hen') as (s & Hrun & Hs & _).
    exists s. rewrite Hcur in Hrun, Hs. auto. }
  split_and!.
  - exact Hcur.
  - unfold FullSyncDistribution.claim_sequence_number.
    rewrite Hen', Hcur. reflexivity.
  - exact Hmany.
  - intros Hempty n. destruct (Hmany n) as (s & Hrun & _). exists s.
    rewrite Hrun. f_equal. f_equal. apply list_fmap_ext. intros _ i _.
    unfold count, count_sync. rewrite Hempty. cbn. lia.
Qed.

(** C5.  Building a [FullSyncDistribution.Implementation] fails on the
    sequence number exactly when the number breaks the constraint of the
    meta: with sequence numbers disabled and a positive number, and with
    them enabled and the number 0, it fails; with them enabled and a
    positive number, or disabled and the number 0, and a positive global
    time, it succeeds and carries the number supplied.  The failure is
    the assertion of the constructor, which the specification names
    PolicyMismatch. *)
Theorem C5_implementation_sequence_constraint
    (meta : FullSyncDistribution.t) (global_time sequence_number : Z) :
  let enable := FullSyncDistribution._enable_sequence_number meta in
  let fits := (enable = true ∧ sequence_number > 0) ∨ (enable = false ∧ sequence_number = 0) in
  let mismatch := AssertionError (Some (VTuple [ABool enable; AInt sequence_number])) in
  (FullSyncDistribution.Implementation.__init__ meta global_time sequence_number
   = Raise mismatch <-> ¬ fits)
  ∧ (enable = false -> sequence_number > 0 ->
     FullSyncDistribution.Implementation.__init__ meta global_time sequence_number
     = Raise mismatch)
  ∧ (enable = true -> sequence_number = 0 ->
     FullSyncDistribution.Implementation.__init__ meta global_time sequence_number
     = Raise mismatch)
  ∧ (fits -> global_time > 0 ->
     ∃ impl,
       FullSyncDistribution.Implementation.__init__ meta global_time sequence_number = Ok impl
       ∧ FullSyncDistribution.Implementation.sequence_number impl = sequence_number
       ∧ FullSyncDistribution.Implementation.global_time impl = global_time
       ∧ FullSyncDistribution.Implementation._meta impl = meta).
Proof.
  intros enable fits mismatch.
  assert (Hfail : ¬ fits ->
    FullSyncDistribution.Implementation.__init__ meta global_time sequence_number
    = Raise mismatch).
  { intros Hn. unfold FullSyncDistribution.Implementation.__init__.
    fold enable. unfold fits in Hn.
    destruct enable; cbn; repeat case_bool_decide; cbn; try reflexivity;
      exfalso; apply Hn; auto. }
  assert (Hok : fits -> global_time > 0 ->
    FullSyncDistribution.Implementation.__init__ meta global_time sequence_number
    = Ok {| FullSyncDistribution.Implementation.sync_part :=
              {| SyncDistribution.Implementation._meta := FullSyncDistribution.base meta;
                 SyncDistribution.Implementation._global_time := global_time |};
            FullSyncDistribution.Implementation._meta := meta;
            FullSyncDistribution.Implementation._sequence_number := sequence_number |}).
  { intros Hf Hg. unfold FullSyncDistribution.Implementation.__init__,
      SyncDistribution.Implementation.__init__.
    fold enable. unfold fits in Hf.
    destruct Hf as [[-> Hs]|[-> Hs]]; cbn;
      repeat case_bool_decide; cbn; try reflexivity; lia. }
  split_and!.
  - split.
    + intros Hr Hf.
      unfold FullSyncDistribution.Implementation.__init__ in Hr. fold enable in Hr.
      unfold fits in Hf.
      destruct Hf as [[He Hs]|[He Hs]]; rewrite He in Hr; cbn in Hr;
        rewrite bool_decide_eq_true_2 in Hr by assumption; cbn in Hr;
        unfold SyncDistribution.Implementation.__init__ in Hr;
        destruct (bool_decide (global_time > 0)); cbn in Hr; discriminate.
    + exact Hfail.
  - intros He Hs. apply Hfail. unfold fits. intros [[He' _]|[_ Hs']]; [congruence|lia].
  - intros He Hs. apply Hfail. unfold fits. intros [[_ Hs']|[He' _]]; [lia|congruence].
  - intros Hf Hg. eexists. split; [apply Hok; assumption|]. cbn. auto.
Qed.


(** C2 on the message of global time 4 in the community of global time 10
    under [GlobalTimePruning(3, 8)]: its age is 6 and it is inactive. *)
Lemma C2_pruning_state_witness :
  0 < 3 < 8
  ∧ is_active demo.pruned_message demo.heap0 = Ok false
  ∧ is_inactive demo.pruned_message demo.heap0 = Ok true
  ∧ is_pruned demo.pruned_message demo.heap0 = Ok false
  ∧ get_state demo.pruned_message demo.heap0 = Ok "inactive".
Proof.
  assert (Hth : 0 < 3 < 8) by lia.
  destruct (C2_pruning_state_trichotomy demo.pruned_message demo.heap0 demo.community0
              3 8 Hth eq_refl eq_refl) as (Ha & Hi & Hp & _ & Hs).
  split; [exact Hth|]. split; [exact Ha|]. split; [exact Hi|]. split; [exact Hp|exact Hs].
Defined.

(** C3 on the store of [demo.rows], where my member has two rows: the
    next three claims are 3, 4 and 5. *)
Lemma C3_sequence_numbers_witness :
  FullSyncDistribution.setup demo.sequence_text (demo.full_sync true) demo.heap0
  = Ok (demo.full_sync_ready, demo.heap0)
  ∧ FullSyncDistribution._current_sequence_number demo.full_sync_ready = 2
  ∧ ∃ self'', claim_sequence_numbers 3 demo.full_sync_ready = Ok ([3; 4; 5], self'').
Proof.
  assert (Hsetup : FullSyncDistribution.setup demo.sequence_text (demo.full_sync true)
                     demo.heap0 = Ok (demo.full_sync_ready, demo.heap0))
    by (vm_compute; reflexivity).
  destruct (C3_sequence_numbers_dense demo.sequence_text (demo.full_sync true)
              demo.full_sync_ready demo.heap0 demo.heap0 demo.community0
              eq_refl eq_refl Hsetup) as (Hcur & _ & Hmany & _).
  split; [exact Hsetup|]. split; [exact Hcur|].
  destruct (Hmany 3%nat) as (s & Hrun & _). exists s. exact Hrun.
Defined.

End distribution_properties.

Section debugcommunity_properties.
Import debugcommunity.
Context {M : Type} (timeline_check : M -> bool * list M).

(** C7.  [check_text] yields one item per message, in the order of the
    messages: the message itself when [timeline.check] allows it and
    [DelayMessageByProof] around it otherwise; no message is left out. *)
Theorem C7_check_text_gate (messages : list M) :
  check_text timeline_check messages
  = (fun m => if fst (timeline_check m) then Yield m else DelayMessageByProof m) <$> messages
  ∧ length (check_text timeline_check messages) = length messages
  ∧ forall (i : nat) (m : M),
      messages !! i = Some m ->
      check_text timeline_check messages !! i
      = Some (if fst (timeline_check m) then Yield m else DelayMessageByProof m).
Proof.
  assert (Hmap : check_text timeline_check messages
    = (fun m => if fst (timeline_check m) then Yield m else DelayMessageByProof m)
        <$> messages).
  { induction messages as [|m messages IH]; [reflexivity|].
    cbn [check_text]. destruct (timeline_check m) as [allowed proof] eqn:Hm.
    rewrite IH, fmap_cons, Hm. reflexivity. }
  split; [exact Hmap|]. split.
  - rewrite Hmap. apply length_fmap.
  - intros i m Hi. rewrite Hmap, list_lookup_fmap, Hi. reflexivity.
Qed.

End debugcommunity_properties.

Section tracker_properties.
Import pystr tracker.
Context `{Externals}.

(** *** Strikes *)

Lemma update_strikes_cid (c : Community) (now : Time) (w : World) :
  _cid (snd (update_strikes c now w)) = _cid c.
Proof.
  unfold update_strikes.
  destruct (community_class c); [destruct (existsb _ _)|]; reflexivity.
Qed.

Lemma update_strikes_stored (c : Community) (now : Time) (w : World) :
  _strikes (snd (update_strikes c now w)) = fst (update_strikes c now w).
Proof.
  unfold update_strikes.
  destruct (community_class c); [destruct (existsb _ _)|]; reflexivity.
Qed.

Lemma has_cached_messages_cid (c c' : Community) (w : World) :
  _cid c' = _cid c -> has_cached_messages c' w = has_cached_messages c w.
Proof. intros Hcid. unfold has_cached_messages. rewrite Hcid. reflexivity. Qed.

Lemma has_cached_messages_false (c : Community) (w : World) :
  has_cached_messages c w = false
  <-> Forall (fun meta => meta_community meta ≠ _cid c) (_batch_cache w).
Proof.
  unfold has_cached_messages.
  induction (_batch_cache w) as [|meta metas IH]; cbn.
  - split; [constructor|reflexivity].
  - rewrite orb_false_iff, IH, Forall_cons, bool_decide_eq_false. reflexivity.
Qed.

Lemma is_active_unfold (c : Community) (now : Time) (w : World) :
  is_active c now w
  = (bool_decide (fst (update_strikes c now w) < 3) || has_cached_messages c w,
     snd (update_strikes c now w)).
Proof.
  unfold is_active.
  pose proof (update_strikes_cid c now w) as Hcid.
  destruct (update_strikes c now w) as [n c']. cbn [fst snd] in *.
  rewrite <- (has_cached_messages_cid c c' w Hcid).
  destruct (bool_decide (n < 3)); [reflexivity|].
  destruct (has_cached_messages c' w); reflexivity.
Qed.

Lemma update_strikes_class (c : Community) (now : Time) (w : World) :
  community_class (snd (update_strikes c now w)) = community_class c.
Proof.
  unfold update_strikes.
  destruct (community_class c) eqn:Hclass; [destruct (existsb _ _)|]; cbn; congruence.
Qed.

Lemma update_strikes_identity (c : Community) (now : Time) (w : World) :
  identity_database_id (snd (update_strikes c now w)) = identity_database_id c.
Proof.
  unfold update_strikes.
  destruct (community_class c); [destruct (existsb _ _)|]; reflexivity.
Qed.

Lemma existsb_active (c : Community) (now : Time) (w : World) :
  existsb (fun candidate => Candidate_is_active candidate c now) (_candidates w) = true
  <-> ∃ candidate, candidate ∈ _candidates w ∧ Candidate_is_active candidate c now = true.
Proof.
  rewrite existsb_exists. split; intros (candidate & Hin & Hact); exists candidate;
    (split; [apply list_elem_of_In; exact Hin|exact Hact]).
Qed.

(** C1.  The unload loop yields 180 seconds each time it is resumed and,
    but for the first time, runs one pass before it does.  In a pass,
    [update_strikes] of a [TrackerCommunity] leaves the community with 0
    strikes when some candidate is active for it and with one strike more
    than it had otherwise; the count it returns is the count the community
    then holds, and nothing else of the community changes.  The
    communities that the pass unloads are exactly the loaded ones that now
    hold at least 3 strikes and to which no key of the batch cache
    belongs.  When [unload_community] is called for them, every loaded
    community is in [_communities] with its new count, one line has been
    logged and nothing else of the tracker has changed. *)
Theorem C1_strike_based_unload (w : World) (now : Time) :
  (forall (started : bool) (w0 : World),
      fst (_unload_communities started w0) = 180
      ∧ snd (_unload_communities false w0) = w0
      ∧ snd (_unload_communities true w0) = _unload_communities_pass w0)
  ∧ (forall c : Community,
       community_class c = TrackerCommunity ->
       let c' := snd (update_strikes c now w) in
       fst (update_strikes c now w) = _strikes c'
       ∧ _cid c' = _cid c
       ∧ community_class c' = TrackerCommunity
       ∧ identity_database_id c' = identity_database_id c
       ∧ ((∃ candidate, candidate ∈ _candidates w ∧ Candidate_is_active candidate c now = true)
          -> _strikes c' = 0)
       ∧ ((forall candidate, candidate ∈ _candidates w ->
                             Candidate_is_active candidate c now = false)
          -> _strikes c' = _strikes c + 1))
  ∧ (forall c' : Community,
       c' ∈ inactive_communities now w
       <-> ∃ (cid : string) (c : Community),
             _communities w !! cid = Some c
             ∧ c' = snd (update_strikes c now w)
             ∧ fst (update_strikes c now w) >= 3
             ∧ _strikes c' >= 3
             ∧ Forall (fun meta => meta_community meta ≠ _cid c) (_batch_cache w))
  ∧ ∃ w1 : World,
      _unload_communities_pass w
      = fold_left (fun w community => Community_unload_community community w)
          (inactive_communities (time w) w) w1
      ∧ dom (_communities w1) = dom (_communities w)
      ∧ (forall (cid : string) (c : Community),
            _communities w !! cid = Some c ->
            ∃ c1 : Community,
              _communities w1 !! cid = Some c1
              ∧ c1 = snd (update_strikes c (time w) w)
              ∧ _strikes c1 = fst (update_strikes c (time w) w)
              ∧ (c1 ∈ inactive_communities (time w) w
                 <-> _strikes c1 >= 3
                     ∧ Forall (fun meta => meta_community meta ≠ _cid c1) (_batch_cache w1)))
      ∧ dprint_log w1
        = dprint_log w
          ++ ["cleaning " +:+ pretty (length (inactive_communities (time w) w)) +:+ "/"
              +:+ pretty (size (_communities w)) +:+ " communities"]
      ∧ _candidates w1 = _candidates w
      ∧ _bootstrap_candidates w1 = _bootstrap_candidates w
      ∧ _batch_cache w1 = _batch_cache w
      ∧ _statistics_drop w1 = _statistics_drop w
      ∧ _database w1 = _database w
      ∧ _non_autoload w1 = _non_autoload w
      ∧ _my_member w1 = _my_member w
      ∧ _persistent_storage_filename w1 = _persistent_storage_filename w
      ∧ _silent w1 = _silent w
      ∧ registered w1 = registered w
      ∧ stdout w1 = stdout w
      ∧ files w1 = files w
      ∧ base w1 = base w.
Proof.
  assert (Hinactive : forall (now : Time) (c' : Community),
             c' ∈ inactive_communities now w
             <-> ∃ (cid : string) (c : Community),
                   _communities w !! cid = Some c
                   ∧ c' = snd (update_strikes c now w)
                   ∧ fst (update_strikes c now w) >= 3
                   ∧ _strikes c' >= 3
                   ∧ Forall (fun meta => meta_community meta ≠ _cid c) (_batch_cache w)).
  { clear now. intros now c'. unfold inactive_communities, check_communities.
    rewrite list_elem_of_fmap. split.
    - intros ([cid [verdict c1]] & -> & Hin).
      apply list_elem_of_filter in Hin. destruct Hin as [Hverdict Hin].
      apply elem_of_map_to_list in Hin. rewrite lookup_fmap in Hin.
      destruct (_communities w !! cid) as [c|] eqn:Hc; [|discriminate].
      cbn in Hin. rewrite is_active_unfold in Hin. injection Hin as Hv Hc1.
      cbn in Hverdict. rewrite Hverdict in Hv. apply orb_false_iff in Hv.
      destruct Hv as [Hlt Hcache].
      apply bool_decide_eq_false in Hlt. apply has_cached_messages_false in Hcache.
      exists cid, c. cbn. split; [exact Hc|]. split; [congruence|]. split; [lia|].
      split; [|exact Hcache].
      rewrite <- Hc1, update_strikes_stored. lia.
    - intros (cid & c & Hc & -> & Hge & _ & Hcache).
      exists (cid, (false, snd (update_strikes c now w))). split; [reflexivity|].
      apply list_elem_of_filter. split; [reflexivity|].
      apply elem_of_map_to_list. rewrite lookup_fmap, Hc. cbn.
      rewrite is_active_unfold. f_equal. f_equal.
      apply orb_false_iff. split.
      + apply bool_decide_eq_false. lia.
      + apply has_cached_messages_false. exact Hcache. }
  split; [|split; [|split]].
  - intros started w0. split; [reflexivity|]. split; reflexivity.
  - intros c Hclass c'. subst c'.
    rewrite update_strikes_stored, update_strikes_cid, update_strikes_identity,
      update_strikes_class.
    split; [reflexivity|]. split; [reflexivity|]. split; [exact Hclass|].
    split; [reflexivity|].
    unfold update_strikes. rewrite Hclass. split.
    + intros Hsome. apply existsb_active in Hsome. rewrite Hsome. reflexivity.
    + intros Hall.
      destruct (existsb _ _) eqn:Hex; [|reflexivity].
      apply existsb_active in Hex. destruct Hex as (candidate & Hin & Hact).
      rewrite (Hall candidate Hin) in Hact. discriminate.
  - exact (Hinactive now).
  - exists (dprint ("cleaning " +:+ pretty (length (inactive_communities (time w) w)) +:+ "/"
                    +:+ pretty (size (_communities w)) +:+ " communities")
              (set_communities (snd <$> check_communities (time w) w) w)).
    split; [reflexivity|].
    assert (Hlookup : forall cid,
               (snd <$> check_communities (time w) w) !! cid
               = (fun c => snd (update_strikes c (time w) w)) <$> _communities w !! cid).
    { intros cid. unfold check_communities. rewrite !lookup_fmap.
      destruct (_communities w !! cid) as [c|]; [|reflexivity].
      cbn. rewrite is_active_unfold. reflexivity. }
    split.
    { cbn. unfold check_communities. rewrite !dom_fmap_L. reflexivity. }
    split.
    { intros cid c Hc. exists (snd (update_strikes c (time w) w)).
      cbn [dprint set_dprint_log set_communities _communities _batch_cache].
      rewrite Hlookup, Hc. split; [reflexivity|]. split; [reflexivity|].
      split; [apply update_strikes_stored|].
      rewrite Hinactive. split.
      - intros (cid' & c0 & _ & Heq & _ & Hge & Hcache). split; [exact Hge|].
        rewrite Heq, update_strikes_cid. exact Hcache.
      - intros [Hge Hcache]. exists cid, c. split; [exact Hc|]. split; [reflexivity|].
        rewrite <- update_strikes_stored. split; [exact Hge|]. split; [exact Hge|].
        rewrite update_strikes_cid in Hcache. exact Hcache. }
    repeat split; reflexivity.
Qed.


Lemma is_active_class (c : Community) (now : Time) (w : World) :
  community_class (snd (is_active c now w)) = community_class c.
Proof.
  rewrite is_active_unfold. cbn. unfold update_strikes.
  destruct (community_class c) eqn:Hclass; [destruct (existsb _ _)|]; cbn; congruence.
Qed.

Lemma update_strikes_hard_killed (c : Community) (now : Time) (w : World) :
  community_class c = TrackerHardKilledCommunity ->
  update_strikes c now w = (_strikes c + 1, set_strikes (_strikes c + 1) c).
Proof. intros Hclass. unfold update_strikes. rewrite Hclass. reflexivity. Qed.

Lemma verdicts_hard_killed (passes : list (Time * World)) :
  forall c : Community,
    community_class c = TrackerHardKilledCommunity ->
    _strikes (snd (verdicts c passes)) = _strikes c + Z.of_nat (length passes).
Proof.
  induction passes as [|[now w] passes IH]; intros c Hclass.
  - cbn. lia.
  - cbn [verdicts].
    pose proof (is_active_class c now w) as Hclass'.
    pose proof (is_active_unfold c now w) as Hact.
    rewrite (update_strikes_hard_killed c now w Hclass) in Hact.
    destruct (is_active c now w) as [verdict c1]. cbn in Hclass'.
    injection Hact as _ ->.
    rewrite Hclass in Hclass'. specialize (IH _ Hclass').
    destruct (verdicts _ passes) as [rest c2]. cbn in *. lia.
Qed.

(** C9.  [update_strikes] of a [TrackerHardKilledCommunity] adds one
    strike whatever the candidates are and never resets the counter: after
    any number of passes the counter has grown by that number.  A pass
    judges the community inactive exactly when the new count is at least 3
    and no key of the batch cache belongs to it; so a freshly hard-killed
    community is kept in the first two passes and is inactive in the third
    unless messages are cached for it.  A live [TrackerCommunity] with
    an active candidate is instead reset to 0 strikes and kept. *)
Theorem C9_hard_killed_strikes (c : Community) :
  community_class c = TrackerHardKilledCommunity ->
  (forall (now : Time) (w : World),
      update_strikes c now w = (_strikes c + 1, set_strikes (_strikes c + 1) c))
  ∧ (forall passes : list (Time * World),
        _strikes (snd (verdicts c passes)) = _strikes c + Z.of_nat (length passes))
  ∧ (forall (now : Time) (w : World),
        fst (is_active c now w) = false
        <-> _strikes c + 1 >= 3 ∧ has_cached_messages c w = false)
  ∧ (_strikes c = 0 ->
     forall (now1 now2 now3 : Time) (w1 w2 w3 : World),
       fst (verdicts c [(now1, w1); (now2, w2); (now3, w3)])
       = [true; true; has_cached_messages c w3])
  ∧ (forall (live : Community) (now : Time) (w : World) (candidate : Candidate),
        community_class live = TrackerCommunity ->
        candidate ∈ _candidates w ->
        Candidate_is_active candidate live now = true ->
        is_active live now w = (true, set_strikes 0 live)).
Proof.
  intros Hclass. split_and!.
  - intros now w. apply update_strikes_hard_killed. exact Hclass.
  - intros passes. apply verdicts_hard_killed. exact Hclass.
  - intros now w. rewrite is_active_unfold, (update_strikes_hard_killed c now w Hclass).
    cbn. rewrite orb_false_iff, bool_decide_eq_false. split; intros [? ?]; split; auto; lia.
  - intros Hzero now1 now2 now3 w1 w2 w3.
    cbn [verdicts].
    repeat (rewrite is_active_unfold;
            rewrite update_strikes_hard_killed by exact Hclass;
            cbn [fst snd]).
    cbn [set_strikes _strikes]. rewrite Hzero.
    rewrite !(has_cached_messages_cid c (set_strikes _ _) _ eq_refl). reflexivity.
  - intros live now w candidate Hlive Hin Hact.
    rewrite is_active_unfold. unfold update_strikes. rewrite Hlive.
    assert (Hex : existsb (fun candidate => Candidate_is_active candidate live now)
                    (_candidates w) = true).
    { apply existsb_exists. exists candidate. split; [|exact Hact].
      apply list_elem_of_In. exact Hin. }
    rewrite Hex. reflexivity.
Qed.

(** *** Packets *)

Lemma filter_non_bootstrap_nodes_all (packets : list (Candidate * string)) (w : World) :
  filter_non_bootstrap_nodes packets w = (packets, w).
Proof.
  induction packets as [|[candidate packet] packets IH]; [reflexivity|].
  cbn [filter_non_bootstrap_nodes]. rewrite andb_false_r, IH. reflexivity.
Qed.

(** C4.  The filter of [_convert_packets_into_batch] drops no packet: it
    yields every pair it is given, unchanged and in order, and touches
    neither the statistics nor the log; so the parent implementation is
    called with the very list received (and is not called for an empty
    list, for which the result is the empty list). *)
Theorem C4_convert_packets_never_drops (packets : list (Candidate * string)) (w : World) :
  filter_non_bootstrap_nodes packets w = (packets, w)
  ∧ _convert_packets_into_batch packets w
    = match packets with
      | [] => ([], w)
      | _ :: _ => Dispersy__convert_packets_into_batch packets w
      end.
Proof.
  split; [apply filter_non_bootstrap_nodes_all|].
  unfold _convert_packets_into_batch. rewrite filter_non_bootstrap_nodes_all.
  destruct packets; reflexivity.
Qed.

(** *** Introduction requests *)

(** C8.  [check_introduction_request] of the tracker yields as many items
    as the parent implementation, in the same order; an item that is a
    message whose candidate is a [BootstrapCandidate] is replaced by a
    [DropMessage] of that message, every other item is yielded as it
    is. *)
Theorem C8_bootstrap_requests_dropped (messages : list Message.Implementation) (w : World) :
  let parent := Dispersy_check_introduction_request messages w in
  length (check_introduction_request messages w) = length parent
  ∧ forall (i : nat) (item : checked),
      parent !! i = Some item ->
      (forall message,
          item = Accepted message ->
          isinstance_BootstrapCandidate (Message.candidate message) = true ->
          check_introduction_request messages w !! i
          = Some (DropMessage message
                    "drop dispersy-introduction-request from bootstrap peer"))
      ∧ ((forall message,
             item = Accepted message ->
             isinstance_BootstrapCandidate (Message.candidate message) = false) ->
         check_introduction_request messages w !! i = Some item).
Proof.
  intros parent. unfold check_introduction_request. fold parent. split.
  - apply length_fmap.
  - intros i item Hi. rewrite list_lookup_fmap, Hi. cbn. split.
    + intros message -> Hboot. cbn. rewrite Hboot. reflexivity.
    + intros Hother. destruct item as [message| |]; cbn; try reflexivity.
      rewrite (Hother message eq_refl). reflexivity.
Qed.


(** *** Persistent storage *)

Lemma decode_pairs_error (s : string) :
  (forall e, decode_pairs s = Raise e -> ∃ msg, e = TypeError msg)
  ∧ (forall a e, decode_pairs (String a s) = Raise e -> ∃ msg, e = TypeError msg).
Proof.
  induction s as [|b s [IH1 IH2]].
  - split; [discriminate|]. cbn. intros a e [= <-]. eauto.
  - split; [exact (IH2 b)|].
    intros a e. cbn [decode_pairs].
    destruct (hex_value a); [destruct (hex_value b)|]; try (intros [= <-]; eauto).
    destruct (decode_pairs s) as [r|e'] eqn:Hs; cbn; [discriminate|].
    intros [= <-]. apply IH1. reflexivity.
Qed.

Lemma decode_HEX_error (s : string) (e : exn) :
  decode_HEX s = Raise e -> ∃ msg, e = TypeError msg.
Proof.
  unfold decode_HEX. destruct (Nat.odd _).
  - intros [= <-]. eauto.
  - apply decode_pairs_error.
Qed.

(** [read_packets] either decodes every line that is not a comment, or
    raises, and then not an [IOError], on a line that does not consist of
    two fields of which the second is hexadecimal. *)
Lemma read_packets_cases (lines : list string) :
  let decodes line p := ∃ f0 f1, split line = [f0; f1] ∧ decode_HEX f1 = Ok p in
  let data := filter (fun line => startswith "#" line = false) lines in
  (∃ packets, read_packets lines = Ok packets ∧ Forall2 decodes data packets)
  ∨ (∃ e, read_packets lines = Raise e ∧ e ≠ IOError
          ∧ Exists (fun line => forall p, ¬ decodes line p) data).
Proof.
  intros decodes. induction lines as [|line lines IH]; cbn zeta.
  - left. exists []. split; [reflexivity|constructor].
  - cbn zeta in IH. cbn [read_packets]. destruct (startswith "#" line) eqn:Hcomment.
    + rewrite filter_cons_False by (rewrite Hcomment; discriminate). exact IH.
    + rewrite filter_cons_True by exact Hcomment.
      assert (Hbad : forall e, e ≠ IOError -> (forall p, ¬ decodes line p) ->
                ∃ e', Raise (A := list string) e = Raise e' ∧ e' ≠ IOError
                     ∧ Exists (fun line => forall p, ¬ decodes line p)
                         (line :: filter (fun line => startswith "#" line = false) lines)).
      { intros e He Hno. exists e. split; [reflexivity|]. split; [exact He|].
        apply Exists_cons_hd. exact Hno. }
      destruct (split line) as [|f0 [|f1 [|f2 fields]]] eqn:Hsplit.
      * right. apply Hbad; [discriminate|]. intros p (g0 & g1 & Hg & _).
        rewrite Hsplit in Hg. discriminate.
      * right. apply Hbad; [discriminate|]. intros p (g0 & g1 & Hg & _).
        rewrite Hsplit in Hg. discriminate.
      * destruct (decode_HEX f1) as [p|e] eqn:Hdecode; cbn.
        -- destruct IH as [(packets & -> & Hall)|(e & -> & He & Hex)]; cbn.
           ++ left. exists (p :: packets). split; [reflexivity|].
              constructor; [|exact Hall]. exists f0, f1. auto.
           ++ right. exists e. split; [reflexivity|]. split; [exact He|].
              apply Exists_cons_tl. exact Hex.
        -- right. apply Hbad.
           ++ destruct (decode_HEX_error _ _ Hdecode) as [msg ->]. discriminate.
           ++ intros p (g0 & g1 & Hg & Hp). rewrite Hsplit in Hg.
              injection Hg as <- <-. rewrite Hdecode in Hp. discriminate.
      * right. apply Hbad; [discriminate|]. intros p (g0 & g1 & Hg & _).
        rewrite Hsplit in Hg. discriminate.
Qed.

Lemma Forall2_decodes_unique (data : list string) :
  let decodes line p := ∃ f0 f1, split line = [f0; f1] ∧ decode_HEX f1 = Ok p in
  forall packets packets' : list string,
    Forall2 decodes data packets -> Forall2 decodes data packets' -> packets = packets'.
Proof.
  intros decodes packets packets' Hall. revert packets'.
  induction Hall as [|line p data packets (f0 & f1 & Hs & Hp) _ IH]; intros packets' Hall'.
  - inversion Hall'. reflexivity.
  - inversion Hall' as [|? p' ? packets'' (g0 & g1 & Hs' & Hp') Hrest]; subst.
    rewrite Hs in Hs'. injection Hs' as <- <-. rewrite Hp in Hp'. injection Hp' as <-.
    f_equal. apply IH. exact Hrest.
Qed.

(** C6 as amended.  For a storage file, the lines that start with [#]
    are ignored.  When every other line consists of two white-space
    separated fields of which the second is hexadecimal, the decoded
    second fields are handed to [on_incoming_packets] one at a time, the
    last line first, and an exception raised by [on_incoming_packets] for
    one packet is logged and the remaining packets are still handed
    over.  When some other line is not of that form, the reload raises
    before any packet is handed over. *)
Theorem C6_load_persistent_storage (w : World) (content : string) :
  files w !! _persistent_storage_filename w = Some content ->
  let decodes line p := ∃ f0 f1, split line = [f0; f1] ∧ decode_HEX f1 = Ok p in
  let data := filter (fun line => startswith "#" line = false) (readlines content) in
  (forall packets : list string,
      Forall2 decodes data packets ->
      _load_persistent_storage w
      = (Ok tt,
         fold_left
           (fun w packet =>
              let '(outcome, w') :=
                Dispersy_on_incoming_packets [(new_LoopbackCandidate, packet)] false (time w) w in
              match outcome with
              | Ok _ => w'
              | Raise _ => dprint "Error while loading from persistent-destroy-community.data" w'
              end)
           (rev packets) w))
  ∧ (Exists (fun line => forall p, ¬ decodes line p) data ->
     ∃ e, _load_persistent_storage w = (Raise e, w)).
Proof.
  intros Hfile decodes data.
  unfold _load_persistent_storage. rewrite Hfile.
  destruct (read_packets_cases (readlines content))
    as [(packets & Hread & Hall)|(e & Hread & He & Hex)]; rewrite Hread.
  - split.
    + intros packets' Hall'.
      rewrite (Forall2_decodes_unique _ _ _ Hall' Hall). reflexivity.
    + intros Hex. exfalso. fold decodes data in Hall. clear Hread.
      induction Hall as [|line p data' packets' Hp _ IH].
      * inversion Hex.
      * inversion Hex as [? ? Hno|? ? Hrest]; subst; [exact (Hno p Hp)|exact (IH Hrest)].
  - split.
    + intros packets Hall. exfalso. fold decodes data in Hex. clear Hread.
      induction Hall as [|line p data' packets' Hp _ IH].
      * inversion Hex.
      * inversion Hex as [? ? Hno|? ? Hrest]; subst; [exact (Hno p Hp)|exact (IH Hrest)].
    + intros _. exists e. destruct e; try reflexivity. congruence.
Qed.


(** *** What is printed *)

Lemma print_reports_stdout (tag hex_cid : string) (messages : list Message.Implementation) :
  forall w : World,
    print_reports tag hex_cid messages w
    = set_stdout
        (stdout w ++ ((fun message => join_space (report_line tag hex_cid message))
                        <$> messages)) w.
Proof.
  unfold print_reports.
  induction messages as [|message messages IH]; intros w.
  - cbn. rewrite app_nil_r. destruct w. reflexivity.
  - cbn [fold_left]. rewrite IH. rewrite fmap_cons.
    destruct w. unfold print, set_stdout. cbn. rewrite <- app_assoc. reflexivity.
Qed.

Lemma store_proofs_stdout (fuel : nat) (self : Community) :
  forall (messages : list Message.Implementation) (stored : gset string) (w : World),
    stdout (snd (store_proofs fuel self messages stored w)) = stdout w.
Proof.
  induction fuel as [|fuel IH]; intros messages stored w; [reflexivity|].
  cbn [store_proofs].
  destruct (pop messages) as [[message rest]|]; [|reflexivity].
  destruct (bool_decide (Message.packet message ∈ stored)); [apply IH|].
  destruct (Timeline_check self message) as [allowed proofs].
  rewrite IH.
  destruct (bool_decide (_ ∈ _)); [reflexivity|].
  destruct (select_identity _ _ _); reflexivity.
Qed.

(** The loop of [dispersy_cleanup_community] ends when the timeline has
    no proof to add for the message. *)
Lemma dispersy_cleanup_community_returns (self : Community)
    (message : Message.Implementation) (w : World) (allowed : bool) :
  Timeline_check self message = (allowed, []) ->
  fst (dispersy_cleanup_community 2 self message w) = Some TrackerHardKilledCommunity.
Proof.
  intros Hcheck. unfold dispersy_cleanup_community. cbn [store_proofs pop rev app].
  rewrite bool_decide_eq_false_2 by set_solver.
  rewrite Hcheck. reflexivity.
Qed.

(** C10.  With [silent = true] the constructor registers the two storage
    and unload tasks and not the statistics reporter, and
    [on_introduction_request] and [on_introduction_response] print nothing:
    they are the parent implementations.  Whatever the flag is,
    [dispersy_cleanup_community] prints the DESTROY_IN line of the message
    and nothing else, at every stage of its loop, and
    [dispersy_on_introduction_request] of a hard-killed community prints
    one DESTROY_OUT line per message before it calls its parent.  (With
    [silent = false] the reporter is registered and the REQ_IN2 lines are
    printed.) *)
Theorem C10_silent_scope (w : World) :
  (forall (w0 : World) (working_directory : string) (my_member : Member),
      registered (__init__ w0 working_directory true my_member)
      = registered w0 ++ [_load_persistent_storage_task; _unload_communities_task]
      ∧ _silent (__init__ w0 working_directory true my_member) = true)
  ∧ (forall (w0 : World) (working_directory : string) (my_member : Member),
        registered (__init__ w0 working_directory false my_member)
        = registered w0 ++ [_load_persistent_storage_task; _unload_communities_task;
                            _report_statistics_task])
  ∧ (_silent w = true ->
     forall messages : list Message.Implementation,
       on_introduction_request messages w = Dispersy_on_introduction_request messages w
       ∧ on_introduction_response messages w = Dispersy_on_introduction_response messages w)
  ∧ (_silent w = false ->
     forall (first : Message.Implementation) (rest : list Message.Implementation),
       on_introduction_request (first :: rest) w
       = Dispersy_on_introduction_request (first :: rest)
           (set_stdout
              (stdout w
               ++ ((fun message =>
                      join_space (report_line "REQ_IN2"
                                    (encode_HEX (Message.community_cid first)) message))
                     <$> first :: rest)) w))
  ∧ (forall (fuel : nat) (self : Community) (message : Message.Implementation),
        stdout (snd (dispersy_cleanup_community fuel self message w))
        = stdout w
          ++ [join_space (report_line "DESTROY_IN" (encode_HEX (_cid self)) message)])
  ∧ (forall (self : Community) (first : Message.Implementation)
            (rest : list Message.Implementation),
        dispersy_on_introduction_request self (first :: rest) w
        = HardKilledCommunity_dispersy_on_introduction_request self (first :: rest)
            (set_stdout
               (stdout w
                ++ ((fun message =>
                       join_space (report_line "DESTROY_OUT"
                                     (encode_HEX (Message.community_cid first)) message))
                      <$> first :: rest)) w)).
Proof.
  split_and!.
  - intros w0 working_directory my_member. split; reflexivity.
  - intros w0 working_directory my_member. reflexivity.
  - intros Hsilent messages.
    unfold on_introduction_request, on_introduction_response.
    rewrite Hsilent. split; reflexivity.
  - intros Hsilent first rest. unfold on_introduction_request.
    rewrite Hsilent. cbn [negb]. rewrite print_reports_stdout. reflexivity.
  - intros fuel self message. unfold dispersy_cleanup_community.
    rewrite store_proofs_stdout. reflexivity.
  - intros self first rest. unfold dispersy_on_introduction_request.
    rewrite print_reports_stdout. reflexivity.
Qed.

End tracker_properties.

(** ** The properties on the concrete instances *)

Section tracker_instances.
Import pystr tracker.

(** C1 on [demo.strikes_world].  Without a candidate [idle] goes from 2
    to 3 strikes and is the one community that the pass unloads: [cached]
    reaches 3 strikes too and is kept for the key of the batch cache,
    [fresh] is kept with 1 strike.  With the walker, which is active for
    every community, the pass keeps the three of them with 0 strikes. *)
Lemma C1_strike_based_unload_witness :
  _strikes (snd (@update_strikes demo.types demo.externals demo.idle 0
                   (demo.strikes_world []))) = 3
  ∧ _strikes (snd (@update_strikes demo.types demo.externals demo.idle 0
                     (demo.strikes_world [demo.walker]))) = 0
  ∧ set_strikes 3 demo.idle
    ∈ @inactive_communities demo.types demo.externals 0 (demo.strikes_world [])
  ∧ @inactive_communities demo.types demo.externals 0 (demo.strikes_world [])
    = [set_strikes 3 demo.idle]
  ∧ _communities (@_unload_communities_pass demo.types demo.externals (demo.strikes_world []))
    = {[ "cached" := set_strikes 3 demo.cached; "fresh" := set_strikes 1 demo.fresh ]}
  ∧ _communities (@_unload_communities_pass demo.types demo.externals
                    (demo.strikes_world [demo.walker]))
    = {[ "idle" := set_strikes 0 demo.idle; "cached" := set_strikes 0 demo.cached;
         "fresh" := set_strikes 0 demo.fresh ]}.
Proof.
  destruct (@C1_strike_based_unload demo.types demo.externals (demo.strikes_world []) 0)
    as (_ & Hquiet & Hunloaded & _).
  destruct (@C1_strike_based_unload demo.types demo.externals
              (demo.strikes_world [demo.walker]) 0) as (_ & Hbusy & _ & _).
  split_and!.
  - pose proof (Hquiet demo.idle eq_refl) as Hidle. cbv zeta in Hidle.
    destruct Hidle as (_ & _ & _ & _ & _ & Hadd).
    rewrite Hadd; [reflexivity|].
    intros candidate Hcandidate. apply elem_of_nil in Hcandidate. destruct Hcandidate.
  - pose proof (Hbusy demo.idle eq_refl) as Hidle. cbv zeta in Hidle.
    destruct Hidle as (_ & _ & _ & _ & Hreset & _).
    apply Hreset. exists demo.walker. split; [|reflexivity].
    apply list_elem_of_singleton. reflexivity.
  - apply Hunloaded. exists "idle", demo.idle.
    split; [reflexivity|]. split; [reflexivity|].
    split; [vm_compute; discriminate|]. split; [vm_compute; discriminate|].
    repeat constructor. discriminate.
  - vm_compute. reflexivity.
  - vm_compute. reflexivity.
  - vm_compute. reflexivity.
Defined.

(** C6 on [demo.storage]: the three packets are handed over last line
    first; the parent raises on the byte [ff], which is logged, and the
    packet of the first line is still handed over after it. *)
Lemma C6_load_persistent_storage_witness :
  files (demo.world demo.storage true)
    !! _persistent_storage_filename (demo.world demo.storage true) = Some demo.storage
  ∧ ∃ w' : @World demo.types,
      @_load_persistent_storage demo.types demo.externals (demo.world demo.storage true)
      = (Ok tt, w')
      ∧ base w' = rev demo.packets
      ∧ dprint_log w' = ["Error while loading from persistent-destroy-community.data"].
Proof.
  split; [reflexivity|].
  destruct (@C6_load_persistent_storage demo.types demo.externals
              (demo.world demo.storage true) demo.storage eq_refl) as [Hok _].
  specialize (Hok demo.packets).
  eexists. split.
  - apply Hok.
    repeat (constructor; [eexists _, _; split; vm_compute; reflexivity|]).
    constructor.
  - split; vm_compute; reflexivity.
Defined.


(** The claim C6 fails as it was stated: in [demo.broken_storage] the
    first line holds a packet that decodes, the second field of the second
    line is not hexadecimal; the reload raises the [TypeError] of that
    field and hands no packet to [on_incoming_packets], also not the one
    of the first line, which the record of the parent never receives. *)
Lemma C6_decode_error_stops_reload :
  files (demo.world demo.broken_storage true)
    !! _persistent_storage_filename (demo.world demo.broken_storage true)
  = Some demo.broken_storage
  ∧ split <$> readlines demo.broken_storage
    = [["dispersy-destroy-community"; "0001"]; ["dispersy-identity"; "zz"]]
  ∧ decode_HEX "0001" = Ok (demo.bytes [0; 1]%N)
  ∧ decode_HEX "zz" = Raise (TypeError "Non-hexadecimal digit found")
  ∧ @_load_persistent_storage demo.types demo.externals (demo.world demo.broken_storage true)
    = (Raise (TypeError "Non-hexadecimal digit found"), demo.world demo.broken_storage true)
  ∧ demo.bytes [0; 1]%N
    ∉ base (snd (@_load_persistent_storage demo.types demo.externals
                   (demo.world demo.broken_storage true))).
Proof.
  split_and!; try (vm_compute; reflexivity).
  assert (Hbase : base (snd (@_load_persistent_storage demo.types demo.externals
                               (demo.world demo.broken_storage true))) = [])
    by (vm_compute; reflexivity).
  rewrite Hbase. apply not_elem_of_nil.
Qed.

(** C9 on [demo.killed], in a world whose only candidate is active: the
    hard-killed community is kept twice and is inactive in the third
    pass, while the live community is reset to 0 strikes and kept. *)
Lemma C9_hard_killed_witness :
  community_class demo.killed = TrackerHardKilledCommunity
  ∧ fst (@verdicts demo.types demo.externals demo.killed
           [(0, demo.world demo.storage true); (0, demo.world demo.storage true);
            (0, demo.world demo.storage true)])
    = [true; true; false]
  ∧ @is_active demo.types demo.externals demo.live 0 (demo.world demo.storage true)
    = (true, set_strikes 0 demo.live).
Proof.
  destruct (@C9_hard_killed_strikes demo.types demo.externals demo.killed eq_refl)
    as (_ & _ & _ & Hthree & Hlive).
  split; [reflexivity|]. split.
  - exact (Hthree eq_refl 0 0 0 (demo.world demo.storage true)
             (demo.world demo.storage true) (demo.world demo.storage true)).
  - apply (Hlive demo.live 0 (demo.world demo.storage true) demo.walker eq_refl).
    + apply list_elem_of_singleton. reflexivity.
    + reflexivity.
Defined.

(** C10 on a silent world: the request of a walker prints nothing, its
    destroy message prints the DESTROY_IN line and a request to the
    hard-killed community prints the DESTROY_OUT line. *)
Lemma C10_silent_scope_witness :
  _silent (demo.world demo.storage true) = true
  ∧ stdout (snd (@on_introduction_request demo.types demo.externals
                   [demo.request demo.walker] (demo.world demo.storage true))) = []
  ∧ stdout (snd (@dispersy_cleanup_community demo.types demo.externals 2 demo.live
                   (demo.request demo.walker) (demo.world demo.storage true)))
    = ["DESTROY_IN 6c697665 4142 0 1 10.0.0.1 6421"]
  ∧ stdout (snd (@dispersy_on_introduction_request demo.types demo.externals demo.killed
                   [demo.request demo.walker] (demo.world demo.storage true)))
    = ["DESTROY_OUT 6c697665 4142 0 1 10.0.0.1 6421"].
Proof.
  destruct (@C10_silent_scope demo.types demo.externals (demo.world demo.storage true))
    as (_ & _ & Hquiet & _ & Hin & Hout).
  split; [reflexivity|]. split; [|split].
  - destruct (Hquiet eq_refl [demo.request demo.walker]) as [-> _]. reflexivity.
  - rewrite Hin. vm_compute. reflexivity.
  - rewrite Hout. vm_compute. reflexivity.
Defined.

End tracker_instances.

(* ===================================================================== *)
(** * Part III: further properties                                        *)
(* ===================================================================== *)

(** ** Byte strings *)

Section byte_strings.

Lemma string_app_nil_l (s : string) : EmptyString +:+ s = s.
Proof. reflexivity. Qed.

Lemma string_app_cons (c : ascii) (s1 s2 : string) :
  String c s1 +:+ s2 = String c (s1 +:+ s2).
Proof. reflexivity. Qed.

Lemma string_length_app (s1 s2 : string) :
  String.length (s1 +:+ s2) = (String.length s1 + String.length s2)%nat.
Proof.
  induction s1 as [|c s1 IH]; [reflexivity|].
  rewrite string_app_cons. simpl. rewrite IH. reflexivity.
Qed.

Lemma string_app_nil_r (s : string) : s +:+ EmptyString = s.
Proof.
  induction s as [|c s IH]; [reflexivity|].
  rewrite string_app_cons, IH. reflexivity.
Qed.

Lemma string_app_assoc (s1 s2 s3 : string) : (s1 +:+ s2) +:+ s3 = s1 +:+ s2 +:+ s3.
Proof.
  induction s1 as [|c s1 IH]; [reflexivity|].
  rewrite !string_app_cons, IH. reflexivity.
Qed.

Lemma get_app_length (s1 : string) (c : ascii) (s2 : string) :
  String.get (String.length s1) (s1 +:+ String c s2) = Some c.
Proof.
  induction s1 as [|c1 s1 IH]; [reflexivity|].
  rewrite string_app_cons. simpl. exact IH.
Qed.

Lemma get_app_skip (s1 s2 : string) (n : nat) :
  String.get (String.length s1 + n) (s1 +:+ s2) = String.get n s2.
Proof.
  induction s1 as [|c1 s1 IH]; [reflexivity|].
  rewrite string_app_cons. simpl. exact IH.
Qed.

Lemma get_None (s : string) (n : nat) :
  String.get n s = None <-> (String.length s <= n)%nat.
Proof.
  revert n. induction s as [|c s IH]; intros n; simpl.
  - split; [lia|reflexivity].
  - destruct n as [|n]; [split; [discriminate|lia]|]. rewrite IH. lia.
Qed.

Lemma substring_app_skip (s1 s2 : string) (n m : nat) :
  substring (String.length s1 + n) m (s1 +:+ s2) = substring n m s2.
Proof.
  induction s1 as [|c1 s1 IH]; [reflexivity|].
  rewrite string_app_cons. simpl. exact IH.
Qed.

Lemma substring_prefix (s1 s2 : string) :
  substring 0 (String.length s1) (s1 +:+ s2) = s1.
Proof.
  induction s1 as [|c1 s1 IH].
  - rewrite string_app_nil_l. destruct s2; reflexivity.
  - rewrite string_app_cons. simpl. rewrite IH. reflexivity.
Qed.

Lemma length_substring (s : string) (n m : nat) :
  (n + m <= String.length s)%nat -> String.length (substring n m s) = m.
Proof.
  revert n m. induction s as [|c s IH]; intros n m Hle; simpl in Hle.
  - assert (n = 0%nat) by lia. assert (m = 0%nat) by lia. subst. reflexivity.
  - destruct n as [|n]; simpl.
    + destruct m as [|m]; [reflexivity|]. simpl. rewrite (IH 0%nat m) by lia. reflexivity.
    + apply IH. lia.
Qed.

End byte_strings.

(** ** debugcommunity.py: the text payload on the wire *)

Section debug_conversion_properties.
Import pystruct debug_conversion.

(** X1.  A text of at most 255 bytes that [_encode_text] wrote is read
    back by [_decode_text] wherever it stands in a packet: the payload
    holds the text and the offset returned is the position after it.  A
    longer text is not encoded: [pack] raises [struct.error]. *)
Theorem text_payload_round_trip (head text tail : string) :
  ((String.length text <= 255)%nat ->
   ∃ parts : list string,
     _encode_text text = Return parts
     ∧ String.length (joined parts) = (1 + String.length text)%nat
     ∧ _decode_text (String.length head) (head +:+ joined parts +:+ tail)
       = Return ((String.length head + 1 + String.length text)%nat,
                 {| TextPayload._text := text |}))
  ∧ ((255 < String.length text)%nat ->
     _encode_text text = Throw (StructError "ubyte format requires 0 <= number <= 255")).
Proof.
  split.
  - intros Hlen. unfold _encode_text, pack_B.
    rewrite bool_decide_eq_true_2 by exact Hlen. cbn [mbind outcome_bind mret outcome_ret].
    eexists. split; [reflexivity|].
    assert (Hjoined : joined [String (ascii_of_nat (String.length text)) EmptyString; text]
                      = String (ascii_of_nat (String.length text)) text).
    { unfold joined. cbn [foldr]. rewrite string_app_nil_r, string_app_cons. reflexivity. }
    rewrite Hjoined, string_app_cons. split; [reflexivity|].
    unfold _decode_text.
    assert (Hsize : String.length
                      (head +:+ String (ascii_of_nat (String.length text)) (text +:+ tail))
                    = (String.length head + 1 + String.length text + String.length tail)%nat).
    { rewrite string_length_app. simpl. rewrite string_length_app. lia. }
    rewrite bool_decide_eq_false_2 by lia.
    unfold unpack_from_B. rewrite get_app_length.
    cbn [mbind outcome_bind mret outcome_ret].
    rewrite nat_ascii_embedding by lia.
    rewrite bool_decide_eq_false_2 by lia.
    do 3 f_equal.
    rewrite substring_app_skip. simpl.
    apply substring_prefix.
  - intros Hlen. unfold _encode_text, pack_B.
    rewrite bool_decide_eq_false_2 by lia. reflexivity.
Qed.

(** X2.  [_decode_text] never reads outside the packet.  When it returns,
    the byte at [offset] is the length of the text, the text is the bytes
    that follow it, all of them, and the offset returned is inside the
    packet; otherwise it raises [DropPacket], and does so exactly when the
    length byte or part of the text it announces is missing. *)
Theorem text_payload_decode_bounds (offset : nat) (data : string) :
  match _decode_text offset data with
  | Return (offset', payload) =>
      ∃ b : ascii,
        String.get offset data = Some b
        ∧ offset' = (offset + 1 + nat_of_ascii b)%nat
        ∧ (offset' <= String.length data)%nat
        ∧ TextPayload.text payload = substring (offset + 1) (nat_of_ascii b) data
        ∧ String.length (TextPayload.text payload) = nat_of_ascii b
  | Throw e =>
      e = DropPacket "Insufficient packet size"
      ∧ ((String.length data <= offset)%nat
         ∨ ∃ b : ascii,
             String.get offset data = Some b
             ∧ (String.length data < offset + 1 + nat_of_ascii b)%nat)
  end.
Proof.
  unfold _decode_text.
  destruct (bool_decide_reflect (String.length data < offset + 1)%nat) as [Hshort|Hlong].
  - split; [reflexivity|]. left. lia.
  - unfold unpack_from_B.
    destruct (String.get offset data) as [b|] eqn:Hget.
    + cbn [mbind outcome_bind mret outcome_ret].
      destruct (bool_decide_reflect
                  (String.length data < offset + 1 + nat_of_ascii b)%nat) as [Hcut|Hfull].
      * split; [reflexivity|]. right. exists b. split; [reflexivity|exact Hcut].
      * exists b. split; [reflexivity|]. split; [reflexivity|]. split; [lia|].
        split; [reflexivity|]. cbn. apply length_substring. lia.
    + apply get_None in Hget. lia.
Qed.

Lemma database_ids_Throw (st : State) (names : list string) (e : raised) :
  database_ids st names = Throw e ->
  ∃ name, name ∈ names ∧ meta_messages st !! name = None ∧ e = KeyError name.
Proof.
  induction names as [|name names IH]; [discriminate|].
  cbn [database_ids]. unfold database_id.
  destruct (meta_messages st !! name) as [id|] eqn:Hname.
  - cbn [mbind outcome_bind]. destruct (database_ids st names) as [ids|e'] eqn:Hids.
    + discriminate.
    + cbn. intros [= <-]. destruct (IH eq_refl) as (n & Hin & Hnone & He).
      exists n. split; [right; exact Hin|]. split; assumption.
  - cbn. intros [= <-]. exists name. split; [left|]. split; [exact Hname|reflexivity].
Qed.

Lemma filter_selected_twice (ids : list Z) (rows : list distribution.sync_row) :
  filter (selected ids) (filter (fun r => ¬ selected ids r) rows) = [].
Proof.
  induction rows as [|r rows IH]; [reflexivity|].
  destruct (decide (selected ids r)) as [Hsel|Hsel].
  - rewrite (filter_cons_False (fun r => ¬ selected ids r)) by tauto. exact IH.
  - rewrite (filter_cons_True (fun r => ¬ selected ids r)) by exact Hsel.
    rewrite filter_cons_False by exact Hsel. exact IH.
Qed.

Lemma filter_selected_other (ids ids' : list Z) (rows : list distribution.sync_row) :
  ids ## ids' ->
  filter (selected ids') (filter (fun r => ¬ selected ids r) rows)
  = filter (selected ids') rows.
Proof.
  intros Hdisjoint. induction rows as [|r rows IH]; [reflexivity|].
  destruct (decide (selected ids r)) as [Hsel|Hsel].
  - rewrite (filter_cons_False (fun r => ¬ selected ids r)) by tauto.
    rewrite (filter_cons_False (selected ids')); [exact IH|].
    intros Hsel'. exact (Hdisjoint _ Hsel Hsel').
  - rewrite (filter_cons_True (fun r => ¬ selected ids r)) by exact Hsel.
    destruct (decide (selected ids' r)) as [Hsel'|Hsel'].
    + rewrite !(filter_cons_True (selected ids')) by exact Hsel'. rewrite IH. reflexivity.
    + rewrite !(filter_cons_False (selected ids')) by exact Hsel'. exact IH.
Qed.

(** X3.  [delete_messages] removes what [fetch_packets] shows.  It returns
    the number of packets that [fetch_packets] returned for the same names,
    afterwards [fetch_packets] returns no packet for them, and the packets
    of meta messages with other database ids are fetched as before.  When
    a name is not a meta message of the community both raise the
    [KeyError] of that name. *)
Theorem delete_messages_fetch_packets (st : State) (names : list string) :
  match delete_messages st names with
  | Return (removed, st') =>
      ∃ (ids : list Z) (packets : list string),
        database_ids st names = Return ids
        ∧ fetch_packets st names = Return packets
        ∧ removed = length packets
        ∧ changes st' = removed
        ∧ fetch_packets st' names = Return []
        ∧ forall (others : list string) (ids' : list Z),
            database_ids st others = Return ids' ->
            ids ## ids' ->
            fetch_packets st' others = fetch_packets st others
  | Throw e =>
      fetch_packets st names = Throw e
      ∧ ∃ name, name ∈ names ∧ meta_messages st !! name = None ∧ e = KeyError name
  end.
Proof.
  unfold delete_messages, fetch_packets.
  destruct (database_ids st names) as [ids|e] eqn:Hids; cbn [mbind outcome_bind mret outcome_ret].
  - exists ids. eexists. split; [reflexivity|]. split; [reflexivity|].
    split; [|split; [reflexivity|split]].
    + rewrite length_fmap, merge_sort_Permutation. reflexivity.
    + assert (Hids' : database_ids
                {| sync := filter (fun r => ¬ selected ids r) (sync st);
                   meta_messages := meta_messages st;
                   changes := length (filter (selected ids) (sync st)) |} names = Return ids).
      { rewrite <- Hids. clear Hids. induction names as [|name names IH]; [reflexivity|].
        cbn [database_ids]. rewrite IH. reflexivity. }
      rewrite Hids'. cbn [mbind outcome_bind mret outcome_ret sync].
      rewrite filter_selected_twice. reflexivity.
    + intros others ids' Hothers Hdisjoint.
      assert (Hothers' : database_ids
                {| sync := filter (fun r => ¬ selected ids r) (sync st);
                   meta_messages := meta_messages st;
                   changes := length (filter (selected ids) (sync st)) |} others
              = Return ids').
      { rewrite <- Hothers. clear Hothers. induction others as [|name others IH]; [reflexivity|].
        cbn [database_ids]. rewrite IH. reflexivity. }
      rewrite Hothers', Hothers. cbn [mbind outcome_bind mret outcome_ret sync].
      rewrite (filter_selected_other ids ids' _ Hdisjoint). reflexivity.
  - split; [reflexivity|]. apply (database_ids_Throw st names e Hids).
Qed.

Lemma row_le_total : Total row_le.
Proof.
  intros r1 r2. unfold row_le.
  destruct (Z.lt_trichotomy (distribution.sync_global_time r1)
              (distribution.sync_global_time r2)) as [Hlt|[Heq|Hgt]]; [auto| |auto].
  destruct (String.leb_total (distribution.sync_packet r1) (distribution.sync_packet r2));
    [left|right]; right; split; auto.
Qed.

(** X4.  [fetch_packets] returns the packets of the rows of the named
    meta messages, each row once, ordered by global time and, at equal
    global time, by packet. *)
Theorem fetch_packets_sorted (st : State) (names : list string) :
  match fetch_packets st names with
  | Return packets =>
      ∃ (ids : list Z) (rows : list distribution.sync_row),
        database_ids st names = Return ids
        ∧ packets = distribution.sync_packet <$> rows
        ∧ rows ≡ₚ filter (selected ids) (sync st)
        ∧ Sorted row_le rows
  | Throw e => ∃ name, name ∈ names ∧ meta_messages st !! name = None ∧ e = KeyError name
  end.
Proof.
  unfold fetch_packets.
  destruct (database_ids st names) as [ids|e] eqn:Hids; cbn [mbind outcome_bind mret outcome_ret].
  - exists ids. eexists. split; [reflexivity|]. split; [reflexivity|]. split.
    + apply merge_sort_Permutation.
    + apply (@Sorted_merge_sort _ row_le _ row_le_total).
  - apply (database_ids_Throw st names e Hids).
Qed.

End debug_conversion_properties.

(** ** doc/tutorial-part2.py: the chat conversion *)

Section tutorial_properties.
Import pystruct tutorial.

Lemma signed_byte_round_trip (z : Z) :
  -128 <= z <= 127 -> signed_of_byte (byte_of_signed z) = z.
Proof.
  intros Hz. unfold signed_of_byte, byte_of_signed.
  assert (Hmod : 0 <= z mod 256 < 256) by (apply Z.mod_pos_bound; lia).
  rewrite N_ascii_embedding by lia.
  rewrite Z2N.id by lia.
  destruct (decide (0 <= z)) as [Hpos|Hneg].
  - rewrite Z.mod_small by lia. rewrite bool_decide_eq_true_2 by lia. reflexivity.
  - assert (Hshift : z mod 256 = z + 256).
    { rewrite <- (Z_mod_plus_full z 1 256). apply Z.mod_small. lia. }
    rewrite Hshift. rewrite bool_decide_eq_false_2 by lia. lia.
Qed.

(** X5.  The two signed bytes that [_encode_beg_permission] writes for a
    voice and an operator value between -128 and 127 are read back by
    [_decode_beg_permission] wherever they stand in a packet, negative
    values included; a value outside that range is not encoded: [pack]
    raises [struct.error]. *)
Theorem beg_permission_round_trip (head tail : string) (voice operator : Z) :
  (-128 <= voice <= 127 -> -128 <= operator <= 127 ->
   ∃ parts : list string,
     _encode_beg_permission {| BegPermissionPayload.voice := voice;
                               BegPermissionPayload.operator := operator |}
     = Return parts
     ∧ _decode_beg_permission (String.length head)
         (head +:+ debug_conversion.joined parts +:+ tail)
       = Return ((String.length head + 2)%nat,
                 {| BegPermissionPayload.voice := voice;
                    BegPermissionPayload.operator := operator |}))
  ∧ (¬ (-128 <= voice <= 127 ∧ -128 <= operator <= 127) ->
     _encode_beg_permission {| BegPermissionPayload.voice := voice;
                               BegPermissionPayload.operator := operator |}
     = Throw (StructError "byte format requires -128 <= number <= 127")).
Proof.
  split.
  - intros Hv Ho. unfold _encode_beg_permission, pack_bb.
    cbn [BegPermissionPayload.voice BegPermissionPayload.operator].
    rewrite !bool_decide_eq_true_2 by assumption.
    cbn [andb mbind outcome_bind mret outcome_ret].
    eexists. split; [reflexivity|].
    unfold debug_conversion.joined. cbn [foldr].
    rewrite string_app_nil_r, !string_app_cons, string_app_nil_l.
    unfold _decode_beg_permission.
    rewrite bool_decide_eq_false_2 by (rewrite string_length_app; simpl; lia).
    unfold unpack_from_bb.
    rewrite get_app_length.
    replace (S (String.length head)) with (String.length head + 1)%nat by lia.
    rewrite get_app_skip. simpl.
    rewrite !signed_byte_round_trip by assumption. reflexivity.
  - intros Hout. unfold _encode_beg_permission, pack_bb.
    cbn [BegPermissionPayload.voice BegPermissionPayload.operator].
    destruct (bool_decide_reflect (-128 <= voice <= 127)) as [Hv|Hv];
      destruct (bool_decide_reflect (-128 <= operator <= 127)) as [Ho|Ho];
      try reflexivity.
    exfalso. apply Hout. split; assumption.
Qed.

Lemma be32_round_trip (n : N) (rest : string) :
  (n < 4294967296)%N ->
  ∃ a b c d : ascii,
    be32 n +:+ rest = String a (String b (String c (String d rest)))
    ∧ of_be32 a b c d = n.
Proof.
  intros Hn. unfold be32. do 4 eexists. split.
  - rewrite !string_app_cons, string_app_nil_l. reflexivity.
  - unfold of_be32.
    rewrite !N_ascii_embedding by (apply N.mod_lt; discriminate).
    change 16777216%N with (256 * 256 * 256)%N.
    change 65536%N with (256 * 256)%N.
    rewrite <- !N.Div0.div_div.
    pose proof (N.div_mod n 256 ltac:(discriminate)) as H0.
    pose proof (N.div_mod (n / 256) 256 ltac:(discriminate)) as H1.
    pose proof (N.div_mod (n / 256 / 256) 256 ltac:(discriminate)) as H2.
    assert (H3 : (n / 256 / 256 / 256 < 256)%N).
    { rewrite !N.Div0.div_div. apply N.Div0.div_lt_upper_bound. exact Hn. }
    rewrite (N.mod_small (n / 256 / 256 / 256) 256) by exact H3.
    lia.
Qed.

Lemma unpack_from_LL_app (head rest : string) (a b : N) :
  (a < 4294967296)%N -> (b < 4294967296)%N ->
  unpack_from_LL (head +:+ be32 a +:+ be32 b +:+ rest) (String.length head) = Return (a, b).
Proof.
  intros Ha Hb.
  destruct (be32_round_trip b rest Hb) as (b0 & b1 & b2 & b3 & -> & <-).
  destruct (be32_round_trip a (String b0 (String b1 (String b2 (String b3 rest)))) Ha)
    as (a0 & a1 & a2 & a3 & -> & <-).
  unfold unpack_from_LL.
  rewrite get_app_length.
  replace (1 + String.length head)%nat with (String.length head + 1)%nat by lia.
  replace (2 + String.length head)%nat with (String.length head + 2)%nat by lia.
  replace (3 + String.length head)%nat with (String.length head + 3)%nat by lia.
  replace (4 + String.length head)%nat with (String.length head + 4)%nat by lia.
  replace (5 + String.length head)%nat with (String.length head + 5)%nat by lia.
  replace (6 + String.length head)%nat with (String.length head + 6)%nat by lia.
  replace (7 + String.length head)%nat with (String.length head + 7)%nat by lia.
  rewrite !get_app_skip. reflexivity.
Qed.

Lemma length_be32 (n : N) : String.length (be32 n) = 4%nat.
Proof. reflexivity. Qed.

Lemma substring_beyond (s : string) (n m : nat) :
  (String.length s <= n)%nat -> substring n m s = EmptyString.
Proof.
  revert n m. induction s as [|c s IH]; intros n m Hle.
  - destruct n, m; reflexivity.
  - simpl in Hle. destruct n as [|n]; [lia|]. simpl. apply IH. lia.
Qed.

(** X6.  A nickname and a text whose UTF-8 forms are shorter than 2^32
    bytes and decode to themselves are read back by [_decode_text] from what
    [_encode_text] wrote, wherever it stands in a packet, and the offset
    returned is the position after the text. *)
Theorem chat_text_round_trip `{Unicode} (head tail : string)
    (payload : TextPayload.Implementation) :
  let nickname := utf8_encode (TextPayload.nickname payload) in
  let text := utf8_encode (TextPayload.text payload) in
  utf8_decode nickname = Some (TextPayload.nickname payload) ->
  utf8_decode text = Some (TextPayload.text payload) ->
  (N.of_nat (String.length nickname) < 4294967296)%N ->
  (N.of_nat (String.length text) < 4294967296)%N ->
  ∃ parts : list string,
    _encode_text payload = Return parts
    ∧ _decode_text (String.length head) (head +:+ debug_conversion.joined parts +:+ tail)
      = Return ((String.length head + 8 + String.length nickname + String.length text)%nat,
                payload).
Proof.
  intros nickname text Hnick Htext Hnl Htl.
  unfold _encode_text, pack_LL. fold nickname text.
  rewrite !bool_decide_eq_true_2 by assumption.
  cbn [andb mbind outcome_bind mret outcome_ret].
  eexists. split; [reflexivity|].
  assert (Hwire : head +:+ debug_conversion.joined
                    [be32 (N.of_nat (String.length nickname))
                     +:+ be32 (N.of_nat (String.length text)); nickname; text] +:+ tail
                  = head +:+ be32 (N.of_nat (String.length nickname))
                      +:+ be32 (N.of_nat (String.length text))
                      +:+ nickname +:+ text +:+ tail).
  { unfold debug_conversion.joined. cbn [foldr].
    rewrite string_app_nil_r, !string_app_assoc. reflexivity. }
  rewrite Hwire. clear Hwire.
  unfold _decode_text.
  rewrite bool_decide_eq_false_2
    by (rewrite !string_length_app, !length_be32; lia).
  rewrite unpack_from_LL_app by assumption.
  cbn [mbind outcome_bind mret outcome_ret]. rewrite !Nat2N.id.
  assert (Hsplit : head +:+ be32 (N.of_nat (String.length nickname))
                     +:+ be32 (N.of_nat (String.length text))
                     +:+ nickname +:+ text +:+ tail
                   = (head +:+ be32 (N.of_nat (String.length nickname))
                        +:+ be32 (N.of_nat (String.length text)))
                       +:+ nickname +:+ text +:+ tail).
  { rewrite !string_app_assoc. reflexivity. }
  rewrite Hsplit. clear Hsplit.
  set (front := head +:+ be32 (N.of_nat (String.length nickname))
                  +:+ be32 (N.of_nat (String.length text))).
  assert (Hfront : (String.length head + 8)%nat = (String.length front + 0)%nat).
  { subst front. rewrite !string_length_app, !length_be32. lia. }
  rewrite Hfront, substring_app_skip, substring_prefix, Hnick.
  rewrite <- (string_app_assoc front nickname).
  assert (Hfront' : (String.length front + 0 + String.length nickname)%nat
                    = (String.length (front +:+ nickname) + 0)%nat).
  { rewrite string_length_app. lia. }
  rewrite Hfront', substring_app_skip, substring_prefix, Htext.
  destruct payload. do 2 f_equal.
Qed.

(** X7.  [_decode_text] of the chat conversion does not compare the two
    lengths of the header with the size of the packet: when the packet ends
    with the header, whatever nickname length below 2^32 the header
    announces, the decoder returns a payload of two empty strings (when the
    empty string decodes) and an offset that lies beyond the end of the
    packet. *)
Theorem chat_text_decode_overrun `{Unicode} (head : string) (nickname_length : N)
    (empty : unicode) :
  utf8_decode EmptyString = Some empty ->
  (0 < nickname_length < 4294967296)%N ->
  let data := head +:+ be32 nickname_length +:+ be32 0 +:+ EmptyString in
  _decode_text (String.length head) data
  = Return ((String.length head + 8 + N.to_nat nickname_length + 0)%nat,
            {| TextPayload.nickname := empty; TextPayload.text := empty |})
  ∧ (String.length data < String.length head + 8 + N.to_nat nickname_length + 0)%nat.
Proof.
  intros Hempty Hnl data.
  assert (Hsize : String.length data = (String.length head + 8)%nat).
  { subst data. rewrite !string_length_app, !length_be32. simpl. lia. }
  split; [|lia].
  unfold _decode_text. rewrite bool_decide_eq_false_2 by lia.
  subst data. rewrite unpack_from_LL_app by lia.
  cbn [mbind outcome_bind mret outcome_ret].
  rewrite !substring_beyond by lia. rewrite Hempty. reflexivity.
Qed.

(** X8.  [check_beg_permission] yields every message it is given,
    whatever the timeline answers: the two answers of [timeline.allowed] are
    pairs, [and] of two pairs is the second pair, and a pair counts as
    true, so the branch that drops a message is never taken. *)
Theorem check_beg_permission_never_drops {M P : Type}
    (timeline_allowed : string -> bool * list P) (messages : list M) :
  check_beg_permission timeline_allowed messages = Yield <$> messages
  ∧ (forall (denied : string -> bool * list P),
        (forall permission, fst (denied permission) = false) ->
        check_beg_permission denied messages = Yield <$> messages).
Proof. split; [reflexivity|]. intros denied _. reflexivity. Qed.

End tutorial_properties.

(** ** tool/tracker.py: the hexadecimal codec and the storage file *)

Section storage_properties.
Import pystr tracker storage_format.

Lemma hex_value_hex_digit (n : N) :
  (n < 16)%N -> hex_value (hex_digit n) = Some n.
Proof.
  intros Hn. destruct n as [|p]; [reflexivity|].
  repeat (destruct p as [p|p|]; try reflexivity; try lia).
Qed.

Lemma isspace_hex_digit (n : N) : isspace (hex_digit n) = false.
Proof.
  destruct n as [|p]; [reflexivity|].
  repeat (destruct p as [p|p|]; try reflexivity).
Qed.

Lemma newline_hex_digit (n : N) : Ascii.eqb (hex_digit n) "010"%char = false.
Proof.
  destruct n as [|p]; [reflexivity|].
  repeat (destruct p as [p|p|]; try reflexivity).
Qed.

Lemma decode_pairs_encode_HEX (s : string) : decode_pairs (encode_HEX s) = Ok s.
Proof.
  induction s as [|c s IH]; [reflexivity|].
  cbn [encode_HEX decode_pairs].
  assert (Hc : (N_of_ascii c < 256)%N) by apply N_ascii_bounded.
  rewrite !hex_value_hex_digit.
  - rewrite IH. cbn [mbind result_bind mret result_ret].
    rewrite <- N.div_mod by discriminate. rewrite ascii_N_embedding. reflexivity.
  - apply N.mod_lt. discriminate.
  - apply N.Div0.div_lt_upper_bound. exact Hc.
Qed.

Lemma length_encode_HEX (s : string) :
  String.length (encode_HEX s) = (2 * String.length s)%nat.
Proof. induction s as [|c s IH]; [reflexivity|]. cbn [encode_HEX String.length]. lia. Qed.

(** X9.  Hexadecimal text written with [encode("HEX")] is read back by
    [decode("HEX")]: every packet survives the trip through the storage
    file, and its hexadecimal form has twice its length. *)
Theorem hex_round_trip (packet : string) :
  decode_HEX (encode_HEX packet) = Ok packet
  ∧ String.length (encode_HEX packet) = (2 * String.length packet)%nat.
Proof.
  split; [|apply length_encode_HEX].
  unfold decode_HEX. rewrite length_encode_HEX.
  replace (Nat.odd (2 * String.length packet)) with false.
  - apply decode_pairs_encode_HEX.
  - symmetry. rewrite Nat.odd_mul. reflexivity.
Qed.

Lemma all_chars_app (P : ascii -> bool) (s1 s2 : string) :
  all_chars P (s1 +:+ s2) = all_chars P s1 && all_chars P s2.
Proof.
  induction s1 as [|c s1 IH]; [reflexivity|].
  rewrite string_app_cons. cbn [all_chars]. rewrite IH, andb_assoc. reflexivity.
Qed.

Lemma split_from_word (w : string) :
  forall (cur : option string) (rest : string),
    all_chars (fun c => negb (isspace c)) w = true ->
    split_from cur (w +:+ rest)
    = split_from (match w with
                  | EmptyString => cur
                  | _ => Some (default EmptyString cur +:+ w)
                  end) rest.
Proof.
  induction w as [|c w IH]; intros cur rest Hw; [reflexivity|].
  cbn [all_chars] in Hw. apply andb_true_iff in Hw. destruct Hw as [Hc Hw].
  apply negb_true_iff in Hc.
  rewrite string_app_cons. cbn [split_from]. rewrite Hc.
  rewrite (IH _ rest Hw). unfold push. cbn [default]. unfold id.
  destruct w as [|c' w].
  - reflexivity.
  - rewrite string_app_assoc. reflexivity.
Qed.

Lemma is_word_inv (s : string) :
  is_word s = true ->
  s ≠ EmptyString ∧ all_chars (fun c => negb (isspace c)) s = true.
Proof.
  unfold is_word. intros Hw. apply andb_true_iff in Hw. destruct Hw as [Hne Hall].
  split; [|exact Hall]. intros ->. discriminate.
Qed.

Lemma split_two_words (a b : string) :
  is_word a = true -> is_word b = true ->
  split (a +:+ " " +:+ b +:+ " " +:+ newline) = [a; b].
Proof.
  intros Ha Hb.
  destruct (is_word_inv a Ha) as [Hane Haall].
  destruct (is_word_inv b Hb) as [Hbne Hball].
  unfold split. rewrite (split_from_word a None _ Haall).
  destruct a as [|ca a]; [congruence|].
  cbn [default]. rewrite string_app_nil_l.
  rewrite (string_app_cons " "%char EmptyString), string_app_nil_l.
  cbn [split_from]. change (isspace " "%char) with true. cbn match.
  f_equal. rewrite (split_from_word b None _ Hball).
  destruct b as [|cb b]; [congruence|].
  cbn [default]. rewrite string_app_nil_l. rewrite string_app_cons, string_app_nil_l.
  reflexivity.
Qed.

Lemma is_word_encode_HEX (packet : string) :
  packet ≠ EmptyString -> is_word (encode_HEX packet) = true.
Proof.
  intros Hne. unfold is_word. apply andb_true_iff. split.
  - destruct packet; [congruence|reflexivity].
  - clear Hne. induction packet as [|c packet IH]; [reflexivity|].
    cbn [encode_HEX all_chars]. rewrite !isspace_hex_digit, IH. reflexivity.
Qed.

Lemma startswith_hash_app (name rest : string) :
  is_name name = true -> startswith "#" (name +:+ rest) = false.
Proof.
  unfold is_name. intros Hname. apply andb_true_iff in Hname. destruct Hname as [Hw Hh].
  destruct (is_word_inv name Hw) as [Hne _].
  destruct name as [|c name]; [congruence|].
  apply negb_true_iff in Hh. rewrite string_app_cons.
  unfold startswith in *. cbn [String.prefix] in *.
  destruct (ascii_dec "#" c); [|reflexivity].
  destruct name; discriminate.
Qed.

Lemma read_packets_record (name packet : string) (lines : list string) :
  is_name name = true -> packet ≠ EmptyString ->
  read_packets (record_line name packet :: lines)
  = read_packets lines ≫= fun ps => mret (packet :: ps).
Proof.
  intros Hname Hpacket. cbn [read_packets].
  assert (Hline : record_line name packet
                  = name +:+ " " +:+ encode_HEX packet +:+ " " +:+ newline) by reflexivity.
  rewrite Hline, (startswith_hash_app name _ Hname).
  rewrite split_two_words.
  - destruct (hex_round_trip packet) as [-> _]. reflexivity.
  - unfold is_name in Hname. apply andb_true_iff in Hname. tauto.
  - apply is_word_encode_HEX. exact Hpacket.
Qed.

Lemma read_packets_comment (text : string) (lines : list string) :
  read_packets (comment_line text :: lines) = read_packets lines.
Proof. reflexivity. Qed.

Lemma read_packets_entries (entries : list entry) :
  Forall well_formed entries ->
  read_packets (line_of <$> entries) = Ok (packets_of entries).
Proof.
  induction 1 as [|e entries He _ IH]; [reflexivity|].
  rewrite fmap_cons. destruct e as [text|[name packet]]; cbn [line_of].
  - rewrite read_packets_comment. exact IH.
  - destruct He as [Hname Hpacket].
    rewrite (read_packets_record name packet _ Hname Hpacket), IH. reflexivity.
Qed.

Lemma lines_from_line (body : string) :
  forall cur rest : string,
    no_newline body = true ->
    lines_from cur (body +:+ newline +:+ rest)
    = (cur +:+ body +:+ newline) :: lines_from EmptyString rest.
Proof.
  induction body as [|c body IH]; intros cur rest Hbody.
  - rewrite !string_app_nil_l. unfold newline. rewrite string_app_cons, string_app_nil_l.
    cbn [lines_from]. change (Ascii.eqb "010"%char "010"%char) with true. cbn match.
    reflexivity.
  - cbn [no_newline all_chars] in Hbody. apply andb_true_iff in Hbody.
    destruct Hbody as [Hc Hbody]. apply negb_true_iff in Hc.
    rewrite string_app_cons. cbn [lines_from]. rewrite Hc.
    rewrite (IH _ rest Hbody). unfold push. rewrite string_app_assoc. reflexivity.
Qed.

Lemma readlines_content_of (lines : list string) :
  Forall is_line lines -> readlines (content_of lines) = lines.
Proof.
  induction 1 as [|line lines (body & -> & Hbody) _ IH]; [reflexivity|].
  unfold readlines, content_of in *. cbn [foldr].
  rewrite string_app_assoc, (lines_from_line body EmptyString _ Hbody), IH.
  reflexivity.
Qed.

Lemma no_newline_word (s : string) :
  all_chars (fun c => negb (isspace c)) s = true -> no_newline s = true.
Proof.
  unfold no_newline. induction s as [|c s IH]; [reflexivity|].
  cbn [all_chars]. intros Hs. apply andb_true_iff in Hs. destruct Hs as [Hc Hs].
  rewrite (IH Hs), andb_true_r. apply negb_true_iff. apply negb_true_iff in Hc.
  destruct (Ascii.eqb c "010"%char) eqn:Heq; [|reflexivity].
  apply Ascii.eqb_eq in Heq. subst c. discriminate.
Qed.

Lemma is_line_line_of (e : entry) : well_formed e -> is_line (line_of e).
Proof.
  destruct e as [text|[name packet]]; cbn [well_formed line_of].
  - intros Htext. exists ("# received dispersy-destroy-community from " +:+ text).
    split.
    + unfold comment_line. rewrite string_app_assoc. reflexivity.
    + unfold no_newline in *. rewrite all_chars_app, Htext. reflexivity.
  - intros [Hname Hpacket]. exists (name +:+ " " +:+ encode_HEX packet +:+ " ").
    split.
    + unfold record_line. cbn [join_space]. rewrite !string_app_assoc. reflexivity.
    + unfold is_name in Hname. apply andb_true_iff in Hname. destruct Hname as [Hw _].
      destruct (is_word_inv name Hw) as [_ Hall].
      destruct (is_word_inv _ (is_word_encode_HEX packet Hpacket)) as [_ Hhex].
      unfold no_newline. rewrite !all_chars_app.
      fold (no_newline name). fold (no_newline (encode_HEX packet)).
      rewrite (no_newline_word name Hall), (no_newline_word _ Hhex). reflexivity.
Qed.

(** X10.  The storage file is read back as it was written.  For a file
    that consists of the comment lines and the [name packet] lines that
    [dispersy_cleanup_community] writes, with names that are single words
    not starting with [#], comments without a newline and packets that are
    not empty, [_load_persistent_storage] raises nothing and hands exactly
    the packets written to [on_incoming_packets], the last one first. *)
Theorem storage_file_round_trip `{Externals} (w : World) (entries : list entry) :
  Forall well_formed entries ->
  files w !! _persistent_storage_filename w = Some (content_of (line_of <$> entries)) ->
  read_packets (readlines (content_of (line_of <$> entries))) = Ok (packets_of entries)
  ∧ _load_persistent_storage w
    = (Ok tt, fold_left (load_packet new_LoopbackCandidate) (rev (packets_of entries)) w).
Proof.
  intros Hwf Hfile.
  assert (Hread : read_packets (readlines (content_of (line_of <$> entries)))
                  = Ok (packets_of entries)).
  { rewrite readlines_content_of.
    - apply read_packets_entries. exact Hwf.
    - apply Forall_fmap. eapply Forall_impl; [exact Hwf|]. intros e. apply is_line_line_of. }
  split; [exact Hread|].
  unfold _load_persistent_storage. rewrite Hfile, Hread. reflexivity.
Qed.

End storage_properties.

(** ** tool/tracker.py: reload, strikes and the destroy proofs *)

Section tracker_more_properties.
Import pystr tracker storage_format.
Context `{Externals}.

Lemma read_packets_comments (lines : list string) :
  Forall (fun line => startswith "#" line = true) lines -> read_packets lines = Ok [].
Proof.
  induction 1 as [|line lines Hline _ IH]; [reflexivity|].
  cbn [read_packets]. rewrite Hline. exact IH.
Qed.

(** X11.  Reloading is a no-op when there is nothing to reload: when the
    storage file does not exist, or when each of its lines is a comment,
    [_load_persistent_storage] returns normally, calls nothing and leaves
    the world as it is. *)
Theorem load_persistent_storage_nothing (w : World) :
  (files w !! _persistent_storage_filename w = None ->
   _load_persistent_storage w = (Ok tt, w))
  ∧ (forall content : string,
        files w !! _persistent_storage_filename w = Some content ->
        Forall (fun line => startswith "#" line = true) (readlines content) ->
        _load_persistent_storage w = (Ok tt, w)).
Proof.
  split.
  - intros Hfile. unfold _load_persistent_storage. rewrite Hfile. reflexivity.
  - intros content Hfile Hcomments. unfold _load_persistent_storage.
    rewrite Hfile, (read_packets_comments _ Hcomments). reflexivity.
Qed.

Lemma update_strikes_bounds (c : Community) (now : Time) (w : World) :
  0 <= _strikes c ->
  0 <= fst (update_strikes c now w) <= _strikes c + 1.
Proof.
  intros Hc. unfold update_strikes.
  destruct (community_class c); [destruct (existsb _ _)|]; cbn; lia.
Qed.

Lemma verdicts_young (passes : list (Time * World)) :
  forall c : Community,
    0 <= _strikes c ->
    _strikes c + Z.of_nat (length passes) < 3 ->
    Forall (fun verdict => verdict = true) (fst (verdicts c passes)).
Proof.
  induction passes as [|[now w] passes IH]; intros c Hc Hlt; [constructor|].
  cbn [verdicts length] in *.
  pose proof (update_strikes_bounds c now w Hc) as Hbounds.
  pose proof (update_strikes_stored c now w) as Hstored.
  rewrite is_active_unfold.
  specialize (IH (snd (update_strikes c now w))).
  destruct (verdicts (snd (update_strikes c now w)) passes) as [rest c'].
  cbn [fst snd] in *. constructor.
  - rewrite bool_decide_eq_true_2 by lia. reflexivity.
  - apply IH; lia.
Qed.

(** X12.  No community is unloaded early.  A community with [s >= 0]
    strikes is judged active in each of its next [n] passes when
    [s + n < 3], whatever the candidates and the batch cache are, so a
    community that was just created survives its first two passes; and a
    [TrackerCommunity] for which a candidate is active in one pass
    survives that pass and the two passes after it, whatever its strikes
    were. *)
Theorem no_early_unload :
  (forall (c : Community) (passes : list (Time * World)),
      0 <= _strikes c ->
      _strikes c + Z.of_nat (length passes) < 3 ->
      Forall (fun verdict => verdict = true) (fst (verdicts c passes)))
  ∧ (forall (cls : CommunityClass) (cid : string) (identity_id : Z) (p1 p2 : Time * World),
        fst (verdicts (new_community cls cid identity_id) [p1; p2]) = [true; true])
  ∧ (forall (c : Community) (now : Time) (w : World) (candidate : Candidate)
            (passes : list (Time * World)),
        community_class c = TrackerCommunity ->
        candidate ∈ _candidates w ->
        Candidate_is_active candidate c now = true ->
        (length passes <= 2)%nat ->
        Forall (fun verdict => verdict = true) (fst (verdicts c ((now, w) :: passes)))).
Proof.
  split_and!.
  - intros c passes. apply verdicts_young.
  - intros cls cid identity_id p1 p2.
    pose proof (verdicts_young [p1; p2] (new_community cls cid identity_id)) as Hall.
    cbn [new_community _strikes length] in Hall.
    specialize (Hall ltac:(lia) ltac:(lia)).
    destruct (verdicts (new_community cls cid identity_id) [p1; p2]) as [vs c'] eqn:Hvs.
    assert (Hlen : length vs = 2%nat).
    { replace vs with (fst (verdicts (new_community cls cid identity_id) [p1; p2]))
        by (rewrite Hvs; reflexivity).
      destruct p1 as [n1 w1], p2 as [n2 w2]. cbn [verdicts].
      repeat (rewrite is_active_unfold; cbn [fst snd]). reflexivity. }
    cbn [fst] in *. destruct vs as [|v1 [|v2 [|v3 vs]]]; try discriminate.
    inversion Hall as [|? ? -> Hall']; subst. inversion Hall' as [|? ? -> _]. reflexivity.
  - intros c now w candidate passes Hclass Hin Hact Hlen.
    cbn [verdicts]. rewrite is_active_unfold.
    assert (Hreset : update_strikes c now w = (0, set_strikes 0 c)).
    { unfold update_strikes. rewrite Hclass.
      assert (Hex : existsb (fun candidate => Candidate_is_active candidate c now)
                      (_candidates w) = true).
      { apply existsb_exists. exists candidate. split; [|exact Hact].
        apply list_elem_of_In. exact Hin. }
      rewrite Hex. reflexivity. }
    rewrite Hreset. cbn [fst snd].
    pose proof (verdicts_young passes (set_strikes 0 c)) as Hall.
    cbn [set_strikes _strikes] in Hall. specialize (Hall ltac:(lia) ltac:(lia)).
    destruct (verdicts (set_strikes 0 c) passes) as [rest c']. cbn [fst] in *.
    constructor; [reflexivity|exact Hall].
Qed.

Lemma pop_None {A : Type} (l : list A) : pop l = None -> l = [].
Proof.
  unfold pop. destruct (rev l) as [|x r] eqn:Hrev; [|discriminate].
  intros _. rewrite <- (rev_involutive l), Hrev. reflexivity.
Qed.

Lemma pop_Some {A : Type} (l r : list A) (x : A) : pop l = Some (x, r) -> l = r ++ [x].
Proof.
  unfold pop. destruct (rev l) as [|y r'] eqn:Hrev; [discriminate|].
  intros [= -> <-]. rewrite <- (rev_involutive l), Hrev. reflexivity.
Qed.

Lemma store_proofs_terminates (known : gset string) (k : nat) (self : Community)
    (Hclosed : forall m, Message.packet m ∈ known ->
                         Forall (fun p => Message.packet p ∈ known) (snd (Timeline_check self m)))
    (Hbound : forall m, (length (snd (Timeline_check self m)) <= k)%nat)
    (fuel : nat) :
  forall (messages : list Message.Implementation) (stored : gset string) (w : World),
    Forall (fun m => Message.packet m ∈ known) messages ->
    (size (known ∖ stored) * (k + 1) + length messages < fuel)%nat ->
    fst (store_proofs fuel self messages stored w) = Some TrackerHardKilledCommunity.
Proof.
  induction fuel as [|fuel IH]; intros messages stored w Hin Hfuel; [lia|].
  cbn [store_proofs].
  destruct (pop messages) as [[m rest]|] eqn:Hpop; [|reflexivity].
  apply pop_Some in Hpop. subst messages.
  apply Forall_app in Hin. destruct Hin as [Hrest Hm].
  rewrite Forall_singleton in Hm.
  rewrite length_app in Hfuel. cbn [length] in Hfuel.
  destruct (bool_decide_reflect (Message.packet m ∈ stored)) as [Hstored|Hnew].
  - apply IH; [exact Hrest|lia].
  - pose proof (Hclosed m Hm) as Hproofs. pose proof (Hbound m) as Hlen.
    destruct (Timeline_check self m) as [allowed proofs]. cbn [snd] in *.
    apply IH.
    + apply Forall_app. split; assumption.
    + rewrite length_app.
      assert (Hsize : (size (known ∖ (stored ∪ {[Message.packet m]})) < size (known ∖ stored))%nat).
      { apply subset_size. set_solver. }
      nia.
Qed.

(** X13.  [dispersy_cleanup_community] comes to its end whenever the
    proofs that the timeline gives, starting from the destroy message,
    carry packets of a finite set, also when the proofs refer to each other
    in a cycle: every packet is stored and followed once.  With at most
    [k] proofs per message and [n] packets in the set, [n * (k + 1) + 2] passes of the
    loop are enough, and the method returns [TrackerHardKilledCommunity]. *)
Theorem dispersy_cleanup_community_terminates (known : gset string) (k : nat)
    (self : Community) (message : Message.Implementation) (w : World) :
  Message.packet message ∈ known ->
  (forall m, Message.packet m ∈ known ->
             Forall (fun p => Message.packet p ∈ known) (snd (Timeline_check self m))) ->
  (forall m, (length (snd (Timeline_check self m)) <= k)%nat) ->
  forall fuel : nat,
    (size known * (k + 1) + 2 <= fuel)%nat ->
    fst (dispersy_cleanup_community fuel self message w) = Some TrackerHardKilledCommunity.
Proof.
  intros Hmessage Hclosed Hbound fuel Hfuel. unfold dispersy_cleanup_community.
  apply (store_proofs_terminates known k self Hclosed Hbound).
  - apply Forall_singleton. exact Hmessage.
  - cbn [length]. replace (known ∖ ∅) with known by set_solver. lia.
Qed.

Lemma content_of_app (l1 l2 : list string) :
  content_of (l1 ++ l2) = content_of l1 +:+ content_of l2.
Proof.
  unfold content_of. induction l1 as [|l l1 IH]; [reflexivity|].
  cbn [app foldr]. rewrite IH, string_app_assoc. reflexivity.
Qed.

Lemma write_file (filename text : string) (w : World) :
  files (write filename text w) !! filename
  = Some (default EmptyString (files w !! filename) +:+ text).
Proof. unfold write. cbn. apply lookup_insert_eq. Qed.

Lemma select_identity_packet (meta member : Z) (w : World) (packet : string) :
  Forall (fun r => distribution.sync_packet r ≠ EmptyString) (_database w) ->
  select_identity meta member w = Some packet -> packet ≠ EmptyString.
Proof.
  intros Hdb. unfold select_identity.
  destruct (head _) as [r|] eqn:Hhead; [|discriminate].
  cbn. intros [= <-].
  apply head_Some_elem_of in Hhead. apply list_elem_of_filter in Hhead.
  destruct Hhead as [_ Hin]. rewrite Forall_forall in Hdb. exact (Hdb r Hin).
Qed.

Lemma store_proofs_entries (good : Message.Implementation -> Prop) (self : Community)
    (Hgood : forall m, good m ->
                       is_name (Message.name m) = true ∧ Message.packet m ≠ EmptyString)
    (Hclosed : forall m, good m -> Forall good (snd (Timeline_check self m)))
    (fuel : nat) :
  forall (messages : list Message.Implementation) (stored : gset string) (w : World),
    Forall good messages ->
    Forall (fun r => distribution.sync_packet r ≠ EmptyString) (_database w) ->
    ∃ entries : list entry,
      Forall well_formed entries
      ∧ _persistent_storage_filename (snd (store_proofs fuel self messages stored w))
        = _persistent_storage_filename w
      ∧ default EmptyString
          (files (snd (store_proofs fuel self messages stored w))
             !! _persistent_storage_filename w)
        = default EmptyString (files w !! _persistent_storage_filename w)
            +:+ content_of (line_of <$> entries)
      ∧ (is_Some (files w !! _persistent_storage_filename w) ->
         is_Some (files (snd (store_proofs fuel self messages stored w))
                    !! _persistent_storage_filename w))
      ∧ (forall m rest,
            messages = rest ++ [m] -> Message.packet m ∉ stored -> fuel ≠ 0%nat ->
            head entries = Some (inr (Message.name m, Message.packet m))).
Proof.
  induction fuel as [|fuel IH]; intros messages stored w Hmessages Hdb.
  { exists []. cbn. rewrite string_app_nil_r. split_and!; auto. intros; congruence. }
  cbn [store_proofs].
  destruct (pop messages) as [[m rest]|] eqn:Hpop.
  2:{ exists []. cbn. rewrite string_app_nil_r. split_and!; auto.
      intros m rest ->. apply pop_None in Hpop. destruct rest; discriminate. }
  apply pop_Some in Hpop. subst messages.
  apply Forall_app in Hmessages. destruct Hmessages as [Hrest Hm].
  rewrite Forall_singleton in Hm.
  destruct (bool_decide_reflect (Message.packet m ∈ stored)) as [Hstored|Hfresh].
  { destruct (IH rest stored w Hrest Hdb) as (entries & He & Hn & Hf & Hs & _).
    exists entries. split_and!; auto.
    intros m' rest' Heq Hnot. apply app_inj_tail in Heq. destruct Heq as [_ <-].
    contradiction. }
  pose proof (Hclosed m Hm) as Hproofs. destruct (Hgood m Hm) as [Hname Hpacket].
  destruct (Timeline_check self m) as [allowed proofs]. cbn [snd] in Hproofs.
  set (filename := _persistent_storage_filename w).
  set (w1 := write filename _ w).
  assert (Hw1 : files w1 !! filename
                = Some (default EmptyString (files w !! filename)
                        +:+ line_of (inr (Message.name m, Message.packet m)))).
  { subst w1. apply write_file. }
  set (identity := if bool_decide (_ ∈ _) then w1 else _).
  assert (Hidentity : ∃ extra : list entry,
             Forall well_formed extra
             ∧ _persistent_storage_filename identity = filename
             ∧ _database identity = _database w
             ∧ files identity !! filename
               = Some (default EmptyString (files w !! filename)
                       +:+ content_of (line_of
                                         <$> inr (Message.name m, Message.packet m) :: extra))).
  { subst identity. destruct (bool_decide (_ ∈ _)).
    - exists []. split; [constructor|]. split; [reflexivity|]. split; [reflexivity|].
      rewrite Hw1. cbn [fmap list_fmap content_of foldr]. rewrite string_app_nil_r.
      reflexivity.
    - destruct (select_identity _ _ w1) as [packet|] eqn:Hselect.
      + exists [inr ("dispersy-identity", packet)]. split.
        * constructor; [|constructor]. split; [reflexivity|].
          eapply (select_identity_packet _ _ w1); [exact Hdb|exact Hselect].
        * split; [reflexivity|]. split; [reflexivity|].
          rewrite write_file, Hw1. cbn [default from_option id].
          cbn [fmap list_fmap content_of foldr]. rewrite string_app_nil_r.
          rewrite string_app_assoc. reflexivity.
      + exists []. split; [constructor|]. split; [reflexivity|]. split; [reflexivity|].
        rewrite Hw1. cbn [fmap list_fmap content_of foldr]. rewrite string_app_nil_r.
        reflexivity. }
  destruct Hidentity as (extra & Hextra & Hname2 & Hdb2 & Hfile2).
  destruct (IH (rest ++ proofs) (stored ∪ {[Message.packet m]}) identity)
    as (entries & Hentries & Hname3 & Hfile3 & Hsome3 & _).
  { apply Forall_app. split; assumption. }
  { rewrite Hdb2. exact Hdb. }
  rewrite Hname2 in Hname3, Hfile3, Hsome3.
  exists (inr (Message.name m, Message.packet m) :: extra ++ entries).
  split_and!.
  - constructor; [split; assumption|]. apply Forall_app. split; assumption.
  - exact Hname3.
  - rewrite Hfile3, Hfile2. cbn [default from_option id].
    rewrite string_app_assoc. f_equal.
    rewrite <- content_of_app, <- fmap_app. reflexivity.
  - intros _. apply Hsome3. rewrite Hfile2. eexists. reflexivity.
  - intros m' rest' Heq _ _. apply app_inj_tail in Heq. destruct Heq as [_ <-].
    reflexivity.
Qed.

(** X14.  What [dispersy_cleanup_community] appends to the storage file
    can be reloaded.  When the file consists of well-formed lines (or does
    not exist), the text of the candidate holds no newline, the packets
    stored for identities are not empty, and the destroy message and the
    proofs that the timeline gives for it have a name that is one word not
    starting with [#] and a packet that is not empty, then, at every stage
    of the loop, the file consists of the old lines, the comment line and
    well-formed lines, of which the first is the line of the destroy
    message, and [_load_persistent_storage] reads the file without raising. *)
Theorem dispersy_cleanup_community_storage (good : Message.Implementation -> Prop)
    (self : Community) (message : Message.Implementation) (w : World)
    (old : list entry) (fuel : nat) :
  (forall m, good m -> is_name (Message.name m) = true ∧ Message.packet m ≠ EmptyString) ->
  (forall m, good m -> Forall good (snd (Timeline_check self m))) ->
  good message ->
  no_newline (Candidate_str (Message.candidate message)) = true ->
  Forall (fun r => distribution.sync_packet r ≠ EmptyString) (_database w) ->
  Forall well_formed old ->
  default EmptyString (files w !! _persistent_storage_filename w)
  = content_of (line_of <$> old) ->
  let w' := snd (dispersy_cleanup_community fuel self message w) in
  ∃ new : list entry,
    Forall well_formed (old ++ inl (Candidate_str (Message.candidate message)) :: new)
    ∧ _persistent_storage_filename w' = _persistent_storage_filename w
    ∧ files w' !! _persistent_storage_filename w'
      = Some (content_of
                (line_of <$> old ++ inl (Candidate_str (Message.candidate message)) :: new))
    ∧ (fuel ≠ 0%nat ->
       head new = Some (inr (Message.name message, Message.packet message)))
    ∧ ∃ w'', _load_persistent_storage w' = (Ok tt, w'').
Proof.
  intros Hgood Hclosed Hmessage Hcandidate Hdb Hold Hfile w'.
  subst w'. unfold dispersy_cleanup_community.
  set (filename := _persistent_storage_filename w).
  set (w1 := write _ _ (print _ w)).
  assert (Hw1 : files w1 !! filename
                = Some (content_of (line_of <$> old)
                        +:+ line_of (inl (Candidate_str (Message.candidate message))))).
  { subst w1. change (_persistent_storage_filename (print _ w)) with filename.
    rewrite write_file. change (files (print _ w)) with (files w).
    fold filename in Hfile. rewrite Hfile. reflexivity. }
  destruct (store_proofs_entries good self Hgood Hclosed fuel [message] ∅ w1)
    as (new & Hnew & Hname & Hcontent & Hsome & Hfirst).
  { constructor; [exact Hmessage|constructor]. }
  { exact Hdb. }
  change (_persistent_storage_filename w1) with filename in *.
  destruct Hsome as [content Hcontent']; [rewrite Hw1; eexists; reflexivity|].
  rewrite Hcontent', Hw1 in Hcontent. cbn [default from_option id] in Hcontent.
  assert (Hfile' : files (snd (store_proofs fuel self [message] ∅ w1)) !! filename
                   = Some (content_of
                             (line_of <$> old
                                ++ inl (Candidate_str (Message.candidate message)) :: new))).
  { rewrite Hcontent', Hcontent. f_equal.
    rewrite fmap_app, content_of_app, fmap_cons.
    change (content_of (?l :: ?ls)) with (content_of ([l] ++ ls)).
    rewrite (content_of_app [_]). cbn [content_of foldr].
    rewrite string_app_nil_r, string_app_assoc. reflexivity. }
  exists new.
  assert (Hall : Forall well_formed
                   (old ++ inl (Candidate_str (Message.candidate message)) :: new)).
  { apply Forall_app. split; [exact Hold|]. constructor; [exact Hcandidate|exact Hnew]. }
  split; [exact Hall|]. split; [exact Hname|]. rewrite Hname.
  split; [exact Hfile'|]. split.
  - intros Hfuel. apply (Hfirst message []); [reflexivity|set_solver|exact Hfuel].
  - eexists. apply storage_file_round_trip; [exact Hall|].
    rewrite Hname. exact Hfile'.
Qed.

End tracker_more_properties.

(** ** tool/tracker.py: the rest of [TrackerCommunity] and the reporter *)

Section tracker_community_properties.
Import pystr tracker tracker_community.

Lemma copy_meta_messages_cases {V : Type} (source : gmap string V) (names : list string) :
  forall target : gmap string V,
    match copy_meta_messages source names target with
    | (Return _, copied) =>
        (forall name, name ∈ names -> is_Some (source !! name))
        ∧ forall name, copied !! name
                       = if decide (name ∈ names) then source !! name else target !! name
    | (Throw e, copied) =>
        (∃ name, name ∈ names ∧ source !! name = None ∧ e = KeyError name)
        ∧ forall name meta, copied !! name = Some meta ->
                            target !! name = Some meta
                            ∨ (name ∈ names ∧ source !! name = Some meta)
    end.
Proof.
  induction names as [|name names IH]; intros target.
  - cbn. split; [intros name Hin; inversion Hin|]. intros name.
    rewrite decide_False by (intros Hin; inversion Hin). reflexivity.
  - cbn [copy_meta_messages].
    destruct (source !! name) as [meta|] eqn:Hname.
    + specialize (IH (<[name := meta]> target)).
      destruct (copy_meta_messages source names (<[name := meta]> target))
        as [[[]|e] copied].
      * destruct IH as [Hall Hlookup]. split.
        -- intros n Hin. apply elem_of_cons in Hin. destruct Hin as [->|Hin].
           ++ rewrite Hname. eexists. reflexivity.
           ++ apply Hall. exact Hin.
        -- intros n. rewrite Hlookup.
           destruct (decide (n ∈ names)) as [Hin|Hout].
           ++ rewrite decide_True by (right; exact Hin). reflexivity.
           ++ destruct (decide (n = name)) as [->|Hne].
              ** rewrite decide_True by left. rewrite lookup_insert_eq. congruence.
              ** rewrite decide_False by (rewrite elem_of_cons; tauto).
                 apply lookup_insert_ne. congruence.
      * destruct IH as [(n & Hin & Hnone & He) Hcopied]. split.
        -- exists n. split; [right; exact Hin|]. split; assumption.
        -- intros n' meta' Hcopy. destruct (Hcopied n' meta' Hcopy) as [Htarget|[Hin' Hsrc]].
           ++ destruct (decide (n' = name)) as [->|Hne].
              ** rewrite lookup_insert_eq in Htarget. right. split; [left|congruence].
              ** rewrite lookup_insert_ne in Htarget by congruence. left. exact Htarget.
           ++ right. split; [right; exact Hin'|exact Hsrc].
    + split.
      * exists name. split; [left|]. split; [exact Hname|reflexivity].
      * intros n meta Hn. left. exact Hn.
Qed.

(** X15.  [_initialize_meta_messages] leaves a tracker with the ten
    messages it uses, as the parent defined them, and with no other
    message: when it returns, [self._meta_messages] has exactly the ten
    names as keys.  It raises the [KeyError] of a name among the ten that
    the parent did not define, and then [self._meta_messages] holds only
    messages of the parent under names among the ten. *)
Theorem initialize_meta_messages_keeps_ten {V : Type} (meta_messages : gmap string V) :
  match _initialize_meta_messages meta_messages with
  | (Return _, kept) =>
      (forall name, kept !! name
                    = if decide (name ∈ kept_names) then meta_messages !! name else None)
      ∧ (forall name, name ∈ kept_names -> is_Some (kept !! name))
      ∧ dom kept = list_to_set kept_names
      ∧ size kept = 10%nat
  | (Throw e, kept) =>
      (∃ name, name ∈ kept_names ∧ meta_messages !! name = None ∧ e = KeyError name)
      ∧ forall name meta, kept !! name = Some meta ->
                          name ∈ kept_names ∧ meta_messages !! name = Some meta
  end.
Proof.
  unfold _initialize_meta_messages.
  pose proof (copy_meta_messages_cases meta_messages kept_names ∅) as Hcases.
  destruct (copy_meta_messages meta_messages kept_names ∅) as [[[]|e] kept].
  - destruct Hcases as [Hall Hlookup].
    assert (Hkept : forall name, kept !! name
              = if decide (name ∈ kept_names) then meta_messages !! name else None).
    { intros name. rewrite Hlookup. destruct (decide _); [reflexivity|apply lookup_empty]. }
    assert (Hdom : dom kept = list_to_set kept_names).
    { apply set_eq. intros name. rewrite elem_of_dom, elem_of_list_to_set, Hkept.
      destruct (decide (name ∈ kept_names)) as [Hin|Hout].
      - split; [intros _; exact Hin|intros _; apply Hall; exact Hin].
      - split; [intros [? ?]; discriminate|tauto]. }
    split; [exact Hkept|]. split; [|split; [exact Hdom|]].
    + intros name Hin. rewrite Hkept, decide_True by exact Hin. apply Hall. exact Hin.
    + rewrite <- size_dom, Hdom. vm_compute. reflexivity.
  - destruct Hcases as [Hmissing Hcopied]. split; [exact Hmissing|].
    intros name meta Hname. destruct (Hcopied name meta Hname) as [Hempty|Hin].
    + rewrite lookup_empty in Hempty. discriminate.
    + exact Hin.
Qed.

(** X16.  [get_conversion] caches what it creates.  When it returns a
    conversion, that conversion is stored under the prefix and a second
    call returns it without changing [self._conversions]; the entries of
    other prefixes are never changed, and a default exists after a
    conversion was created.  When it raises, [self._conversions] is as
    before; it raises for a prefix that is not cached and is [None]
    ([TypeError]), shorter than two characters ([IndexError]) or of a
    version other than zero ([KeyError]). *)
Theorem get_conversion_cached {C : Type} (new_conversion : ascii -> C)
    (version_lt : C -> C -> bool) (prefix : option string)
    (conversions : gmap (option string) C) :
  match get_conversion new_conversion version_lt prefix conversions with
  | (Return conversion, conversions') =>
      conversions' !! prefix = Some conversion
      ∧ get_conversion new_conversion version_lt prefix conversions'
        = (Return conversion, conversions')
      ∧ (forall other, other ≠ prefix -> other ≠ None ->
                       conversions' !! other = conversions !! other)
      ∧ (conversions !! prefix = None -> is_Some (conversions' !! None))
  | (Throw e, conversions') =>
      conversions' = conversions
      ∧ conversions !! prefix = None
      ∧ match prefix with
        | None => e = Builtin (TypeError "'NoneType' object has no attribute '__getitem__'")
        | Some p =>
            match String.get 0 p, String.get 1 p with
            | Some first, Some _ => first ≠ "000"%char ∧ e = KeyError "Unknown conversion"
            | Some first, None =>
                if Ascii.eqb first "000"%char
                then e = Builtin (IndexError "string index out of range")
                else e = KeyError "Unknown conversion"
            | None, _ => e = Builtin (IndexError "string index out of range")
            end
        end
  end.
Proof.
  unfold get_conversion.
  destruct (conversions !! prefix) as [cached|] eqn:Hprefix.
  { rewrite Hprefix. split; [reflexivity|]. split; [reflexivity|]. split; [reflexivity|].
    discriminate. }
  destruct prefix as [p|]; [|split; [reflexivity|]; split; reflexivity].
  destruct (String.get 0 p) as [first|] eqn:Hfirst;
    [|split; [reflexivity|]; split; reflexivity].
  destruct (Ascii.eqb first "000"%char) eqn:Hzero.
  2:{ split; [reflexivity|]. split; [reflexivity|].
      destruct (String.get 1 p); [|reflexivity].
      split; [|reflexivity]. intros ->. discriminate. }
  destruct (String.get 1 p) as [second|] eqn:Hsecond;
    [|split; [reflexivity|]; split; reflexivity].
  rewrite lookup_insert_ne by discriminate.
  assert (Hstored : forall conversions' : gmap (option string) C,
             conversions' = <[Some p := new_conversion second]> conversions
             ∨ conversions'
               = <[None := new_conversion second]>
                   (<[Some p := new_conversion second]> conversions) ->
             conversions' !! Some p = Some (new_conversion second)
             ∧ (forall other, other ≠ Some p -> other ≠ None ->
                              conversions' !! other = conversions !! other)).
  { intros conversions' [->| ->].
    - split; [apply lookup_insert_eq|]. intros other Hp _.
      apply lookup_insert_ne. congruence.
    - split.
      + rewrite lookup_insert_ne by discriminate. apply lookup_insert_eq.
      + intros other Hp Hnone. rewrite !lookup_insert_ne by congruence. reflexivity. }
  destruct (conversions !! None) as [default_|] eqn:Hdefault.
  - destruct (version_lt default_ (new_conversion second)).
    + destruct (Hstored _ (or_intror eq_refl)) as [Hp Hother].
      rewrite Hp. split; [reflexivity|]. split; [reflexivity|]. split; [exact Hother|].
      intros _. rewrite lookup_insert_eq. eexists. reflexivity.
    + destruct (Hstored _ (or_introl eq_refl)) as [Hp Hother].
      rewrite Hp. split; [reflexivity|]. split; [reflexivity|]. split; [exact Hother|].
      intros _. rewrite lookup_insert_ne by discriminate. rewrite Hdefault.
      eexists. reflexivity.
  - destruct (Hstored _ (or_intror eq_refl)) as [Hp Hother].
    rewrite Hp. split; [reflexivity|]. split; [reflexivity|]. split; [exact Hother|].
    intros _. rewrite lookup_insert_eq. eexists. reflexivity.
Qed.

(** X17.  [get_conversion] keeps the highest version as the default.  When
    [<] on versions is irreflexive and transitive, and the default
    conversion, stored under [None], has a version that no stored
    conversion exceeds, the same holds after [get_conversion], whatever it
    was asked for. *)
Theorem get_conversion_default_highest {C : Type} (new_conversion : ascii -> C)
    (version_lt : C -> C -> bool) (prefix : option string)
    (conversions : gmap (option string) C) (default_ : C) :
  (forall a, version_lt a a = false) ->
  (forall a b c, version_lt a b = true -> version_lt b c = true -> version_lt a c = true) ->
  conversions !! None = Some default_ ->
  (forall key conversion, conversions !! key = Some conversion ->
                          version_lt default_ conversion = false) ->
  let conversions' := snd (get_conversion new_conversion version_lt prefix conversions) in
  ∃ default' : C,
    conversions' !! None = Some default'
    ∧ forall key conversion, conversions' !! key = Some conversion ->
                             version_lt default' conversion = false.
Proof.
  intros Hirrefl Htrans Hdefault Hmax. unfold get_conversion.
  destruct (conversions !! prefix) as [cached|] eqn:Hprefix.
  { exists default_. split; [exact Hdefault|exact Hmax]. }
  destruct prefix as [p|]; [|exists default_; split; [exact Hdefault|exact Hmax]].
  destruct (String.get 0 p) as [first|];
    [|exists default_; split; [exact Hdefault|exact Hmax]].
  destruct (Ascii.eqb first "000"%char);
    [|exists default_; split; [exact Hdefault|exact Hmax]].
  destruct (String.get 1 p) as [second|];
    [|exists default_; split; [exact Hdefault|exact Hmax]].
  rewrite lookup_insert_ne by discriminate. rewrite Hdefault.
  destruct (version_lt default_ (new_conversion second)) eqn:Hlt; cbn [snd].
  - exists (new_conversion second). split; [apply lookup_insert_eq|].
    intros key conversion Hkey.
    destruct (decide (key = None)) as [->|Hnone].
    { rewrite lookup_insert_eq in Hkey. injection Hkey as <-. apply Hirrefl. }
    rewrite lookup_insert_ne in Hkey by congruence.
    destruct (decide (key = Some p)) as [->|Hp].
    { rewrite lookup_insert_eq in Hkey. injection Hkey as <-. apply Hirrefl. }
    rewrite lookup_insert_ne in Hkey by congruence.
    destruct (version_lt (new_conversion second) conversion) eqn:Hnew; [|reflexivity].
    rewrite <- (Hmax key conversion Hkey). symmetry.
    exact (Htrans _ _ _ Hlt Hnew).
  - exists default_. split; [rewrite lookup_insert_ne by discriminate; exact Hdefault|].
    intros key conversion Hkey.
    destruct (decide (key = Some p)) as [->|Hp].
    { rewrite lookup_insert_eq in Hkey. injection Hkey as <-. exact Hlt. }
    rewrite lookup_insert_ne in Hkey by congruence. exact (Hmax key conversion Hkey).
Qed.

Lemma introduce_candidates_drawn (candidate : option Candidate)
    (results : list (option Candidate)) :
  forall prev_result : option Candidate,
    (length (introduce_candidates candidate prev_result results) <= length results)%nat
    ∧ forall item, item ∈ introduce_candidates candidate prev_result results ->
                   item = None ∨ (item ∈ results ∧ item ≠ candidate).
Proof.
  induction results as [|result results IH]; intros prev_result.
  - cbn. split; [lia|]. intros item Hin. inversion Hin.
  - cbn [introduce_candidates length].
    destruct (bool_decide_reflect (prev_result = result)) as [Hsame|Hnew].
    + destruct (IH prev_result) as [Hlen Hitems]. split; [cbn [length]; lia|].
      intros item Hin. apply elem_of_cons in Hin. destruct Hin as [->|Hin]; [left; reflexivity|].
      destruct (Hitems item Hin) as [->|[Hres Hne]]; [left; reflexivity|].
      right. split; [right; exact Hres|exact Hne].
    + destruct (IH result) as [Hlen Hitems].
      destruct (bool_decide_reflect (result = candidate)) as [Hskip|Hyield].
      * split; [lia|]. intros item Hin.
        destruct (Hitems item Hin) as [->|[Hres Hne]]; [left; reflexivity|].
        right. split; [right; exact Hres|exact Hne].
      * split; [cbn [length]; lia|]. intros item Hin.
        apply elem_of_cons in Hin. destruct Hin as [->|Hin].
        -- right. split; [left|exact Hyield].
        -- destruct (Hitems item Hin) as [->|[Hres Hne]]; [left; reflexivity|].
           right. split; [right; exact Hres|exact Hne].
Qed.

Lemma introduce_candidates_no_repeat (candidate : option Candidate)
    (candidates : list Candidate) :
  candidate ∉ (Some <$> candidates) ->
  forall prev_result : option Candidate,
    let yielded := omap id (introduce_candidates candidate prev_result (Some <$> candidates)) in
    Sorted (fun a b : Candidate => a ≠ b) yielded
    ∧ forall first, head yielded = Some first -> Some first ≠ prev_result.
Proof.
  induction candidates as [|c candidates IH]; intros Hout prev_result.
  - cbn. split; [constructor|discriminate].
  - rewrite fmap_cons in *. apply not_elem_of_cons in Hout. destruct Hout as [Hc Hout].
    cbn [introduce_candidates].
    destruct (bool_decide_reflect (prev_result = Some c)) as [Hsame|Hnew].
    + cbn [omap list_omap id]. exact (IH Hout prev_result).
    + rewrite bool_decide_eq_false_2 by congruence.
      destruct (IH Hout (Some c)) as [Hsorted Hhead].
      cbn zeta in *.
      change (omap id (Some c :: ?l)) with (c :: omap id l).
      split.
      * constructor; [exact Hsorted|].
        destruct (omap id _) as [|next rest]; constructor.
        intros Heq. apply (Hhead next eq_refl). congruence.
      * intros first [= <-]. congruence.
Qed.

Lemma Sorted_adjacent {A : Type} (R : A -> A -> Prop) (l : list A) :
  Sorted R l ->
  forall (i : nat) (a b : A), l !! i = Some a -> l !! S i = Some b -> R a b.
Proof.
  induction 1 as [|x l _ IH Hhd]; intros i a b Ha Hb; [discriminate|].
  destruct i as [|i].
  - cbn in Ha, Hb. injection Ha as <-. destruct Hhd as [|y l Hxy]; [discriminate|].
    cbn in Hb. injection Hb as <-. exact Hxy.
  - cbn in Ha. exact (IH i a b Ha Hb).
Qed.

(** X18.  [dispersy_yield_introduce_candidates] never introduces the
    candidate it was called for.  It yields at most one item for each item
    of its source, every candidate it yields comes from the source and is
    not the excluded one, and, when the source returns candidates only and
    not the excluded one, it never yields the same candidate twice in
    succession: a repetition of the source is answered with [None].  It
    fails on its assertion exactly when a bootstrap address is a key of
    [self._candidates]. *)
Theorem introduce_candidates_excludes (own bootstrap : list (string * Z))
    (candidate : option Candidate) (results : list (option Candidate)) :
  match dispersy_yield_introduce_candidates own bootstrap candidate results with
  | Ok yielded =>
      (forall sock_address, sock_address ∈ bootstrap -> sock_address ∉ own)
      ∧ (length yielded <= length results)%nat
      ∧ (forall item, item ∈ yielded -> item = None ∨ (item ∈ results ∧ item ≠ candidate))
      ∧ (candidate ∉ results -> None ∉ results ->
         forall (i : nat) (a b : Candidate),
           omap id yielded !! i = Some a -> omap id yielded !! S i = Some b -> a ≠ b)
  | Raise e =>
      (∃ sock_address, sock_address ∈ bootstrap ∧ sock_address ∈ own)
      ∧ e = AssertionError
              (Some (VAtom (AStr "none of the bootstrap candidates may be in self._candidates")))
  end.
Proof.
  unfold dispersy_yield_introduce_candidates, assert_.
  destruct (forallb _ bootstrap) eqn:Hcheck; cbn [mbind result_bind mret result_ret].
  - rewrite forallb_forall in Hcheck.
    destruct (introduce_candidates_drawn candidate results None) as [Hlen Hitems].
    split; [|split; [exact Hlen|split; [exact Hitems|]]].
    + intros sock_address Hin. apply list_elem_of_In in Hin.
      specialize (Hcheck sock_address Hin). apply negb_true_iff in Hcheck.
      apply bool_decide_eq_false in Hcheck. exact Hcheck.
    + intros Hout Hnone.
      assert (Hall : ∃ candidates, results = Some <$> candidates).
      { clear -Hnone. induction results as [|[c|] results IH].
        - exists []. reflexivity.
        - destruct IH as [cs ->]; [intros Hin; apply Hnone; right; exact Hin|].
          exists (c :: cs). reflexivity.
        - exfalso. apply Hnone. left. }
      destruct Hall as [candidates ->].
      destruct (introduce_candidates_no_repeat candidate candidates Hout None)
        as [Hsorted _].
      apply (Sorted_adjacent _ _ Hsorted).
  - split; [|reflexivity].
    apply not_true_iff_false in Hcheck. rewrite forallb_forall in Hcheck.
    destruct (decide (Exists (fun a => a ∈ own) bootstrap)) as [Hex|Hnone].
    + apply Exists_exists in Hex. exact Hex.
    + exfalso. apply Hcheck. intros a Hin. apply negb_true_iff, bool_decide_eq_false.
      intros Hown. apply Hnone. apply Exists_exists. exists a.
      split; [apply list_elem_of_In; exact Hin|exact Hown].
Qed.

Lemma print_stdout_only `{Opaque} (items : list string) (w : World) :
  print items w = set_stdout (stdout w ++ [join_space items]) w.
Proof. reflexivity. Qed.

Lemma count_class_sum `{Opaque} (w : World) :
  (count_class TrackerCommunity w + count_class TrackerHardKilledCommunity w)%nat
  = size (_communities w).
Proof.
  unfold count_class. rewrite <- length_map_to_list.
  induction (map_to_list (_communities w)) as [|[cid c] entries IH]; [reflexivity|].
  destruct (community_class c) eqn:Hclass.
  - rewrite filter_cons_True by exact Hclass.
    rewrite filter_cons_False by (cbn; congruence). cbn [length]. lia.
  - rewrite filter_cons_False by (cbn; congruence).
    rewrite filter_cons_True by exact Hclass. cbn [length]. lia.
Qed.

(** X19.  A pass of [_report_statistics] only prints: it appends the
    BANDWIDTH, COMMUNITY and CANDIDATE lines and one OUTGOING line per
    counter to standard output and changes nothing else; the two numbers of
    the COMMUNITY line are the numbers of live and of hard-killed
    communities, and they add up to the number of loaded communities. *)
Theorem report_statistics_counts `{Counters} (w : World) :
  _report_statistics_pass w
  = set_stdout
      (stdout w
       ++ [join_space ["BANDWIDTH"; str_int (endpoint_total_up w);
                       str_int (endpoint_total_down w)];
           join_space ["COMMUNITY"; str_int (Z.of_nat (count_class TrackerCommunity w));
                       str_int (Z.of_nat (count_class TrackerHardKilledCommunity w))];
           join_space ["CANDIDATE"; str_int (Z.of_nat (length (_candidates w)))]]
       ++ ((fun item => join_space ["OUTGOING"; fst item; str_int (snd item)])
             <$> statistics_outgoing w)) w
  ∧ (count_class TrackerCommunity w + count_class TrackerHardKilledCommunity w)%nat
    = size (_communities w).
Proof.
  split; [|apply count_class_sum].
  unfold _report_statistics_pass.
  generalize (statistics_outgoing w) as outgoing.
  generalize (endpoint_total_up w) (endpoint_total_down w). intros up down outgoing.
  assert (Hfold : forall (items : list (string * Z)) (w0 : World),
             fold_left (fun w item => print ["OUTGOING"; fst item; str_int (snd item)] w)
               items w0
             = set_stdout
                 (stdout w0
                  ++ ((fun item => join_space ["OUTGOING"; fst item; str_int (snd item)])
                        <$> items)) w0).
  { induction items as [|item items IH]; intros w0.
    - cbn. rewrite app_nil_r. destruct w0. reflexivity.
    - cbn [fold_left]. rewrite IH. rewrite fmap_cons. destruct w0.
      unfold print, set_stdout. cbn. rewrite <- app_assoc. reflexivity. }
  rewrite Hfold. destruct w. unfold print, set_stdout, count_class. cbn.
  rewrite <- !app_assoc. reflexivity.
Qed.

End tracker_community_properties.

(** ** distribution.py: pruning states and sequence numbers *)

Section distribution_more_properties.
Import distribution.
Import Pruning_Implementation.

Lemma get_state_global_time (p : Pruning_Implementation.t) (heap : Heap) (c : Community)
    (inactive pruned : Z) :
  _meta p = GlobalTimePruning inactive pruned ->
  SyncDistribution.Implementation.community (_distribution p) heap = Ok c ->
  get_state p heap
  = Ok (let d := global_time c
                 - SyncDistribution.Implementation._global_time (_distribution p) in
        if bool_decide (d < inactive) then "active"
        else if bool_decide (d < pruned) then "inactive" else "pruned").
Proof.
  intros Hmeta Hc. unfold get_state, is_active, is_inactive, is_pruned.
  rewrite Hmeta, (age_eq p heap c Hc). cbn [mbind result_bind mret result_ret].
  cbn zeta.
  set (d := global_time c - SyncDistribution.Implementation._global_time (_distribution p)).
  destruct (bool_decide_reflect (d < inactive)) as [Ha|Ha]; [reflexivity|].
  rewrite (bool_decide_eq_true_2 (inactive <= d)) by lia.
  cbn [mbind result_bind mret result_ret].
  destruct (bool_decide_reflect (d < pruned)) as [Hi|Hi]; [reflexivity|].
  rewrite (bool_decide_eq_true_2 (pruned <= d)) by lia. reflexivity.
Qed.

(** X20.  [get_state] never raises its [RuntimeError].  Whatever the two
    thresholds of a [GlobalTimePruning] are, also when they are not
    ordered, one of the three tests holds, so [get_state] returns "active",
    "inactive" or "pruned"; without pruning it returns "active".  The only
    failure is the missing [_community] of a distribution whose [setup] has
    not run. *)
Theorem get_state_never_runtime_error (p : Pruning_Implementation.t) (heap : Heap) :
  match get_state p heap with
  | Ok state => state = "active" ∨ state = "inactive" ∨ state = "pruned"
  | Raise e =>
      e = AttributeError "_community"
      ∧ _meta p ≠ NoPruning
      ∧ SyncDistribution.Implementation.community (_distribution p) heap = Raise e
  end.
Proof.
  destruct (_meta p) as [|inactive pruned] eqn:Hmeta.
  - unfold get_state, is_active. rewrite Hmeta. cbn. auto.
  - destruct (SyncDistribution.Implementation.community (_distribution p) heap)
      as [c|e] eqn:Hc.
    + rewrite (get_state_global_time p heap c inactive pruned Hmeta Hc). cbn zeta.
      repeat destruct (bool_decide _); auto.
    + assert (He : e = AttributeError "_community").
      { unfold SyncDistribution.Implementation.community in Hc.
        destruct (SyncDistribution._community _) as [r|]; [|congruence].
        destruct (heap !! r); congruence. }
      unfold get_state, is_active, age. rewrite Hmeta, Hc. cbn.
      split; [exact He|]. split; [discriminate|reflexivity].
Qed.

(** X21.  The pruning state of a message only moves forward.  When the
    global time of the community grows, a message that is active later was
    active before, a message that is pruned stays pruned, and an inactive
    message does not become active again. *)
Theorem pruning_state_moves_forward (p : Pruning_Implementation.t) (heap heap' : Heap)
    (c c' : Community) :
  SyncDistribution.Implementation.community (_distribution p) heap = Ok c ->
  SyncDistribution.Implementation.community (_distribution p) heap' = Ok c' ->
  global_time c <= global_time c' ->
  (get_state p heap' = Ok "active" -> get_state p heap = Ok "active")
  ∧ (get_state p heap = Ok "pruned" -> get_state p heap' = Ok "pruned")
  ∧ (get_state p heap = Ok "inactive" -> get_state p heap' ≠ Ok "active").
Proof.
  intros Hc Hc' Hle.
  destruct (_meta p) as [|inactive pruned] eqn:Hmeta.
  - assert (Hno : forall h, get_state p h = Ok "active").
    { intros h. unfold get_state, is_active. rewrite Hmeta. reflexivity. }
    rewrite !Hno. split; [auto|]. split; discriminate.
  - rewrite (get_state_global_time p heap c inactive pruned Hmeta Hc).
    rewrite (get_state_global_time p heap' c' inactive pruned Hmeta Hc').
    cbn zeta.
    repeat match goal with
           | |- context [bool_decide ?P] => destruct (bool_decide_reflect P)
           end;
      split_and!; intros; try discriminate; try reflexivity; try lia.
Qed.

Lemma SyncDistribution_setup_counter (message : Message) (b b' : SyncDistribution.t)
    (heap heap' : Heap) :
  SyncDistribution.setup message b heap = Ok (b', heap') ->
  SyncDistribution._current_sequence_number b' = SyncDistribution._current_sequence_number b
  ∧ ∃ c, heap !! community message = Some c.
Proof.
  intros Hsetup.
  destruct (heap !! community message) as [c|] eqn:Hc.
  - destruct (SyncDistribution_setup_keeps message b b' heap heap' c Hc Hsetup) as [Hcur _].
    split; [exact Hcur|]. exists c. reflexivity.
  - unfold SyncDistribution.setup in Hsetup. rewrite Hc in Hsetup. discriminate.
Qed.

(** X22.  When sequence numbers are disabled the sequence number is always
    zero: a [FullSyncDistribution] built with [enable_sequence_number]
    false has counter 0 after [setup], whatever the database holds,
    [claim_sequence_number] fails on its assertion, and an implementation
    can only be built with sequence number 0. *)
Theorem sequence_numbers_disabled (synchronization_direction : direction) (priority : Z)
    (pruning : Pruning) (message : Message) (self self' : FullSyncDistribution.t)
    (heap heap' : Heap) :
  FullSyncDistribution.__init__ synchronization_direction priority false pruning = Ok self ->
  FullSyncDistribution.setup message self heap = Ok (self', heap') ->
  FullSyncDistribution._current_sequence_number self' = 0
  ∧ FullSyncDistribution.claim_sequence_number self' = Raise (AssertionError None)
  ∧ forall (global_time sequence_number : Z) (impl : FullSyncDistribution.Implementation.t),
      FullSyncDistribution.Implementation.__init__ self' global_time sequence_number = Ok impl ->
      sequence_number = 0 ∧ FullSyncDistribution.Implementation.sequence_number impl = 0.
Proof.
  intros Hinit Hsetup.
  unfold FullSyncDistribution.__init__, SyncDistribution.__init__, assert_ in Hinit.
  destruct (bool_decide (0 <= priority <= 255)); [|discriminate].
  cbn in Hinit. injection Hinit as <-.
  unfold FullSyncDistribution.setup in Hsetup. cbn [FullSyncDistribution.base] in Hsetup.
  destruct (SyncDistribution.setup message _ heap) as [[b heap1]|e] eqn:Hbase; [|discriminate].
  cbn in Hsetup. injection Hsetup as <- <-.
  destruct (SyncDistribution_setup_counter _ _ _ _ _ Hbase) as [Hcur _].
  split; [exact Hcur|]. split; [reflexivity|].
  intros global_time sequence_number impl.
  unfold FullSyncDistribution.Implementation.__init__, assert_.
  cbn [FullSyncDistribution._enable_sequence_number andb negb orb].
  destruct (bool_decide_reflect (sequence_number = 0)) as [->|Hne]; [|discriminate].
  cbn [mbind result_bind].
  cbn [FullSyncDistribution.base].
  destruct (SyncDistribution.Implementation.__init__ b global_time) as [s|e];
    cbn [mbind result_bind mret result_ret]; [|discriminate].
  intros [= <-]. split; reflexivity.
Qed.

(** X23.  A claimed sequence number can always be used.  With sequence
    numbers enabled and a counter that is not negative, as [setup] leaves
    it, the number that [claim_sequence_number] returns is positive, and
    building the implementation with it, as [create_sequence_text] does,
    passes the check of the constructor for every positive global time. *)
Theorem claimed_sequence_number_accepted (self self' : FullSyncDistribution.t) (n : Z) :
  0 <= FullSyncDistribution._current_sequence_number self ->
  FullSyncDistribution.claim_sequence_number self = Ok (n, self') ->
  n > 0
  ∧ FullSyncDistribution._current_sequence_number self' = n
  ∧ forall global_time : Z,
      global_time > 0 ->
      ∃ impl : FullSyncDistribution.Implementation.t,
        FullSyncDistribution.Implementation.__init__ self' global_time n = Ok impl
        ∧ FullSyncDistribution.Implementation.sequence_number impl = n
        ∧ FullSyncDistribution.Implementation.global_time impl = global_time.
Proof.
  intros Hcur. unfold FullSyncDistribution.claim_sequence_number, assert_.
  destruct (FullSyncDistribution._enable_sequence_number self) eqn:Hen; [|discriminate].
  cbn. intros [= <- <-]. split; [lia|]. split; [reflexivity|].
  intros global_time Hgt.
  unfold FullSyncDistribution.Implementation.__init__,
    SyncDistribution.Implementation.__init__, assert_.
  cbn [FullSyncDistribution._enable_sequence_number andb orb].
  rewrite !bool_decide_eq_true_2 by lia. cbn.
  eexists. split; [reflexivity|]. split; reflexivity.
Qed.

Lemma update_meta_message_twice (priority direction id : Z) (db : Database) :
  update_meta_message priority direction id (update_meta_message priority direction id db)
  = update_meta_message priority direction id db.
Proof.
  unfold update_meta_message. cbn [sync meta_message changes]. f_equal.
  - induction (meta_message db) as [|r rows IH]; [reflexivity|].
    cbn [map]. rewrite IH. f_equal.
    destruct (bool_decide_reflect (mm_id r = id)) as [Hid|Hid].
    + cbn [mm_id]. rewrite bool_decide_eq_true_2 by exact Hid. reflexivity.
    + rewrite bool_decide_eq_false_2 by exact Hid. reflexivity.
  - induction (meta_message db) as [|r rows IH]; [reflexivity|].
    cbn [map].
    destruct (bool_decide_reflect (mm_id r = id)) as [Hid|Hid].
    + rewrite !filter_cons_True by exact Hid. cbn [length]. rewrite IH. reflexivity.
    + rewrite !filter_cons_False by exact Hid. exact IH.
Qed.

Lemma SyncDistribution_setup_again (message : Message) (b0 b b' : SyncDistribution.t)
    (heap heap1 : Heap) :
  SyncDistribution.setup message b0 heap = Ok (b, heap1) ->
  SyncDistribution._priority b' = SyncDistribution._priority b0 ->
  SyncDistribution._synchronization_direction b'
  = SyncDistribution._synchronization_direction b0 ->
  SyncDistribution.setup message b' heap1
  = Ok (SyncDistribution.set_community (community message) b', heap1).
Proof.
  intros Hsetup Hp Hd. revert Hsetup. unfold SyncDistribution.setup.
  unfold SyncDistribution.synchronization_direction_value.
  cbn [SyncDistribution.set_community SyncDistribution._priority
         SyncDistribution._synchronization_direction].
  rewrite Hp, Hd.
  destruct (heap !! community message) as [c|] eqn:Hc; [|discriminate].
  destruct (meta_message_cache c !! name message) as [cache|] eqn:Hcache; [|discriminate].
  destruct (bool_decide (cache_priority cache = _) && bool_decide (_ = _)) eqn:Hcurrent.
  - intros [= <- <-]. rewrite Hc, Hcache, Hcurrent. reflexivity.
  - unfold assert_.
    match goal with
    | |- context [bool_decide (changes ?db = 1%nat)] =>
        destruct (bool_decide_reflect (changes db = 1%nat)) as [Hone|Hmany]
    end; [|discriminate].
    cbn [mbind result_bind mret result_ret]. intros [= <- <-].
    rewrite lookup_insert_eq. cbn [with_database meta_message_cache database].
    rewrite Hcache, Hcurrent.
    rewrite update_meta_message_twice.
    rewrite (bool_decide_eq_true_2 _ Hone). cbn [mbind result_bind mret result_ret].
    rewrite insert_insert_eq. reflexivity.
Qed.

(** X24.  [setup] can be repeated.  After a [setup] that succeeded, a
    second [setup] of the same message succeeds and changes neither the
    distribution nor the database: the cache of the community is not
    refreshed by the update, so the same update is written again, to the
    same effect, and the same number of stored rows is counted. *)
Theorem setup_idempotent (message : Message) (self self' : FullSyncDistribution.t)
    (heap heap' : Heap) :
  FullSyncDistribution.setup message self heap = Ok (self', heap') ->
  FullSyncDistribution.setup message self' heap' = Ok (self', heap').
Proof.
  unfold FullSyncDistribution.setup.
  destruct (SyncDistribution.setup message (FullSyncDistribution.base self) heap)
    as [[b heap1]|e] eqn:Hbase; [|discriminate].
  cbn [mbind result_bind].
  assert (Hb : b = SyncDistribution.set_community (community message)
                     (FullSyncDistribution.base self)).
  { revert Hbase. unfold SyncDistribution.setup.
    destruct (heap !! community message) as [c|]; [|discriminate].
    destruct (meta_message_cache c !! name message) as [cache|]; [|discriminate].
    destruct (_ && _).
    - intros [= <- _]. reflexivity.
    - unfold assert_. destruct (bool_decide _); [|discriminate].
      intros [= <- _]. reflexivity. }
  destruct (FullSyncDistribution._enable_sequence_number self) eqn:Hen.
  - destruct (heap1 !! community message) as [c1|] eqn:Hc1; [|discriminate].
    cbn [mret result_ret]. intros [= <- <-].
    cbn [FullSyncDistribution.base FullSyncDistribution._enable_sequence_number].
    rewrite (SyncDistribution_setup_again message _ _ _ _ _ Hbase)
      by (rewrite Hb; reflexivity).
    cbn [mbind result_bind]. rewrite Hc1. rewrite Hb. reflexivity.
  - cbn [mret result_ret]. intros [= <- <-].
    cbn [FullSyncDistribution.base FullSyncDistribution._enable_sequence_number].
    rewrite (SyncDistribution_setup_again message _ _ _ _ _ Hbase)
      by (rewrite Hb; reflexivity).
    cbn [mbind result_bind]. rewrite Hb. reflexivity.
Qed.

End distribution_more_properties.

(* --------------------------------------------------------------------- *)
(** ** The properties on concrete instances                               *)
(* --------------------------------------------------------------------- *)

Section more_instances.
Import pystr pystruct tracker storage_format tracker_community.

(** X6 on the ASCII payload [examples.chat] between two other fields. *)
Lemma chat_text_round_trip_witness :
  ∃ parts : list string,
    @tutorial._encode_text examples.ascii_text examples.chat = Return parts
    ∧ @tutorial._decode_text examples.ascii_text 4
        ("head" +:+ debug_conversion.joined parts +:+ "tail")
      = Return (28%nat, examples.chat).
Proof.
  apply (@chat_text_round_trip examples.ascii_text "head" "tail" examples.chat);
    vm_compute; reflexivity.
Defined.

(** X7 on a packet that announces a nickname of five bytes and ends
    after its header. *)
Lemma chat_text_decode_overrun_witness :
  @tutorial._decode_text examples.ascii_text 2 ("hd" +:+ be32 5 +:+ be32 0 +:+ EmptyString)
  = Return (15%nat, {| tutorial.TextPayload.nickname := EmptyString : @tutorial.unicode examples.ascii_text;
                       tutorial.TextPayload.text := EmptyString |})
  ∧ (String.length ("hd" +:+ be32 5 +:+ be32 0 +:+ EmptyString) < 15)%nat.
Proof.
  apply (@chat_text_decode_overrun examples.ascii_text "hd" 5%N EmptyString);
    [reflexivity|lia].
Defined.

(** X10 on [demo.storage]. *)
Lemma storage_file_round_trip_witness :
  read_packets (readlines (content_of (line_of <$> examples.entries))) = Ok demo.packets
  ∧ ∃ w' : @World demo.types,
      @_load_persistent_storage demo.types demo.externals (demo.world demo.storage true)
      = (Ok tt, w')
      ∧ base w' = rev demo.packets.
Proof.
  destruct (@storage_file_round_trip demo.types demo.externals
              (demo.world demo.storage true) examples.entries) as [Hread Hload].
  - repeat constructor; try (vm_compute; reflexivity); discriminate.
  - vm_compute. reflexivity.
  - split; [exact Hread|]. eexists. split; [exact Hload|]. vm_compute. reflexivity.
Defined.

(** X13 for the request of [demo.walker], whose proofs are none. *)
Lemma dispersy_cleanup_community_terminates_witness :
  fst (@dispersy_cleanup_community demo.types demo.externals 3 demo.live
         (demo.request demo.walker) (demo.world demo.storage true))
  = Some TrackerHardKilledCommunity.
Proof.
  apply (@dispersy_cleanup_community_terminates demo.types demo.externals
           {[ "packet" ]} 0 demo.live (demo.request demo.walker)
           (demo.world demo.storage true)).
  - apply elem_of_singleton. reflexivity.
  - intros m _. constructor.
  - intros m. cbn. lia.
  - rewrite size_singleton. lia.
Defined.

(** X14 on [demo.storage]: the comment of the walker and the record of
    its request follow the four entries of the file. *)
Lemma dispersy_cleanup_community_storage_witness :
  ∃ new : list entry,
    Forall well_formed (examples.entries ++ inl "10.0.0.1" :: new)
    ∧ files (snd (@dispersy_cleanup_community demo.types demo.externals 3 demo.live
                    (demo.request demo.walker) (demo.world demo.storage true)))
        !! "./persistent-storage.data"
      = Some (content_of (line_of <$> examples.entries ++ inl "10.0.0.1" :: new))
    ∧ head new = Some (inr ("dispersy-introduction-request", "packet")).
Proof.
  destruct (@dispersy_cleanup_community_storage demo.types demo.externals
              (fun m => m = demo.request demo.walker) demo.live
              (demo.request demo.walker) (demo.world demo.storage true)
              examples.entries 3) as (new & Hformed & Hname & Hfile & Hhead & _).
  - intros m ->. split; [reflexivity|discriminate].
  - intros m _. constructor.
  - reflexivity.
  - reflexivity.
  - constructor.
  - repeat constructor; try (vm_compute; reflexivity); discriminate.
  - vm_compute. reflexivity.
  - exists new. split; [exact Hformed|]. split.
    + rewrite Hname in Hfile. exact Hfile.
    + apply Hhead. discriminate.
Defined.

(** X17 on a tracker that knows version 1 and receives a packet of
    version 2: the new conversion becomes the default. *)
Lemma get_conversion_default_highest_witness :
  ∃ default' : ascii,
    snd (get_conversion id examples.version_lt (Some examples.prefix) examples.conversions)
      !! None = Some default'
    ∧ forall key conversion,
        snd (get_conversion id examples.version_lt (Some examples.prefix) examples.conversions)
          !! key = Some conversion ->
        examples.version_lt default' conversion = false.
Proof.
  apply (get_conversion_default_highest id examples.version_lt (Some examples.prefix)
           examples.conversions "001"%char).
  - intros a. apply N.ltb_irrefl.
  - intros a b c Hab Hbc. unfold examples.version_lt in *.
    apply N.ltb_lt. apply N.ltb_lt in Hab, Hbc. lia.
  - reflexivity.
  - intros key conversion Hkey.
    assert (Hone : conversion = "001"%char).
    { unfold examples.conversions in Hkey.
      apply lookup_insert_Some in Hkey as [[_ <-]|[_ Hkey]]; [reflexivity|].
      apply lookup_singleton_Some in Hkey as [_ <-]. reflexivity. }
    rewrite Hone. reflexivity.
Defined.

End more_instances.

Section distribution_instances.
Import distribution.
Import Pruning_Implementation.

(** X21 on [demo.pruned_message] while the global time of its community
    moves from 10 to 17: inactive before, not active after. *)
Lemma pruning_state_moves_forward_witness :
  get_state demo.pruned_message demo.heap0 = Ok "inactive"
  ∧ get_state demo.pruned_message {[ 0%nat := examples.community7 ]} ≠ Ok "active".
Proof.
  destruct (pruning_state_moves_forward demo.pruned_message demo.heap0
              {[ 0%nat := examples.community7 ]} demo.community0 examples.community7)
    as (_ & _ & Hinactive).
  - reflexivity.
  - reflexivity.
  - cbn. lia.
  - split; [reflexivity|]. apply Hinactive. reflexivity.
Defined.

(** X22 on [demo.full_sync false] and [demo.sequence_text]. *)
Lemma sequence_numbers_disabled_witness :
  FullSyncDistribution.__init__ ASC 128 false NoPruning = Ok (demo.full_sync false)
  ∧ ∃ self' : FullSyncDistribution.t,
      FullSyncDistribution.setup demo.sequence_text (demo.full_sync false) demo.heap0
      = Ok (self', demo.heap0)
      ∧ FullSyncDistribution._current_sequence_number self' = 0
      ∧ FullSyncDistribution.claim_sequence_number self' = Raise (AssertionError None).
Proof.
  split; [reflexivity|]. eexists. split; [reflexivity|].
  destruct (sequence_numbers_disabled ASC 128 NoPruning demo.sequence_text
              (demo.full_sync false) _ demo.heap0 demo.heap0 eq_refl eq_refl)
    as (Hzero & Hclaim & _).
  split; [exact Hzero|exact Hclaim].
Defined.

(** X23 on [demo.full_sync_ready]: the third number is claimed and is
    accepted by the implementation. *)
Lemma claimed_sequence_number_accepted_witness :
  ∃ (self' : FullSyncDistribution.t),
    FullSyncDistribution.claim_sequence_number demo.full_sync_ready = Ok (3, self')
    ∧ ∃ impl : FullSyncDistribution.Implementation.t,
        FullSyncDistribution.Implementation.__init__ self' 11 3 = Ok impl
        ∧ FullSyncDistribution.Implementation.sequence_number impl = 3.
Proof.
  assert (Hcounter : 0 <= FullSyncDistribution._current_sequence_number demo.full_sync_ready)
    by (cbn; lia).
  destruct (claimed_sequence_number_accepted demo.full_sync_ready _ 3 Hcounter eq_refl)
    as (_ & _ & Himpl).
  destruct (Himpl 11) as (impl & Hinit & Hnumber & _); [lia|].
  eexists. split; [reflexivity|].
  exists impl. split; [exact Hinit|exact Hnumber].
Defined.

(** X24 on a community whose cache is stale: the first [setup] writes the
    priority of the policy to the database, the second one leaves what
    the first one left. *)
Lemma setup_idempotent_witness :
  ∃ (self' : FullSyncDistribution.t) (heap' : Heap),
    FullSyncDistribution.setup demo.sequence_text (demo.full_sync true)
      {[ 0%nat := examples.stale_community ]} = Ok (self', heap')
    ∧ heap' ≠ {[ 0%nat := examples.stale_community ]}
    ∧ FullSyncDistribution.setup demo.sequence_text self' heap' = Ok (self', heap').
Proof.
  eexists _, _. split; [vm_compute; reflexivity|]. split.
  - intros Hheap. apply (f_equal (fun heap => changes ∘ database <$> heap !! 0%nat)) in Hheap.
    vm_compute in Hheap. discriminate.
  - apply (setup_idempotent demo.sequence_text (demo.full_sync true) _
             {[ 0%nat := examples.stale_community ]}).
    vm_compute. reflexivity.
Defined.

End distribution_instances.
